(** * Zomato delivery dashboard ([app.py]): loader, filter and aggregations

    A shallow embedding of the data-preparation logic of [app.py]:
    [load_data] (lines 13-39), the filter mask (lines 70-80), the KPI cards
    (lines 83-86) and the eight aggregations (lines 94-168).

    The dataframe library is modelled by the small fragment the script
    calls.  A cell is a [value]; a [Series] is a list of cells; a
    [DataFrame] is a row count with named columns; dataframes live in a
    store of objects addressed by references, since the script assigns
    columns in place. *)

From Stdlib Require Import ZArith QArith Qround Qabs String Ascii List Lia Bool.
From Stdlib Require Import DecimalString Lqa.
From stdpp Require Import base list.
Import ListNotations.

Local Open Scope string_scope.
Local Open Scope list_scope.
Local Open Scope Z_scope.

(** ** Cells *)

(** A binary64 number that is not NaN is represented by its exact rational
    value (a spreadsheet cell cannot hold an infinity).  [NaN] stands for
    every missing marker ([nan], [NaT]).  A [Timestamp] counts nanoseconds
    since 1970-01-01. *)
Inductive value : Type :=
| NaN
| Int (z : Z)
| Float (q : Q)
| Str (s : string)
| Bool (b : bool)
| Timestamp (ns : Z).

Abbreviation Series := (list value) (only parsing).

Inductive exn : Type :=
| KeyError (key : string)
| IndexError
| TypeError
| ValueError
| AttributeError
| ReferenceError
| FileNotFoundError.

Inductive result (A : Type) : Type :=
| Ok (a : A)
| Raise (e : exn).
Arguments Ok {A} a.
Arguments Raise {A} e.

Definition rbind {A B} (r : result A) (f : A -> result B) : result B :=
  match r with
  | Ok a => f a
  | Raise e => Raise e
  end.

Fixpoint rmap {A B} (f : A -> result B) (l : list A) : result (list B) :=
  match l with
  | [] => Ok []
  | x :: l' => rbind (f x) (fun y => rbind (rmap f l') (fun ys => Ok (y :: ys)))
  end.

Definition isna (v : value) : bool :=
  match v with NaN => true | _ => false end.

Definition notna (v : value) : bool := negb (isna v).

(** The numeric reading of a cell: Python's [bool] is an [int]. *)
Definition as_number (v : value) : option Q :=
  match v with
  | Int z => Some (inject_Z z)
  | Float q => Some q
  | Bool b => Some (inject_Z (Z.b2z b))
  | _ => None
  end.

(** ** Text: [str.strip] and [str.title] on ASCII text

    A text is held as its UTF-8 bytes.  The functions of this module are
    Python's [str.strip] and [str.title] on a text of ASCII characters,
    where white space is the characters 9-13 and 28-32 and the cased
    characters are the letters A-Z and a-z.  What Python does with a text
    that has other characters (it strips the no-break space as well, and
    cases accented letters) is not defined here: it is left to the
    runtime below, which agrees with this module on ASCII text. *)

Module PyStr.

Fixpoint is_ascii (s : string) : bool :=
  match s with
  | String c s' => (nat_of_ascii c <? 128)%nat && is_ascii s'
  | EmptyString => true
  end.

Definition is_space (c : ascii) : bool :=
  let n := nat_of_ascii c in
  ((9 <=? n) && (n <=? 13) || (28 <=? n) && (n <=? 32))%nat.

Definition is_upper (c : ascii) : bool :=
  let n := nat_of_ascii c in ((65 <=? n) && (n <=? 90))%nat.

Definition is_lower (c : ascii) : bool :=
  let n := nat_of_ascii c in ((97 <=? n) && (n <=? 122))%nat.

Definition is_cased (c : ascii) : bool := is_upper c || is_lower c.

Definition upper (c : ascii) : ascii :=
  if is_lower c then ascii_of_nat (nat_of_ascii c - 32) else c.

Definition lower (c : ascii) : ascii :=
  if is_upper c then ascii_of_nat (nat_of_ascii c + 32) else c.

Fixpoint lstrip (s : string) : string :=
  match s with
  | String c s' => if is_space c then lstrip s' else s
  | EmptyString => EmptyString
  end.

(** [rstrip] drops the trailing run of white space. *)
Fixpoint rstrip (s : string) : string :=
  match s with
  | String c s' =>
      match rstrip s' with
      | EmptyString => if is_space c then EmptyString else String c EmptyString
      | r => String c r
      end
  | EmptyString => EmptyString
  end.

Definition strip (s : string) : string := rstrip (lstrip s).

(** [str.title]: a cased character is upper-cased when the previous
    character is not cased, lower-cased otherwise. *)
Fixpoint title_from (previous_is_cased : bool) (s : string) : string :=
  match s with
  | String c s' =>
      String (if previous_is_cased then lower c else upper c)
             (title_from (is_cased c) s')
  | EmptyString => EmptyString
  end.

Definition title (s : string) : string := title_from false s.

End PyStr.

(** ** The order-period bucketing (lines 118-126) *)

Definition order_period (x : Z) : string :=
  if (4 <=? x) && (x <? 11) then "Morning"
  else if (11 <=? x) && (x <? 14) then "Afternoon"
  else if (14 <=? x) && (x <? 18) then "Evening"
  else "Night".

(** ** Numbers *)

(** Round half to even, as [numpy.rint] does on the exact value. *)
Definition rint (q : Q) : Z :=
  let f := Qfloor q in
  match Qcompare (q - inject_Z f) (1 # 2) with
  | Lt => f
  | Gt => f + 1
  | Eq => if Z.even f then f else f + 1
  end.

(** Conversion of a float to an integer drops the fractional part. *)
Definition trunc (q : Q) : Z :=
  if Qle_bool 0 q then Qfloor q else Qceiling q.

Definition clamp (lower upper x : Z) : Z := Z.min upper (Z.max lower x).

Definition ns_per_hour : Z := 3600 * 1000000000.
Definition ns_per_day : Z := 24 * ns_per_hour.

(** Days from 1970-01-01 back to the spreadsheet epoch 1899-12-30. *)
Definition excel_epoch_days : Z := -25569.

(** ** Data frames *)

Fixpoint assoc {A : Type} (k : string) (l : list (string * A)) : option A :=
  match l with
  | [] => None
  | (k', v) :: l' => if String.eqb k k' then Some v else assoc k l'
  end.

(** Assignment to a key keeps the position of an existing entry and puts
    a new one last. *)
Fixpoint assoc_set {A : Type} (k : string) (v : A) (l : list (string * A))
  : list (string * A) :=
  match l with
  | [] => [(k, v)]
  | (k', v') :: l' =>
      if String.eqb k k' then (k, v) :: l' else (k', v') :: assoc_set k v l'
  end.

Record DataFrame : Type := {
  nrows : nat;                          (* [len(df)] *)
  columns : list (string * Series)
}.

(** Every column has one cell per row. *)
Definition well_formed (df : DataFrame) : Prop :=
  Forall (fun c => length (snd c) = nrows df) (columns df).

(** [c in df.columns] *)
Definition has_column (c : string) (df : DataFrame) : bool :=
  match assoc c (columns df) with Some _ => true | None => false end.

(** [df[c]] *)
Definition getitem (df : DataFrame) (c : string) : result Series :=
  match assoc c (columns df) with
  | Some s => Ok s
  | None => Raise (KeyError c)
  end.

(** [df[c] = s] *)
Definition setitem (df : DataFrame) (c : string) (s : Series) : DataFrame :=
  {| nrows := nrows df; columns := assoc_set c s (columns df) |}.

(** ** What the script takes from the Python runtime

    The date parser, the printers of floats and time stamps, the integer
    parser and the methods of [str] are library code outside the
    script. *)
Class Runtime : Type := {
  (** conversion to a time stamp of a cell that is neither missing nor a
      time stamp already, with the [dayfirst] flag; [None] when the cell
      does not parse *)
  parse_datetime : bool -> value -> option Z;
  (** [str] of a float *)
  repr_float : Q -> string;
  (** [str] of a time stamp *)
  str_timestamp : Z -> string;
  (** [int] of a text *)
  int_of_str : string -> option Z;
  (** [pd.read_excel]: the table of a file, or the error of a missing or
      unreadable one *)
  read_excel : string -> result DataFrame;
  (** [str.strip()] and [str.title()], on any text *)
  py_strip : string -> string;
  py_title : string -> string;
  (** on a text of ASCII characters they are the functions of [PyStr] *)
  py_strip_ascii :
    forall s, PyStr.is_ascii s = true -> py_strip s = PyStr.strip s;
  py_title_ascii :
    forall s, PyStr.is_ascii s = true -> py_title s = PyStr.title s
}.

Definition str_of_Z (z : Z) : string := NilZero.string_of_int (Z.to_int z).

Section Cells.
Context {RT : Runtime}.

(** [Series.round()]: floats are rounded, other blocks are returned as
    they are. *)
Definition round_cell (v : value) : value :=
  match v with
  | Float q => Float (inject_Z (rint q))
  | _ => v
  end.

(** [Series.clip(lower, upper)]: missing cells stay missing; text and
    time stamps do not compare with integers. *)
Definition clip_cell (lower upper : Z) (v : value) : result value :=
  match v with
  | NaN => Ok NaN
  | Int z => Ok (Int (clamp lower upper z))
  | Bool b => Ok (Int (clamp lower upper (Z.b2z b)))
  | Float q =>
      Ok (if Qle_bool (inject_Z lower) q
          then if Qle_bool q (inject_Z upper) then Float q
               else Float (inject_Z upper)
          else Float (inject_Z lower))
  | Str _ | Timestamp _ => Raise TypeError
  end.

(** [Series.astype(int)]: a missing cell cannot be cast. *)
Definition astype_int_cell (v : value) : result Z :=
  match v with
  | NaN => Raise ValueError
  | Int z => Ok z
  | Float q => Ok (trunc q)
  | Bool b => Ok (Z.b2z b)
  | Str s => match int_of_str s with Some z => Ok z | None => Raise ValueError end
  | Timestamp ns => Ok ns
  end.

(** [Series.astype(str)]: Python's [str] of each cell. *)
Definition astype_str_cell (v : value) : string :=
  match v with
  | NaN => "nan"
  | Int z => str_of_Z z
  | Float q => repr_float q
  | Str s => s
  | Bool true => "True"
  | Bool false => "False"
  | Timestamp ns => str_timestamp ns
  end.

Definition fillna_cell (fill : value) (v : value) : value :=
  if isna v then fill else v.

(** [pd.to_datetime(..., errors="coerce")] on one cell. *)
Definition to_datetime_cell (dayfirst : bool) (v : value) : value :=
  match v with
  | NaN => NaN
  | Timestamp ns => Timestamp ns
  | _ => match parse_datetime dayfirst v with
         | Some ns => Timestamp ns
         | None => NaN
         end
  end.

(** [pd.to_datetime("1899-12-30") + pd.to_timedelta(cell, unit="D")] on a
    cell of a numeric column. *)
Definition excel_serial_cell (v : value) : value :=
  match v with
  | Int z => Timestamp ((excel_epoch_days + z) * ns_per_day)
  | Float q =>
      Timestamp (excel_epoch_days * ns_per_day + trunc (q * inject_Z ns_per_day))
  | _ => NaN
  end.

(** [np.issubdtype(series.dtype, np.number)]: an int64 or float64 column
    holds integers, floats and missing cells only. *)
Definition is_number_dtype (s : Series) : bool :=
  forallb (fun v => match v with NaN | Int _ | Float _ => true | _ => false end) s.

(** [Series.dt.hour]: the accessor exists on datetime columns only. *)
Definition dt_hour_cell (v : value) : result value :=
  match v with
  | NaN => Ok NaN
  | Timestamp ns => Ok (Int ((ns / ns_per_hour) mod 24))
  | _ => Raise AttributeError
  end.

Definition series_round (s : Series) : Series := map round_cell s.
Definition series_clip (lower upper : Z) (s : Series) : result Series :=
  rmap (clip_cell lower upper) s.
Definition astype_int (s : Series) : result (list Z) := rmap astype_int_cell s.
Definition astype_str (s : Series) : list string := map astype_str_cell s.
Definition fillna (fill : value) (s : Series) : Series := map (fillna_cell fill) s.
Definition to_datetime (dayfirst : bool) (s : Series) : Series :=
  map (to_datetime_cell dayfirst) s.
Definition dt_hour (s : Series) : result Series := rmap dt_hour_cell s.

(** [Series.str.strip()], [Series.str.title()] and
    [Series.replace({"True": "Yes", "False": "No"})] on a text column. *)
Definition str_strip (s : list string) : list string := map py_strip s.
Definition str_title (s : list string) : list string := map py_title s.

Definition replace (d : list (string * string)) (s : list string) : list string :=
  map (fun x => match assoc x d with Some y => y | None => x end) s.

End Cells.

(** ** The loader (lines 13-39) *)

Declare Scope result_scope.
Delimit Scope result_scope with result.
Notation "x <- c1 ;; c2" := (rbind c1 (fun x => c2))
  (at level 100, c1 at next level, right associativity) : result_scope.

Section Loader.
Context {RT : Runtime}.
Local Open Scope result_scope.

(** Lines 20-24: [Order_Date], a spreadsheet serial or a text, becomes a
    time stamp. *)
Definition convert_order_date (df : DataFrame) : result DataFrame :=
  order_date <- getitem df "Order_Date" ;;
  if is_number_dtype order_date
  then Ok (setitem df "Order_Date" (map excel_serial_cell order_date))
  else Ok (setitem df "Order_Date" (to_datetime true order_date)).

(** Lines 26-32: [order_hour], when the file has none. *)
Definition derive_order_hour (df : DataFrame) : result DataFrame :=
  if negb (has_column "order_hour" df) then
    if has_column "Time_Orderd" df then
      time_orderd <- getitem df "Time_Orderd" ;;
      let dt := to_datetime false time_orderd in
      hour <- dt_hour dt ;;
      Ok (setitem df "order_hour" hour)
    else
      order_date <- getitem df "Order_Date" ;;
      hour <- dt_hour order_date ;;
      hour <- astype_int (fillna (Int 0) hour) ;;
      Ok (setitem df "order_hour" (map Int hour))
  else Ok df.

(** Lines 34-35: [Rating_Group], when the file has none and has the
    ratings. *)
Definition derive_rating_group (df : DataFrame) : result DataFrame :=
  if negb (has_column "Rating_Group" df)
     && has_column "Delivery_person_Ratings" df then
    ratings <- getitem df "Delivery_person_Ratings" ;;
    clipped <- series_clip 1 5 (series_round ratings) ;;
    group <- astype_int clipped ;;
    Ok (setitem df "Rating_Group" (map Int group))
  else Ok df.

(** Lines 37-38: [Festival] to Yes/No. *)
Definition normalize_festival (df : DataFrame) : result DataFrame :=
  if has_column "Festival" df then
    festival <- getitem df "Festival" ;;
    Ok (setitem df "Festival"
          (map Str (replace [("True", "Yes"); ("False", "No")]
                      (str_title (str_strip (astype_str festival))))))
  else Ok df.

Definition load_data (path : string) : result DataFrame :=
  df <- read_excel path ;;
  df <- convert_order_date df ;;
  df <- derive_order_hour df ;;
  df <- derive_rating_group df ;;
  df <- normalize_festival df ;;
  Ok df.

End Loader.

(** ** Comparison, selection and grouping *)

Section Frames.
Local Open Scope result_scope.

(** Equality of cells as [isin] and the group keys see it: numbers by
    value, text by characters; a missing cell matches a missing cell. *)
Definition cell_eqb (a b : value) : bool :=
  match a, b with
  | NaN, NaN => true
  | Str s, Str t => String.eqb s t
  | Timestamp s, Timestamp t => Z.eqb s t
  | _, _ =>
      match as_number a, as_number b with
      | Some x, Some y => Qeq_bool x y
      | _, _ => false
      end
  end.

(** [a <= b]: false when either side is missing, an error between cells
    of different kinds. *)
Definition cell_leb (a b : value) : result bool :=
  match a, b with
  | NaN, _ | _, NaN => Ok false
  | Str s, Str t => Ok (String.leb s t)
  | Timestamp s, Timestamp t => Ok (Z.leb s t)
  | _, _ =>
      match as_number a, as_number b with
      | Some x, Some y => Ok (Qle_bool x y)
      | _, _ => Raise TypeError
      end
  end.

(** [Series.between(left, right)], both ends included. *)
Definition between (left right : value) (s : Series) : result (list bool) :=
  rmap (fun v =>
          ge <- cell_leb left v ;;
          le <- cell_leb v right ;;
          Ok (ge && le)) s.

(** [Series.isin(values)] *)
Definition isin (values : list value) (s : Series) : list bool :=
  map (fun v => existsb (cell_eqb v) values) s.

(** [a & b] on two masks *)
Fixpoint mask_and (a b : list bool) : list bool :=
  match a, b with
  | x :: a', y :: b' => (x && y) :: mask_and a' b'
  | _, _ => []
  end.

(** The cells of [s] at the positions where the mask holds. *)
Fixpoint select {A : Type} (mask : list bool) (s : list A) : list A :=
  match mask, s with
  | m :: mask', x :: s' => if m then x :: select mask' s' else select mask' s'
  | _, _ => []
  end.

(** [df.loc[mask].copy()]: a new frame with the selected rows. *)
Definition loc (df : DataFrame) (mask : list bool) : DataFrame :=
  {| nrows := length (select mask (seq 0 (nrows df)));
     columns := map (fun c => (fst c, select mask (snd c))) (columns df) |}.

(** [Series.min()] and [Series.max()] skip missing cells and are missing
    on a column without a value. *)
Fixpoint series_min (s : Series) : result value :=
  match s with
  | [] => Ok NaN
  | v :: s' =>
      m <- series_min s' ;;
      if isna v then Ok m
      else if isna m then Ok v
      else le <- cell_leb v m ;; Ok (if le then v else m)
  end.

Fixpoint series_max (s : Series) : result value :=
  match s with
  | [] => Ok NaN
  | v :: s' =>
      m <- series_max s' ;;
      if isna v then Ok m
      else if isna m then Ok v
      else le <- cell_leb m v ;; Ok (if le then v else m)
  end.

(** [Timestamp.date()] as a day count, and [pd.to_datetime(date)]. *)
Definition date_of (v : value) : option Z :=
  match v with
  | Timestamp ns => Some (ns / ns_per_day)
  | _ => None
  end.

Definition datetime_of_date (d : Z) : value := Timestamp (d * ns_per_day).

(** First occurrences, in order: [Series.unique()]. *)
Fixpoint unique {A : Type} (eqb : A -> A -> bool) (l : list A) : list A :=
  match l with
  | [] => []
  | x :: l' => x :: List.filter (fun y => negb (eqb x y)) (unique eqb l')
  end.

(** Python's [sorted]: it fails on cells that do not compare. *)
Fixpoint insert_checked (x : value) (l : list value) : result (list value) :=
  match l with
  | [] => Ok [x]
  | y :: l' =>
      le <- cell_leb x y ;;
      if le then Ok (x :: l)
      else r <- insert_checked x l' ;; Ok (y :: r)
  end.

Fixpoint sorted (l : list value) : result (list value) :=
  match l with
  | [] => Ok []
  | x :: l' => r <- sorted l' ;; insert_checked x r
  end.

(** [sorted(df[c].dropna().unique().tolist())]: the options of a
    multi-select. *)
Definition options (df : DataFrame) (c : string) : result (list value) :=
  s <- getitem df c ;;
  sorted (unique cell_eqb (List.filter notna s)).

(** The order in which group keys are listed: numbers, then time stamps,
    then text, missing cells last. *)
Definition kind_rank (v : value) : Z :=
  match v with
  | Int _ | Float _ | Bool _ => 0
  | Timestamp _ => 1
  | Str _ => 2
  | NaN => 3
  end.

Definition cell_order_leb (a b : value) : bool :=
  match a, b with
  | Str s, Str t => String.leb s t
  | Timestamp s, Timestamp t => Z.leb s t
  | _, _ =>
      match as_number a, as_number b with
      | Some x, Some y => Qle_bool x y
      | _, _ => kind_rank a <=? kind_rank b
      end
  end.

Fixpoint key_eqb (a b : list value) : bool :=
  match a, b with
  | [], [] => true
  | x :: a', y :: b' => cell_eqb x y && key_eqb a' b'
  | _, _ => false
  end.

Fixpoint key_leb (a b : list value) : bool :=
  match a, b with
  | [], _ => true
  | _ :: _, [] => false
  | x :: a', y :: b' => if cell_eqb x y then key_leb a' b' else cell_order_leb x y
  end.

Fixpoint insert_by {A : Type} (leb : A -> A -> bool) (x : A) (l : list A) : list A :=
  match l with
  | [] => [x]
  | y :: l' => if leb x y then x :: l else y :: insert_by leb x l'
  end.

Definition sort_by {A : Type} (leb : A -> A -> bool) (l : list A) : list A :=
  fold_right (insert_by leb) [] l.

(** The cells of row [i] in the given columns. *)
Definition row_cells (cols : list Series) (i : nat) : list value :=
  map (fun s => nth i s NaN) cols.

Definition zip_rows (n : nat) (cols : list Series) : list (list value) :=
  map (row_cells cols) (seq 0 n).

(** The rows of a frame, each with its cells in column order. *)
Definition rows (df : DataFrame) : list (list value) :=
  zip_rows (nrows df) (map snd (columns df)).

Definition count_of {A : Type} (p : A -> bool) (l : list A) : value :=
  Int (Z.of_nat (length (List.filter p l))).

(** [df.groupby(by).size().reset_index(name=name)]: rows with a missing
    key are left out, one row per distinct key, keys in order. *)
Definition groupby_size (df : DataFrame) (by_ : list string) (name : string)
  : result DataFrame :=
  cols <- rmap (getitem df) by_ ;;
  let keyed := List.filter (forallb notna) (zip_rows (nrows df) cols) in
  let groups := sort_by key_leb (unique key_eqb keyed) in
  Ok {| nrows := length groups;
        columns :=
          map (fun ik => (snd ik, map (fun g => nth (fst ik) g NaN) groups))
              (combine (seq 0 (length by_)) by_)
          ++ [(name, map (fun g => count_of (key_eqb g) keyed) groups)] |}.

(** [Series.mean()]: missing cells are skipped; the mean of nothing is
    missing; text has no mean. *)
Definition series_mean (s : Series) : result value :=
  nums <- rmap (fun v => match as_number v with
                         | Some q => Ok q
                         | None => Raise TypeError
                         end) (List.filter notna s) ;;
  match nums with
  | [] => Ok NaN
  | _ => Ok (Float (Qred (fold_right Qplus 0%Q nums
                          / inject_Z (Z.of_nat (length nums)))))
  end.

(** [df.groupby(by)[c].mean().reset_index()] *)
Definition groupby_mean (df : DataFrame) (by_ c : string) : result DataFrame :=
  k <- getitem df by_ ;;
  v <- getitem df c ;;
  let keyed := List.filter (fun p => notna (fst p)) (combine k v) in
  let groups := sort_by cell_order_leb (unique cell_eqb (map fst keyed)) in
  means <- rmap (fun g =>
                   series_mean
                     (map snd (List.filter (fun p => cell_eqb g (fst p)) keyed)))
                groups ;;
  Ok {| nrows := length groups; columns := [(by_, groups); (c, means)] |}.

(** [df[c].value_counts().sort_index().reset_index()] *)
Definition value_counts_sorted (df : DataFrame) (c : string) : result DataFrame :=
  s <- getitem df c ;;
  let present := List.filter notna s in
  let groups := sort_by cell_order_leb (unique cell_eqb present) in
  Ok {| nrows := length groups;
        columns := [(c, groups);
                    ("count", map (fun g => count_of (cell_eqb g) present) groups)] |}.

(** [df.columns = names] *)
Definition set_columns (df : DataFrame) (names : list string) : result DataFrame :=
  if Nat.eqb (length names) (length (columns df))
  then Ok {| nrows := nrows df; columns := combine names (map snd (columns df)) |}
  else Raise ValueError.

(** [df.sort_values(c)]: a new frame, rows in the order of column [c]. *)
Definition sort_values (df : DataFrame) (c : string) : result DataFrame :=
  s <- getitem df c ;;
  let order :=
    sort_by (fun i j => cell_order_leb (nth i s NaN) (nth j s NaN))
            (seq 0 (nrows df)) in
  Ok {| nrows := nrows df;
        columns := map (fun col => (fst col, map (fun i => nth i (snd col) NaN) order))
                       (columns df) |}.

(** [Series.map(dict)]: a key that the dictionary lacks maps to missing. *)
Definition map_dict (d : list (string * Z)) (s : Series) : Series :=
  map (fun v => match v with
                | Str k => match assoc k d with Some n => Int n | None => NaN end
                | _ => NaN
                end) s.

(** ** Formatting of the KPI cards *)

Fixpoint with_commas (digits : string) : string :=
  match digits with
  | String c rest =>
      String c
        (if ((0 <? String.length rest) && (String.length rest mod 3 =? 0))%nat
         then String "," (with_commas rest)
         else with_commas rest)
  | EmptyString => EmptyString
  end.

(** [f"{n:,.0f}"] of a row count *)
Definition format_count (n : nat) : string := with_commas (str_of_Z (Z.of_nat n)).

Definition two_digits (d : Z) : string :=
  if d <? 10 then String.append "0" (str_of_Z d) else str_of_Z d.

(** [f"{x:.2f}"]: two decimals of the exact value, ties to even; [nan]
    for a missing value; the format code does not apply to text. *)
Definition format_2f (v : value) : result string :=
  match v with
  | NaN => Ok "nan"
  | Str _ | Timestamp _ => Raise TypeError
  | _ =>
      match as_number v with
      | Some q =>
          let n := rint (Qabs q * 100) in
          Ok (String.append (if Qle_bool 0 q then EmptyString else "-")
                (String.append (str_of_Z (n / 100))
                   (String.append "." (two_digits (n mod 100)))))
      | None => Raise TypeError
      end
  end.

End Frames.

(** ** The page and the store of objects

    The script is a sequence of statements over data-frame objects: it
    reads the loaded table through the name [df], builds new frames,
    assigns columns to frames in place and puts elements on the page.  A
    statement is a function of the store that either raises or returns a
    value with the next store. *)

Inductive element : Type :=
| Metric (label body : string)
| Markdown (body : string)
| Subheader (body : string)
| PlotlyChart (title : string) (data : DataFrame)
| Info (body : string)
| Caption (body : string).

Abbreviation ref := nat (only parsing).

Record store : Type := {
  heap : list DataFrame;     (* the objects, by reference *)
  page : list element        (* what was rendered, in order *)
}.

Definition M (A : Type) : Type := store -> result A * store.

Definition ret {A} (a : A) : M A := fun st => (Ok a, st).

(** An exception ends the statements that follow and keeps the store. *)
Definition mbind {A B} (m : M A) (f : A -> M B) : M B :=
  fun st => match m st with
            | (Ok a, st') => f a st'
            | (Raise e, st') => (Raise e, st')
            end.

Definition lift {A} (r : result A) : M A := fun st => (r, st).

(** A new object; its reference is the next free one. *)
Definition new (d : DataFrame) : M ref :=
  fun st => (Ok (length (heap st)),
             {| heap := heap st ++ [d]; page := page st |}).

Definition deref (r : ref) : M DataFrame :=
  fun st => match heap st !! r with
            | Some d => (Ok d, st)
            | None => (Raise ReferenceError, st)
            end.

(** [obj[c] = s] on the object behind [r] *)
Definition assign (r : ref) (c : string) (s : Series) : M unit :=
  fun st => match heap st !! r with
            | Some d =>
                (Ok tt, {| heap := <[r := setitem d c s]> (heap st);
                           page := page st |})
            | None => (Raise ReferenceError, st)
            end.

(** [obj.columns = names] on the object behind [r] *)
Definition assign_columns (r : ref) (names : list string) : M unit :=
  fun st => match heap st !! r with
            | Some d =>
                match set_columns d names with
                | Ok d' => (Ok tt, {| heap := <[r := d']> (heap st);
                                      page := page st |})
                | Raise e => (Raise e, st)
                end
            | None => (Raise ReferenceError, st)
            end.

Definition emit (e : element) : M unit :=
  fun st => (Ok tt, {| heap := heap st; page := page st ++ [e] |}).

(** [st.plotly_chart(px...(obj, title=title))] *)
Definition plotly_chart (title : string) (r : ref) : M unit :=
  mbind (deref r) (fun d => emit (PlotlyChart title d)).

Declare Scope script_scope.
Delimit Scope script_scope with script.
Notation "x <- c1 ;; c2" := (mbind c1 (fun x => c2))
  (at level 100, c1 at next level, right associativity) : script_scope.
Notation "c1 ;; c2" := (mbind c1 (fun _ => c2))
  (at level 100, right associativity) : script_scope.

(** ** The script (lines 50-168) *)

(** What [st.date_input] returns: a tuple of dates while a range is being
    picked, a single date otherwise.  A date is a day count. *)
Inductive date_input : Type :=
| DateTuple (dates : list Z)
| DateValue (d : Z).

(** The values the three widgets of the filter bar return. *)
Record selection : Type := {
  date_range : date_input;
  sel_city : list value;
  sel_rating : list value
}.

Section Script.
Context {RT : Runtime}.
Local Open Scope script_scope.

(** Lines 50-67: the defaults handed to the widgets, the first and last
    day of the table and every city and rating group in it. *)
Definition filter_bar (df : ref)
  : M (option Z * option Z * list value * list value) :=
  d <- deref df ;;
  order_date <- lift (getitem d "Order_Date") ;;
  first <- lift (series_min order_date) ;;
  order_date <- lift (getitem d "Order_Date") ;;
  last <- lift (series_max order_date) ;;
  cities <- lift (options d "City") ;;
  groups <- lift (options d "Rating_Group") ;;
  ret (date_of first, date_of last, cities, groups).

(** Lines 70-73 *)
Definition date_bounds (df : ref) (date_range : date_input) : M (value * value) :=
  match date_range with
  | DateTuple (d0 :: d1 :: _) => ret (datetime_of_date d0, datetime_of_date d1)
  | DateTuple _ => lift (Raise IndexError)
  | DateValue _ =>
      d <- deref df ;;
      order_date <- lift (getitem d "Order_Date") ;;
      first <- lift (series_min order_date) ;;
      last <- lift (series_max order_date) ;;
      ret (first, last)
  end.

(** Lines 75-80: the mask and the filtered copy [dff]. *)
Definition filter_mask (d : DataFrame) (start_date end_date : value)
  (sel_city sel_rating : list value) : result (list bool) :=
  (order_date <- getitem d "Order_Date" ;;
   in_range <- between start_date end_date order_date ;;
   city <- getitem d "City" ;;
   group <- getitem d "Rating_Group" ;;
   Ok (mask_and (mask_and in_range (isin sel_city city))
                (isin sel_rating group)))%result.

Definition apply_filter (df : ref) (start_date end_date : value)
  (sel_city sel_rating : list value) : M ref :=
  d <- deref df ;;
  mask <- lift (filter_mask d start_date end_date sel_city sel_rating) ;;
  new (loc d mask).

(** Lines 70-80: from what the widgets returned to the copy [dff]. *)
Definition filtered (df : ref) (ui : selection) : M ref :=
  bounds <- date_bounds df (date_range ui) ;;
  apply_filter df (fst bounds) (snd bounds) (sel_city ui) (sel_rating ui).

(** Lines 83-86: the KPI cards. *)
Definition kpi_cards (dff : ref) : M unit :=
  d <- deref dff ;;
  emit (Metric "📦 Count of Orders" (format_count (nrows d))) ;;
  time_taken <- lift (getitem d "Time_taken (min)") ;;
  avg_time <- lift (series_mean time_taken) ;;
  k2 <- lift (format_2f avg_time) ;;
  emit (Metric "⏱ Avg Time Taken (min)" k2) ;;
  ratings <- lift (getitem d "Delivery_person_Ratings") ;;
  avg_rating <- lift (series_mean ratings) ;;
  k3 <- lift (format_2f avg_rating) ;;
  emit (Metric "⭐ Avg Rating" k3).

Definition order_map : list (string * Z) :=
  [("Morning", 0); ("Afternoon", 1); ("Evening", 2); ("Night", 3)].

(** Lines 92-134: the operational charts. *)
Definition operations (dff : ref) : M unit :=
  (* c1: orders by date *)
  d <- deref dff ;;
  counted <- lift (groupby_size d ["Order_Date"] "Orders") ;;
  by_day <- lift (sort_values counted "Order_Date") ;;
  by_day <- new by_day ;;
  plotly_chart "Count of Orders by Date" by_day ;;
  (* c2: average time by city *)
  d <- deref dff ;;
  by_city <- lift (groupby_mean d "City" "Time_taken (min)") ;;
  by_city <- new by_city ;;
  plotly_chart "Avg Time Taken by City" by_city ;;
  (* c3: orders by hour and festival *)
  d <- deref dff ;;
  tmp <- lift (groupby_size d ["order_hour"; "Festival"] "Orders") ;;
  tmp <- new tmp ;;
  plotly_chart "Count of Orders by Hour & Festival" tmp ;;
  (* c4: orders by period; the period column is added to [dff] *)
  d <- deref dff ;;
  (if negb (has_column "order_period" d) then
     order_hour <- lift (getitem d "order_hour") ;;
     hours <- lift (astype_int (RT := RT) (fillna (Int 0) order_hour)) ;;
     assign dff "order_period" (map (fun x => Str (order_period x)) hours)
   else ret tt) ;;
  d <- deref dff ;;
  tmp2 <- lift (groupby_size d ["order_period"] "Orders") ;;
  tmp2 <- new tmp2 ;;
  t <- deref tmp2 ;;
  periods <- lift (getitem t "order_period") ;;
  assign tmp2 "sort" (map_dict order_map periods) ;;
  t <- deref tmp2 ;;
  sorted_tmp2 <- lift (sort_values t "sort") ;;
  tmp2 <- new sorted_tmp2 ;;
  plotly_chart "Count by Order Period" tmp2.

(** Lines 139-147: rating by delivery speed, when the column exists. *)
Definition speed_chart (dff : ref) : M unit :=
  d <- deref dff ;;
  if has_column "delivery_speed" d then
    speed_avg <- lift (groupby_mean d "delivery_speed" "Delivery_person_Ratings") ;;
    speed_avg <- new speed_avg ;;
    plotly_chart "Delivery Speed vs Rating" speed_avg
  else
    emit (Info "Kolom 'delivery_speed' tidak ditemukan di dataset.").

(** Lines 149-168: rating by weather and by traffic, rating groups. *)
Definition satisfaction (dff : ref) : M unit :=
  d <- deref dff ;;
  w_avg <- lift (groupby_mean d "Weather_conditions" "Delivery_person_Ratings") ;;
  w_avg <- new w_avg ;;
  plotly_chart "Weather vs Rating" w_avg ;;
  d <- deref dff ;;
  t_avg <- lift (groupby_mean d "Road_traffic_density" "Delivery_person_Ratings") ;;
  t_avg <- new t_avg ;;
  plotly_chart "Road Traffic vs Rating" t_avg ;;
  d <- deref dff ;;
  rg <- lift (value_counts_sorted d "Rating_Group") ;;
  rg <- new rg ;;
  assign_columns rg ["Rating"; "Count"] ;;
  plotly_chart "Rating Group Distribution" rg.

(** Lines 83-170 on the filtered copy. *)
Definition dashboard (dff : ref) : M unit :=
  kpi_cards dff ;;
  emit (Markdown "---") ;;
  emit (Subheader "🔧 Operasional") ;;
  operations dff ;;
  emit (Subheader "😊 Kepuasan Pelanggan") ;;
  speed_chart dff ;;
  satisfaction dff ;;
  emit (Caption "Dashboard built with Streamlit & Plotly").

(** The script from the filter bar on, for the loaded table behind [df]
    and the values the widgets return; it yields the reference of the
    filtered copy. *)
Definition script (df : ref) (ui : selection) : M ref :=
  filter_bar df ;;
  dff <- filtered df ui ;;
  dashboard dff ;;
  ret dff.

End Script.

(** ** A sample file and runtime, for running the definitions *)

Definition sample_path : string := "data/cleaned_dataset.xlsx".

(** Three orders; the third has no date, city or order time. *)
Definition sample_raw : DataFrame :=
  {| nrows := 3;
     columns :=
       [("Order_Date", [Int 44562; Int 44563; NaN]);
        ("City", [Str "A"; Str "B"; NaN]);
        ("Delivery_person_Ratings", [Float (46 # 10); Float (22 # 10); Float (5 # 2)]);
        ("Time_taken (min)", [Int 20; Int 30; Int 25]);
        ("Time_Orderd", [Str "11:30:00"; NaN; Str "NaN "]);
        ("Festival", [Str "true"; NaN; Str "  FALSE "]);
        ("Weather_conditions", [Str "Sunny"; Str "Fog"; Str "Sunny"]);
        ("Road_traffic_density", [Str "Low"; Str "Jam"; Str "Low"])] |}.

(** A runtime that reads [sample_raw] at [sample_path] and parses one
    time of day; its [str] methods are those of [PyStr], the sample
    texts being ASCII. *)
Definition sample_runtime : Runtime :=
  {| parse_datetime := fun _ v =>
       match v with
       | Str "11:30:00" => Some (11 * ns_per_hour + 30 * 60 * 1000000000)
       | _ => None
       end;
     repr_float := fun q => str_of_Z (Qfloor q);
     str_timestamp := fun ns => str_of_Z ns;
     int_of_str := fun _ => None;
     read_excel := fun p =>
       if String.eqb p sample_path then Ok sample_raw
       else Raise FileNotFoundError;
     py_strip := PyStr.strip;
     py_title := PyStr.title;
     py_strip_ascii := fun _ _ => eq_refl;
     py_title_ascii := fun _ _ => eq_refl |}.

Definition sample_clean : DataFrame :=
  {| nrows := 3;
     columns :=
       [("Order_Date",
         [Timestamp 1640995200000000000; Timestamp 1641081600000000000; NaN]);
        ("City", [Str "A"; Str "B"; NaN]);
        ("Delivery_person_Ratings", [Float (46 # 10); Float (22 # 10); Float (5 # 2)]);
        ("Time_taken (min)", [Int 20; Int 30; Int 25]);
        ("Time_Orderd", [Str "11:30:00"; NaN; Str "NaN "]);
        ("Festival", [Str "Yes"; Str "Nan"; Str "No"]);
        ("Weather_conditions", [Str "Sunny"; Str "Fog"; Str "Sunny"]);
        ("Road_traffic_density", [Str "Low"; Str "Jam"; Str "Low"]);
        ("order_hour", [Int 11; NaN; NaN]);
        ("Rating_Group", [Int 5; Int 2; Int 2])] |}.

Definition sample_store : store := {| heap := [sample_clean]; page := [] |}.

(** A second file, without [Time_Orderd]: two orders dated by a
    spreadsheet serial, the first at noon, the second without a date. *)
Definition dated_path : string := "data/dated.xlsx".

Definition dated_raw : DataFrame :=
  {| nrows := 2;
     columns :=
       [("Order_Date", [Float (89125 # 2); NaN]);
        ("City", [Str "A"; Str "B"]);
        ("Delivery_person_Ratings", [Int 4; Float (9 # 2)]);
        ("Festival", [Str "No"; Str "yes"])] |}.

Definition dated_runtime : Runtime :=
  {| parse_datetime := fun _ _ => None;
     repr_float := fun q => str_of_Z (Qfloor q);
     str_timestamp := fun ns => str_of_Z ns;
     int_of_str := fun _ => None;
     read_excel := fun p =>
       if String.eqb p dated_path then Ok dated_raw
       else Raise FileNotFoundError;
     py_strip := PyStr.strip;
     py_title := PyStr.title;
     py_strip_ascii := fun _ _ => eq_refl;
     py_title_ascii := fun _ _ => eq_refl |}.

Definition dated_clean : DataFrame :=
  {| nrows := 2;
     columns :=
       [("Order_Date", [Timestamp 1641038400000000000; NaN]);
        ("City", [Str "A"; Str "B"]);
        ("Delivery_person_Ratings", [Int 4; Float (9 # 2)]);
        ("Festival", [Str "No"; Str "Yes"]);
        ("order_hour", [Int 12; Int 0]);
        ("Rating_Group", [Int 4; Int 4])] |}.

(** A runtime that reads the table [raw] at [path] and parses no text;
    its [str] methods are those of [PyStr]. *)
Definition file_runtime (path : string) (raw : DataFrame) : Runtime :=
  {| parse_datetime := fun _ _ => None;
     repr_float := fun q => str_of_Z (Qfloor q);
     str_timestamp := fun ns => str_of_Z ns;
     int_of_str := fun _ => None;
     read_excel := fun p =>
       if String.eqb p path then Ok raw else Raise FileNotFoundError;
     py_strip := PyStr.strip;
     py_title := PyStr.title;
     py_strip_ascii := fun _ _ => eq_refl;
     py_title_ascii := fun _ _ => eq_refl |}.

(** A file without [Order_Date], and a file with an empty rating cell. *)
Definition undated_raw : DataFrame :=
  {| nrows := 1;
     columns := [("City", [Str "A"]); ("Delivery_person_Ratings", [Int 4])] |}.

Definition unrated_raw : DataFrame :=
  {| nrows := 2;
     columns :=
       [("Order_Date", [Int 44562; Int 44563]);
        ("City", [Str "A"; Str "B"]);
        ("Delivery_person_Ratings", [Float (9 # 2); NaN])] |}.

(** A cell that [round], [clip] and [astype(int)] all accept. *)
Definition is_number (v : value) : bool :=
  match as_number v with Some _ => true | None => false end.

(** Every cell of column [c], if the table has it, prints as a text of
    ASCII characters. *)
Definition ascii_column {RT : Runtime} (df : DataFrame) (c : string) : bool :=
  match getitem df c with
  | Ok s => forallb (fun v => PyStr.is_ascii (astype_str_cell v)) s
  | Raise _ => true
  end.

(** A text that neither starts nor ends with white space. *)
Definition starts_clean (s : string) : bool :=
  match s with
  | String c _ => negb (PyStr.is_space c)
  | EmptyString => true
  end.

Fixpoint ends_clean (s : string) : bool :=
  match s with
  | EmptyString => true
  | String c EmptyString => negb (PyStr.is_space c)
  | String _ s' => ends_clean s'
  end.



(** A list in strictly ascending order: each element is below the next
    and not equal to it. *)
Fixpoint ascending {A : Type} (leb eqb : A -> A -> bool) (l : list A) : bool :=
  match l with
  | a :: l' =>
      match l' with
      | b :: _ => leb a b && negb (eqb a b) && ascending leb eqb l'
      | [] => true
      end
  | [] => true
  end.

(** ** The specification's words, for comparison with the code *)

(** Festival normalization as the specification words it: trim, title
    case, then True to Yes and False to No, anything else as it is. *)
Definition festival_spec {RT : Runtime} (text : string) : string :=
  let t := py_title (py_strip text) in
  if String.eqb t "True" then "Yes"
  else if String.eqb t "False" then "No"
  else t.

(** The same on a text of ASCII characters, where trimming and title
    case are the functions of [PyStr]. *)
Definition festival_ascii (text : string) : string :=
  let t := PyStr.title (PyStr.strip text) in
  if String.eqb t "True" then "Yes"
  else if String.eqb t "False" then "No"
  else t.

(** A row passes the filter, as the specification words it: its date
    lies in the closed interval, its city and its rating group are among
    the allowed ones, and a missing date, city or rating group fails. *)
Definition in_interval (start_date end_date date : value) : bool :=
  match start_date, date, end_date with
  | Timestamp a, Timestamp t, Timestamp b => (a <=? t) && (t <=? b)
  | _, _, _ => false
  end.

Definition in_set (v : value) (allowed : list value) : bool :=
  notna v && existsb (cell_eqb v) allowed.

Definition row_selected (start_date end_date : value)
  (allowed_cities allowed_groups : list value) (date city group : value) : bool :=
  in_interval start_date end_date date
  && in_set city allowed_cities
  && in_set group allowed_groups.

(** A datetime column holds time stamps and missing cells only; [load_data]
    leaves [Order_Date] so. *)
Definition is_datetime (s : Series) : bool :=
  forallb (fun v => match v with NaN | Timestamp _ => true | _ => false end) s.


(** ** The page of an empty selection *)

(** The columns the dashboard reads without asking whether they exist. *)
Definition required_columns : list string :=
  ["Time_taken (min)"; "Delivery_person_Ratings"; "Order_Date"; "City";
   "order_hour"; "Festival"; "Weather_conditions"; "Road_traffic_density";
   "Rating_Group"].

(** A frame without rows that has the columns [cols]. *)
Definition empty_with (cols : list string) (e : DataFrame) : Prop :=
  well_formed e /\ nrows e = 0%nat /\
  forall c, In c cols -> has_column c e = true.

(** A frame without rows, with the given columns only. *)
Definition no_rows (names : list string) : DataFrame :=
  {| nrows := 0; columns := map (fun c => (c, [])) names |}.

Definition speed_placeholder : element :=
  Info "Kolom 'delivery_speed' tidak ditemukan di dataset.".

(** What the dashboard puts on the page for a filtered table without
    rows, with or without a [delivery_speed] column. *)
Definition no_data_page (with_speed : bool) : list element :=
  [Metric "📦 Count of Orders" "0";
   Metric "⏱ Avg Time Taken (min)" "nan";
   Metric "⭐ Avg Rating" "nan";
   Markdown "---";
   Subheader "🔧 Operasional";
   PlotlyChart "Count of Orders by Date" (no_rows ["Order_Date"; "Orders"]);
   PlotlyChart "Avg Time Taken by City" (no_rows ["City"; "Time_taken (min)"]);
   PlotlyChart "Count of Orders by Hour & Festival"
     (no_rows ["order_hour"; "Festival"; "Orders"]);
   PlotlyChart "Count by Order Period" (no_rows ["order_period"; "Orders"; "sort"]);
   Subheader "😊 Kepuasan Pelanggan";
   if with_speed
   then PlotlyChart "Delivery Speed vs Rating"
          (no_rows ["delivery_speed"; "Delivery_person_Ratings"])
   else speed_placeholder;
   PlotlyChart "Weather vs Rating"
     (no_rows ["Weather_conditions"; "Delivery_person_Ratings"]);
   PlotlyChart "Road Traffic vs Rating"
     (no_rows ["Road_traffic_density"; "Delivery_person_Ratings"]);
   PlotlyChart "Rating Group Distribution" (no_rows ["Rating"; "Count"]);
   Caption "Dashboard built with Streamlit & Plotly"].

(** ** Assertions about statements *)

(** The objects with a reference below [n] are those of [h0]. *)
Definition kept (n : nat) (h0 : list DataFrame) (st : store) : Prop :=
  (n <= length (heap st))%nat /\
  forall r, (r < n)%nat -> heap st !! r = h0 !! r.

(** A statement keeps these objects, and its value satisfies [P]. *)
Definition keeps (n : nat) (h0 : list DataFrame) {A} (m : M A) (P : A -> Prop)
  : Prop :=
  forall st, kept n h0 st ->
             kept n h0 (snd (m st)) /\ forall a, fst (m st) = Ok a -> P a.

(** [wp m Q st]: from [st] the statement [m] ends without an exception,
    with a value and a store that satisfy [Q]. *)
Definition wp {A} (m : M A) (Q : A -> store -> Prop) (st : store) : Prop :=
  exists a st', m st = (Ok a, st') /\ Q a st'.

(** ** Facts about columns *)

Lemma assoc_set_eq {A : Type} (k : string) (v : A) (l : list (string * A)) :
  assoc k (assoc_set k v l) = Some v.
Proof.
  induction l as [|[k' v'] l IH]; simpl.
  - now rewrite String.eqb_refl.
  - destruct (String.eqb k k') eqn:E; simpl.
    + now rewrite String.eqb_refl.
    + now rewrite E.
Qed.

Lemma assoc_set_ne {A : Type} (k k' : string) (v : A) (l : list (string * A)) :
  k <> k' -> assoc k (assoc_set k' v l) = assoc k l.
Proof.
  intros Hne. induction l as [|[k2 v2] l IH]; simpl.
  - apply String.eqb_neq in Hne. now rewrite Hne.
  - destruct (String.eqb k' k2) eqn:E; simpl.
    + apply String.eqb_eq in E. subst k2.
      apply String.eqb_neq in Hne. now rewrite Hne.
    + destruct (String.eqb k k2); [reflexivity | exact IH].
Qed.

Lemma getitem_setitem_eq (df : DataFrame) (c : string) (s : Series) :
  getitem (setitem df c s) c = Ok s.
Proof. unfold getitem, setitem; simpl. now rewrite assoc_set_eq. Qed.

Lemma getitem_setitem_ne (df : DataFrame) (c c' : string) (s : Series) :
  c <> c' -> getitem (setitem df c' s) c = getitem df c.
Proof. intros H. unfold getitem, setitem; simpl. now rewrite assoc_set_ne. Qed.

Lemma has_column_setitem_eq (df : DataFrame) (c : string) (s : Series) :
  has_column c (setitem df c s) = true.
Proof. unfold has_column, setitem; simpl. now rewrite assoc_set_eq. Qed.

Lemma has_column_setitem_ne (df : DataFrame) (c c' : string) (s : Series) :
  c <> c' -> has_column c (setitem df c' s) = has_column c df.
Proof. intros H. unfold has_column, setitem; simpl. now rewrite assoc_set_ne. Qed.

Lemma getitem_Ok_assoc (df : DataFrame) (c : string) (s : Series) :
  getitem df c = Ok s <-> assoc c (columns df) = Some s.
Proof.
  unfold getitem. destruct (assoc c (columns df)); split; congruence.
Qed.

Lemma has_column_getitem (df : DataFrame) (c : string) :
  has_column c df = true -> exists s, getitem df c = Ok s.
Proof.
  unfold has_column, getitem. destruct (assoc c (columns df)); [eauto | discriminate].
Qed.

Lemma getitem_has_column (df : DataFrame) (c : string) (s : Series) :
  getitem df c = Ok s -> has_column c df = true.
Proof.
  unfold has_column, getitem. destruct (assoc c (columns df)); [reflexivity | discriminate].
Qed.

Lemma lookup_map {A B} (f : A -> B) (l : list A) (i : nat) :
  map f l !! i = option_map f (l !! i).
Proof.
  revert i. induction l as [|x l IH]; intros [|i]; simpl; try reflexivity.
  apply IH.
Qed.

Lemma rbind_Ok {A B} (r : result A) (f : A -> result B) (b : B) :
  rbind r f = Ok b -> exists a, r = Ok a /\ f a = Ok b.
Proof. destruct r; simpl; [eauto | discriminate]. Qed.

Lemma rmap_length {A B} (f : A -> result B) (l : list A) (l' : list B) :
  rmap f l = Ok l' -> length l' = length l.
Proof.
  revert l'. induction l as [|x l IH]; simpl; intros l' H.
  - now inversion H.
  - apply rbind_Ok in H as (y & _ & H).
    apply rbind_Ok in H as (ys & Hys & H).
    inversion H; subst; simpl. now rewrite (IH ys).
Qed.

Lemma rmap_lookup {A B} (f : A -> result B) (l : list A) (l' : list B) i x :
  rmap f l = Ok l' -> l !! i = Some x ->
  exists y, f x = Ok y /\ l' !! i = Some y.
Proof.
  revert l' i. induction l as [|a l IH]; simpl; intros l' i H Hi.
  - discriminate.
  - apply rbind_Ok in H as (y & Hy & H).
    apply rbind_Ok in H as (ys & Hys & H).
    inversion H; subst. destruct i as [|i]; simpl in *.
    + inversion Hi; subst. eauto.
    + eauto.
Qed.

(** ** The order-period buckets *)

(** C2: on the hours 0 to 23 [order_period] is Morning exactly on 4..10,
    Afternoon exactly on 11..13, Evening exactly on 14..17 and Night
    exactly on 0..3 and 18..23; it always yields one of the four names. *)
Theorem order_period_buckets (h : Z) :
  0 <= h <= 23 ->
  In (order_period h) ["Morning"; "Afternoon"; "Evening"; "Night"] /\
  (order_period h = "Morning" <-> 4 <= h < 11) /\
  (order_period h = "Afternoon" <-> 11 <= h < 14) /\
  (order_period h = "Evening" <-> 14 <= h < 18) /\
  (order_period h = "Night" <-> (0 <= h <= 3 \/ 18 <= h <= 23)).
Proof.
  intros Hh. unfold order_period.
  destruct (Z.leb_spec 4 h), (Z.ltb_spec h 11), (Z.leb_spec 11 h),
    (Z.ltb_spec h 14), (Z.leb_spec 14 h), (Z.ltb_spec h 18);
    simpl; try lia;
    (split; [tauto |]);
    repeat split; intros; try discriminate; try lia.
Qed.

Lemma order_period_buckets_witness :
  In (order_period 4) ["Morning"; "Afternoon"; "Evening"; "Night"] /\
  (order_period 4 = "Morning" <-> 4 <= 4 < 11) /\
  (order_period 4 = "Afternoon" <-> 11 <= 4 < 14) /\
  (order_period 4 = "Evening" <-> 14 <= 4 < 18) /\
  (order_period 4 = "Night" <-> (0 <= 4 <= 3 \/ 18 <= 4 <= 23)).
Proof. apply (order_period_buckets 4). lia. Defined.

(** The boundary hours the specification lists. *)
Example order_period_boundaries :
  map order_period [4; 10; 11; 13; 14; 17; 18; 3; 23]
  = ["Morning"; "Morning"; "Afternoon"; "Afternoon"; "Evening"; "Evening";
     "Night"; "Night"; "Night"].
Proof. reflexivity. Qed.

(** ** Rounding *)

Lemma rint_nearest (q : Q) : (Qabs (q - inject_Z (rint q)) <= 1 # 2)%Q.
Proof.
  unfold rint.
  pose proof (Qfloor_le q) as Hlo. pose proof (Qlt_floor q) as Hhi.
  set (f := Qfloor q) in *.
  assert (Hup : (q - inject_Z (f + 1) == q - inject_Z f - 1)%Q)
    by (rewrite inject_Z_plus; ring).
  rewrite inject_Z_plus in Hhi. change (inject_Z 1) with 1%Q in Hhi.
  assert (Hdown : (Qabs (q - inject_Z f) <= 1 # 2)%Q <-> (q - inject_Z f <= 1 # 2)%Q).
  { rewrite Qabs_pos; [tauto |]. lra. }
  assert (Hupok : (1 # 2 <= q - inject_Z f)%Q -> (Qabs (q - inject_Z (f + 1)) <= 1 # 2)%Q).
  { intros H. rewrite Hup. apply Qabs_Qle_condition.
    change (- (1 # 2))%Q with (-1 # 2)%Q. split; lra. }
  destruct (Qcompare_spec (q - inject_Z f) (1 # 2)) as [He|Hl|Hg].
  - destruct (Z.even f).
    + apply Hdown. rewrite He. apply Qle_refl.
    + apply Hupok. rewrite He. apply Qle_refl.
  - apply Hdown. now apply Qlt_le_weak.
  - apply Hupok. now apply Qlt_le_weak.
Qed.

Lemma rint_inject_Z (z : Z) : rint (inject_Z z) = z.
Proof.
  unfold rint. rewrite Qfloor_Z.
  destruct (Qcompare_spec (inject_Z z - inject_Z z) (1 # 2)) as [He|Hl|Hg];
    [exfalso | reflexivity | exfalso]; lra.
Qed.

Lemma trunc_inject_Z (z : Z) : trunc (inject_Z z) = z.
Proof.
  unfold trunc. destruct (Qle_bool 0 (inject_Z z)).
  - apply Qfloor_Z.
  - apply Qceiling_Z.
Qed.

Lemma clamp_bounds (lower upper x : Z) :
  lower <= upper -> lower <= clamp lower upper x <= upper.
Proof. unfold clamp. lia. Qed.

(** ** Text of ASCII characters *)

Lemma lstrip_ascii (s : string) :
  PyStr.is_ascii s = true -> PyStr.is_ascii (PyStr.lstrip s) = true.
Proof.
  induction s as [| c s IH]; cbn [PyStr.is_ascii PyStr.lstrip]; intros H;
    [reflexivity |].
  apply andb_prop in H as [Hc Hs].
  destruct (PyStr.is_space c); [exact (IH Hs) |].
  cbn [PyStr.is_ascii]. now rewrite Hc, Hs.
Qed.

Lemma rstrip_ascii (s : string) :
  PyStr.is_ascii s = true -> PyStr.is_ascii (PyStr.rstrip s) = true.
Proof.
  induction s as [| c s IH]; cbn [PyStr.is_ascii PyStr.rstrip]; intros H;
    [reflexivity |].
  apply andb_prop in H as [Hc Hs]. specialize (IH Hs).
  destruct (PyStr.rstrip s) as [| c' r].
  - destruct (PyStr.is_space c); cbn [PyStr.is_ascii];
      [reflexivity | now rewrite Hc].
  - change (PyStr.is_ascii (String c (String c' r)))
      with ((nat_of_ascii c <? 128)%nat && PyStr.is_ascii (String c' r)).
    now rewrite Hc, IH.
Qed.

Lemma strip_ascii (s : string) :
  PyStr.is_ascii s = true -> PyStr.is_ascii (PyStr.strip s) = true.
Proof. intros H. unfold PyStr.strip. now apply rstrip_ascii, lstrip_ascii. Qed.

Lemma case_map_ascii (c : ascii) :
  (nat_of_ascii c <? 128)%nat = true ->
  (nat_of_ascii (PyStr.upper c) <? 128)%nat = true /\
  (nat_of_ascii (PyStr.lower c) <? 128)%nat = true.
Proof.
  destruct c as [[] [] [] [] [] [] [] []]; intros H; split;
    solve [reflexivity | discriminate H].
Qed.

Lemma title_from_ascii (p : bool) (s : string) :
  PyStr.is_ascii s = true -> PyStr.is_ascii (PyStr.title_from p s) = true.
Proof.
  revert p. induction s as [| c s IH]; intros p;
    cbn [PyStr.is_ascii PyStr.title_from]; intros H; [reflexivity |].
  apply andb_prop in H as [Hc Hs].
  destruct (case_map_ascii c Hc) as [Hu Hl].
  rewrite (IH _ Hs). destruct p; [now rewrite Hl | now rewrite Hu].
Qed.

(** On ASCII text the runtime's trimming and title case are those of
    [PyStr]. *)
Lemma festival_spec_ascii {RT : Runtime} (text : string) :
  PyStr.is_ascii text = true -> festival_spec text = festival_ascii text.
Proof.
  intros H. unfold festival_spec, festival_ascii.
  rewrite (py_strip_ascii text H).
  rewrite (py_title_ascii _ (strip_ascii text H)). reflexivity.
Qed.

Lemma festival_ascii_is_ascii (text : string) :
  PyStr.is_ascii text = true -> PyStr.is_ascii (festival_ascii text) = true.
Proof.
  intros H. unfold festival_ascii. cbv zeta.
  destruct (String.eqb _ "True"); [reflexivity |].
  destruct (String.eqb _ "False"); [reflexivity |].
  apply title_from_ascii, strip_ascii, H.
Qed.

(** ** The loader *)

Section LoaderFacts.
Context {RT : Runtime}.

Ltac step_other :=
  repeat match goal with
         | H : rbind _ _ = Ok _ |- _ =>
             let a := fresh "a" in
             let Ha := fresh "Ha" in
             apply rbind_Ok in H as (a & Ha & H)
         | H : (if ?b then _ else _) = Ok _ |- _ => destruct b
         | H : Ok _ = Ok _ |- _ => inversion H; subst; clear H
         end;
  simpl; try reflexivity; try (apply assoc_set_ne; assumption).

Lemma convert_order_date_other (df df' : DataFrame) (c : string) :
  convert_order_date df = Ok df' -> c <> "Order_Date" ->
  assoc c (columns df') = assoc c (columns df).
Proof. unfold convert_order_date. intros H Hc. step_other. Qed.

Lemma derive_order_hour_other (df df' : DataFrame) (c : string) :
  derive_order_hour df = Ok df' -> c <> "order_hour" ->
  assoc c (columns df') = assoc c (columns df).
Proof. unfold derive_order_hour. intros H Hc. step_other. Qed.

Lemma derive_rating_group_other (df df' : DataFrame) (c : string) :
  derive_rating_group df = Ok df' -> c <> "Rating_Group" ->
  assoc c (columns df') = assoc c (columns df).
Proof. unfold derive_rating_group. intros H Hc. step_other. Qed.

Lemma normalize_festival_other (df df' : DataFrame) (c : string) :
  normalize_festival df = Ok df' -> c <> "Festival" ->
  assoc c (columns df') = assoc c (columns df).
Proof. unfold normalize_festival. intros H Hc. step_other. Qed.

Lemma load_data_steps (path : string) (df : DataFrame) :
  load_data path = Ok df ->
  exists raw df1 df2 df3,
    read_excel path = Ok raw /\
    convert_order_date raw = Ok df1 /\
    derive_order_hour df1 = Ok df2 /\
    derive_rating_group df2 = Ok df3 /\
    normalize_festival df3 = Ok df.
Proof.
  unfold load_data. intros H.
  apply rbind_Ok in H as (raw & Hraw & H).
  apply rbind_Ok in H as (df1 & H1 & H).
  apply rbind_Ok in H as (df2 & H2 & H).
  apply rbind_Ok in H as (df3 & H3 & H).
  apply rbind_Ok in H as (df4 & H4 & H).
  inversion H; subst. eauto 10.
Qed.

Lemma rating_group_cell (r c : value) (g : Z) :
  clip_cell 1 5 (round_cell r) = Ok c -> astype_int_cell c = Ok g ->
  exists q, as_number r = Some q /\ g = clamp 1 5 (rint q).
Proof.
  destruct r as [| z | q | s | b | ns]; simpl; intros Hc Hg;
    try discriminate; inversion Hc; subst; clear Hc; simpl in Hg.
  - discriminate.
  - inversion Hg; subst. exists (inject_Z z). now rewrite rint_inject_Z.
  - exists q. split; [reflexivity |].
    assert (H1 : Qle_bool (inject_Z 1) (inject_Z (rint q)) = true <-> 1 <= rint q)
      by (rewrite Qle_bool_iff, <- Zle_Qle; tauto).
    assert (H5 : Qle_bool (inject_Z (rint q)) (inject_Z 5) = true <-> rint q <= 5)
      by (rewrite Qle_bool_iff, <- Zle_Qle; tauto).
    destruct (Qle_bool (inject_Z 1) (inject_Z (rint q))) eqn:E1;
      [destruct (Qle_bool (inject_Z (rint q)) (inject_Z 5)) eqn:E5 |];
      simpl in Hg; rewrite trunc_inject_Z in Hg; inversion Hg; subst;
      unfold clamp.
    + assert (1 <= rint q) by now apply H1.
      assert (rint q <= 5) by now apply H5. lia.
    + assert (1 <= rint q) by now apply H1.
      assert (~ rint q <= 5) by (intros X; apply H5 in X; discriminate). lia.
    + assert (~ 1 <= rint q) by (intros X; apply H1 in X; discriminate). lia.
  - inversion Hg; subst. exists (inject_Z (Z.b2z b)). now rewrite rint_inject_Z.
Qed.

(** C1: when the file has no [Rating_Group] column and has a
    [Delivery_person_Ratings] column, the loaded table has a
    [Rating_Group] column with one cell per rating, and the cell of a
    rating [q] is the integer [clamp 1 5 (rint q)], where [rint q] is an
    integer nearest to [q]; that integer is one of 1, 2, 3, 4, 5. *)
Theorem rating_group_is_clamped_round
  (path : string) (raw df : DataFrame) (ratings : Series) :
  read_excel path = Ok raw ->
  has_column "Rating_Group" raw = false ->
  getitem raw "Delivery_person_Ratings" = Ok ratings ->
  load_data path = Ok df ->
  exists groups,
    getitem df "Rating_Group" = Ok groups /\
    length groups = length ratings /\
    forall i r, ratings !! i = Some r ->
      exists q, as_number r = Some q /\
                groups !! i = Some (Int (clamp 1 5 (rint q))) /\
                (Qabs (q - inject_Z (rint q)) <= 1 # 2)%Q /\
                1 <= clamp 1 5 (rint q) <= 5.
Proof.
  intros Hraw Hno Hratings Hload.
  apply load_data_steps in Hload as (raw' & df1 & df2 & df3 & Hr & H1 & H2 & H3 & H4).
  rewrite Hraw in Hr. inversion Hr; subst raw'; clear Hr.
  assert (Hno2 : has_column "Rating_Group" df2 = false).
  { unfold has_column in *.
    rewrite (derive_order_hour_other _ _ _ H2) by discriminate.
    now rewrite (convert_order_date_other _ _ _ H1) by discriminate. }
  assert (Hrat2 : getitem df2 "Delivery_person_Ratings" = Ok ratings).
  { apply getitem_Ok_assoc. apply getitem_Ok_assoc in Hratings.
    rewrite (derive_order_hour_other _ _ _ H2) by discriminate.
    now rewrite (convert_order_date_other _ _ _ H1) by discriminate. }
  unfold derive_rating_group in H3.
  rewrite Hno2, (getitem_has_column _ _ _ Hrat2), Hrat2 in H3. simpl in H3.
  apply rbind_Ok in H3 as (clipped & Hclip & H3).
  apply rbind_Ok in H3 as (group & Hgroup & H3).
  inversion H3; subst df3; clear H3.
  exists (map Int group). split; [| split].
  - apply getitem_Ok_assoc.
    rewrite (normalize_festival_other _ _ _ H4) by discriminate.
    simpl. apply assoc_set_eq.
  - rewrite length_map, (rmap_length _ _ _ Hgroup), (rmap_length _ _ _ Hclip).
    unfold series_round. apply length_map.
  - intros i r Hi.
    unfold series_clip, series_round in Hclip.
    assert (Hi' : map round_cell ratings !! i = Some (round_cell r))
      by (rewrite lookup_map, Hi; reflexivity).
    destruct (rmap_lookup _ _ _ _ _ Hclip Hi') as (c & Hc & Hci).
    destruct (rmap_lookup _ _ _ _ _ Hgroup Hci) as (g & Hg & Hgi).
    destruct (rating_group_cell _ _ _ Hc Hg) as (q & Hq & ->).
    exists q. repeat split.
    + exact Hq.
    + now rewrite lookup_map, Hgi.
    + apply rint_nearest.
    + apply clamp_bounds; lia.
    + apply clamp_bounds; lia.
Qed.

Lemma order_hour_cell (v c : value) (h : Z) :
  dt_hour_cell v = Ok c -> astype_int_cell (fillna_cell (Int 0) c) = Ok h ->
  0 <= h <= 23 /\ (v = NaN -> h = 0).
Proof.
  destruct v as [| z | q | s | b | ns]; simpl; intros Hc Hh;
    try discriminate; inversion Hc; subst; clear Hc; simpl in Hh;
    inversion Hh; subst; clear Hh.
  - split; [lia | reflexivity].
  - split; [| discriminate].
    assert (0 <= (ns / ns_per_hour) mod 24 < 24) by (apply Z.mod_pos_bound; lia).
    lia.
Qed.

(** X1, the branch of lines 31-32: an hour taken from [Order_Date] is an
    integer of 0..23, and 0 where the date is missing. *)
Lemma order_hour_from_order_date (path : string) (raw df : DataFrame) :
  read_excel path = Ok raw ->
  has_column "order_hour" raw = false ->
  has_column "Time_Orderd" raw = false ->
  load_data path = Ok df ->
  exists dates hours,
    getitem df "Order_Date" = Ok dates /\
    getitem df "order_hour" = Ok hours /\
    length hours = length dates /\
    forall i d, dates !! i = Some d ->
      exists h, hours !! i = Some (Int h) /\ 0 <= h <= 23 /\ (d = NaN -> h = 0).
Proof.
  intros Hraw Hno Hnot Hload.
  apply load_data_steps in Hload as (raw' & df1 & df2 & df3 & Hr & H1 & H2 & H3 & H4).
  rewrite Hraw in Hr. inversion Hr; subst raw'; clear Hr.
  assert (Hno1 : has_column "order_hour" df1 = false).
  { unfold has_column in *.
    now rewrite (convert_order_date_other _ _ _ H1) by discriminate. }
  assert (Hnot1 : has_column "Time_Orderd" df1 = false).
  { unfold has_column in *.
    now rewrite (convert_order_date_other _ _ _ H1) by discriminate. }
  unfold derive_order_hour in H2. rewrite Hno1, Hnot1 in H2. simpl in H2.
  apply rbind_Ok in H2 as (dates & Hdates & H2).
  apply rbind_Ok in H2 as (hour & Hhour & H2).
  apply rbind_Ok in H2 as (hours & Hhours & H2).
  inversion H2; subst df2; clear H2.
  exists dates, (map Int hours). repeat split.
  - apply getitem_Ok_assoc.
    rewrite (normalize_festival_other _ _ _ H4) by discriminate.
    rewrite (derive_rating_group_other _ _ _ H3) by discriminate.
    simpl. rewrite assoc_set_ne by discriminate. now apply getitem_Ok_assoc.
  - apply getitem_Ok_assoc.
    rewrite (normalize_festival_other _ _ _ H4) by discriminate.
    rewrite (derive_rating_group_other _ _ _ H3) by discriminate.
    simpl. apply assoc_set_eq.
  - rewrite length_map, (rmap_length _ _ _ Hhours). unfold fillna.
    rewrite length_map. apply (rmap_length _ _ _ Hhour).
  - intros i d Hi.
    destruct (rmap_lookup _ _ _ _ _ Hhour Hi) as (c & Hc & Hci).
    assert (Hci' : fillna (Int 0) hour !! i = Some (fillna_cell (Int 0) c))
      by (unfold fillna; rewrite lookup_map, Hci; reflexivity).
    destruct (rmap_lookup _ _ _ _ _ Hhours Hci') as (h & Hh & Hhi).
    exists h. rewrite lookup_map, Hhi. split; [reflexivity |].
    apply (order_hour_cell _ _ _ Hc Hh).
Qed.

Lemma is_datetime_map (f : value -> value) (s : Series) :
  (forall v, match f v with NaN | Timestamp _ => true | _ => false end = true) ->
  is_datetime (map f s) = true.
Proof.
  intros Hf. unfold is_datetime. apply forallb_forall. intros v Hv.
  apply in_map_iff in Hv as (v0 & <- & _). apply Hf.
Qed.

(** X2: lines 20-24 leave [Order_Date] a datetime column, whatever the
    file held, and no later line assigns to it. *)
Lemma loaded_order_date_is_datetime (path : string) (df : DataFrame) :
  load_data path = Ok df ->
  exists dates, getitem df "Order_Date" = Ok dates /\ is_datetime dates = true.
Proof.
  intros Hload.
  apply load_data_steps in Hload as (raw & df1 & df2 & df3 & Hr & H1 & H2 & H3 & H4).
  assert (Hd1 : exists dates,
             getitem df1 "Order_Date" = Ok dates /\ is_datetime dates = true).
  { unfold convert_order_date in H1.
    apply rbind_Ok in H1 as (od & Hod & H1).
    destruct (is_number_dtype od); inversion H1; subst df1; clear H1;
      eexists; (split; [apply getitem_setitem_eq |]); apply is_datetime_map.
    - intros v. now destruct v.
    - intros v. unfold to_datetime_cell.
      destruct v; try reflexivity; now destruct (parse_datetime true _). }
  destruct Hd1 as (dates & Hd1 & Hdt). exists dates. split; [| exact Hdt].
  apply getitem_Ok_assoc. apply getitem_Ok_assoc in Hd1.
  rewrite (normalize_festival_other _ _ _ H4) by discriminate.
  rewrite (derive_rating_group_other _ _ _ H3) by discriminate.
  now rewrite (derive_order_hour_other _ _ _ H2) by discriminate.
Qed.

Lemma replace_festival_spec (festival : list value) :
  map Str (replace [("True", "Yes"); ("False", "No")]
             (str_title (str_strip (astype_str festival))))
  = map (fun v => Str (festival_spec (astype_str_cell v))) festival.
Proof.
  unfold replace, str_title, str_strip, astype_str.
  rewrite !map_map. apply map_ext. intros v.
  unfold festival_spec. simpl.
  destruct (String.eqb (py_title (py_strip (astype_str_cell v))) "True");
    [reflexivity |].
  destruct (String.eqb (py_title (py_strip (astype_str_cell v))) "False");
    reflexivity.
Qed.

Lemma loaded_festival (path : string) (raw df : DataFrame) (festival : Series) :
  read_excel path = Ok raw ->
  getitem raw "Festival" = Ok festival ->
  load_data path = Ok df ->
  getitem df "Festival"
  = Ok (map (fun v => Str (festival_spec (astype_str_cell v))) festival).
Proof.
  intros Hraw Hfest Hload.
  apply load_data_steps in Hload as (raw' & df1 & df2 & df3 & Hr & H1 & H2 & H3 & H4).
  rewrite Hraw in Hr. inversion Hr; subst raw'; clear Hr.
  assert (Hf3 : getitem df3 "Festival" = Ok festival).
  { apply getitem_Ok_assoc. apply getitem_Ok_assoc in Hfest.
    rewrite (derive_rating_group_other _ _ _ H3) by discriminate.
    rewrite (derive_order_hour_other _ _ _ H2) by discriminate.
    now rewrite (convert_order_date_other _ _ _ H1) by discriminate. }
  unfold normalize_festival in H4.
  rewrite (getitem_has_column _ _ _ Hf3), Hf3 in H4. simpl in H4.
  inversion H4; subst df; clear H4.
  rewrite getitem_setitem_eq. f_equal. apply replace_festival_spec.
Qed.

(** C5: the loaded [Festival] column holds, for every cell of the file's
    column, the text of the cell trimmed and title-cased, with True
    turned into Yes and False into No and any other text kept.  This
    holds for every text, with Python's own trimming and title case; on a
    text of ASCII characters these are the functions of [PyStr], so true
    gives Yes, FALSE between blanks gives No and yes gives Yes. *)
Theorem festival_is_normalized
  (path : string) (raw df : DataFrame) (festival : Series) :
  read_excel path = Ok raw ->
  getitem raw "Festival" = Ok festival ->
  load_data path = Ok df ->
  getitem df "Festival"
  = Ok (map (fun v => Str (festival_spec (astype_str_cell v))) festival) /\
  (forall text,
      festival_spec text
      = let t := py_title (py_strip text) in
        if String.eqb t "True" then "Yes"
        else if String.eqb t "False" then "No" else t) /\
  (forall text,
      PyStr.is_ascii text = true ->
      festival_spec text
      = let t := PyStr.title (PyStr.strip text) in
        if String.eqb t "True" then "Yes"
        else if String.eqb t "False" then "No" else t) /\
  festival_spec "true" = "Yes" /\
  festival_spec "  FALSE " = "No" /\
  festival_spec "yes" = "Yes".
Proof.
  intros Hraw Hfest Hload. split; [| split; [| split]].
  - exact (loaded_festival _ _ _ _ Hraw Hfest Hload).
  - reflexivity.
  - intros text H. exact (festival_spec_ascii text H).
  - repeat split; (rewrite festival_spec_ascii by reflexivity); reflexivity.
Qed.

End LoaderFacts.

Lemma sample_load : load_data (RT := sample_runtime) sample_path = Ok sample_clean.
Proof. vm_compute. reflexivity. Qed.

Lemma rating_group_is_clamped_round_witness :
  exists groups,
    getitem sample_clean "Rating_Group" = Ok groups /\
    length groups
    = length [Float (46 # 10); Float (22 # 10); Float (5 # 2)] /\
    forall i r,
      [Float (46 # 10); Float (22 # 10); Float (5 # 2)] !! i = Some r ->
      exists q, as_number r = Some q /\
                groups !! i = Some (Int (clamp 1 5 (rint q))) /\
                (Qabs (q - inject_Z (rint q)) <= 1 # 2)%Q /\
                1 <= clamp 1 5 (rint q) <= 5.
Proof.
  apply (rating_group_is_clamped_round (RT := sample_runtime)
           sample_path sample_raw sample_clean);
    [reflexivity | reflexivity | reflexivity | vm_compute; reflexivity].
Defined.

Lemma festival_is_normalized_witness :
  getitem sample_clean "Festival"
  = Ok (map (fun v => Str (festival_spec (RT := sample_runtime)
                             (astype_str_cell (RT := sample_runtime) v)))
          [Str "true"; NaN; Str "  FALSE "]) /\
  (forall text,
      festival_spec (RT := sample_runtime) text
      = let t := @py_title sample_runtime (@py_strip sample_runtime text) in
        if String.eqb t "True" then "Yes"
        else if String.eqb t "False" then "No" else t) /\
  (forall text,
      PyStr.is_ascii text = true ->
      festival_spec (RT := sample_runtime) text
      = let t := PyStr.title (PyStr.strip text) in
        if String.eqb t "True" then "Yes"
        else if String.eqb t "False" then "No" else t) /\
  festival_spec (RT := sample_runtime) "true" = "Yes" /\
  festival_spec (RT := sample_runtime) "  FALSE " = "No" /\
  festival_spec (RT := sample_runtime) "yes" = "Yes".
Proof.
  apply (festival_is_normalized (RT := sample_runtime)
           sample_path sample_raw sample_clean);
    [reflexivity | reflexivity | vm_compute; reflexivity].
Defined.

(** C4, the branch of lines 28-30: a file without [order_hour] and with
    a [Time_Orderd] column whose second cell is empty and whose third
    does not parse loads with those two hours missing, not 0. *)
Theorem order_hour_from_time_orderd_stays_missing :
  has_column "order_hour" sample_raw = false /\
  getitem sample_raw "Time_Orderd" = Ok [Str "11:30:00"; NaN; Str "NaN "] /\
  exists df,
    load_data (RT := sample_runtime) sample_path = Ok df /\
    getitem df "order_hour" = Ok [Int 11; NaN; NaN].
Proof.
  split; [reflexivity |]. split; [reflexivity |].
  exists sample_clean. split; [exact sample_load | reflexivity].
Qed.

(** ** The filter *)

Lemma rmap_map {A B} (f : A -> result B) (g : A -> B) (l : list A) :
  (forall x, In x l -> f x = Ok (g x)) -> rmap f l = Ok (map g l).
Proof.
  induction l as [|x l IH]; simpl; intros H; [reflexivity |].
  rewrite (H x) by now left. simpl.
  rewrite IH by (intros y Hy; apply H; now right). reflexivity.
Qed.

Lemma between_datetime (start_date end_date : value) (dates : Series) :
  is_datetime (start_date :: end_date :: dates) = true ->
  between start_date end_date dates
  = Ok (map (in_interval start_date end_date) dates).
Proof.
  simpl. intros H.
  apply andb_prop in H as [Hs H]. apply andb_prop in H as [He H].
  unfold between. apply rmap_map. intros v Hv.
  assert (Hdt : match v with NaN | Timestamp _ => true | _ => false end = true).
  { unfold is_datetime in H. rewrite forallb_forall in H. now apply H. }
  destruct start_date, v, end_date; try discriminate; simpl;
    rewrite ?andb_false_r; reflexivity.
Qed.

Lemma existsb_eq_missing (allowed : list value) :
  forallb notna allowed = true -> existsb (cell_eqb NaN) allowed = false.
Proof.
  induction allowed as [|y l IH]; simpl; [reflexivity |].
  intros H. apply andb_prop in H as [Hy H].
  destruct y; try discriminate; simpl; now apply IH.
Qed.

Lemma isin_in_set (allowed : list value) (v : value) :
  forallb notna allowed = true ->
  existsb (cell_eqb v) allowed = in_set v allowed.
Proof.
  intros H. unfold in_set. destruct v; simpl; try reflexivity.
  now apply existsb_eq_missing.
Qed.

Lemma mask_and_length (a b : list bool) :
  length (mask_and a b) = Nat.min (length a) (length b).
Proof.
  revert b. induction a as [|x a IH]; intros [|y b]; simpl; try reflexivity.
  now rewrite IH.
Qed.

Lemma mask_and_nth (a b : list bool) (i : nat) :
  (i < length a)%nat -> (i < length b)%nat ->
  nth i (mask_and a b) false = nth i a false && nth i b false.
Proof.
  revert b i. induction a as [|x a IH]; intros [|y b] [|i]; simpl; intros Ha Hb;
    try lia; try reflexivity.
  apply IH; lia.
Qed.

Lemma map_nth_in {A B} (f : A -> B) (l : list A) (i : nat) (d : A) (e : B) :
  (i < length l)%nat -> nth i (map f l) e = f (nth i l d).
Proof.
  revert i. induction l as [|x l IH]; intros [|i]; simpl; intros H;
    try lia; try reflexivity.
  apply IH; lia.
Qed.

Lemma well_formed_getitem (d : DataFrame) (c : string) (s : Series) :
  well_formed d -> getitem d c = Ok s -> length s = nrows d.
Proof.
  unfold well_formed. intros Hwf H. apply getitem_Ok_assoc in H.
  induction (columns d) as [|[k v] l IH]; simpl in *; [discriminate |].
  inversion Hwf as [|? ? Hv Hl]; subst.
  destruct (String.eqb c k).
  - inversion H; subst. exact Hv.
  - now apply IH.
Qed.

Lemma zip_rows_S (n : nat) (cols : list (list value)) :
  zip_rows (S n) cols
  = map (fun s => nth 0 s NaN) cols :: zip_rows n (map (@tl value) cols).
Proof.
  unfold zip_rows. simpl. apply (f_equal2 cons); [reflexivity |].
  rewrite <- seq_shift, map_map. apply map_ext. intros i.
  unfold row_cells. rewrite map_map. apply map_ext. intros s.
  destruct s; [destruct i |]; reflexivity.
Qed.

Lemma select_length {A B} (mask : list bool) (l : list A) (l' : list B) :
  length l = length l' -> length (select mask l) = length (select mask l').
Proof.
  revert l l'. induction mask as [|m mask IH]; intros [|x l] [|y l'];
    simpl; intros H; try discriminate; try reflexivity.
  destruct m; simpl; [f_equal |]; apply IH; lia.
Qed.



Lemma loc_well_formed (d : DataFrame) (mask : list bool) :
  well_formed d -> well_formed (loc d mask).
Proof.
  unfold well_formed, loc; simpl. intros Hwf.
  rewrite List.Forall_forall in *. intros c Hc.
  apply in_map_iff in Hc as (c0 & <- & Hc0). simpl.
  apply select_length. rewrite length_seq. now apply Hwf.
Qed.

Lemma mbind_Ok {A B} (m : M A) (f : A -> M B) (st st' : store) (a : A) :
  m st = (Ok a, st') -> mbind m f st = f a st'.
Proof. unfold mbind. now intros ->. Qed.

Lemma mbind_Raise {A B} (m : M A) (f : A -> M B) (st st' : store) (e : exn) :
  m st = (Raise e, st') -> mbind m f st = (Raise e, st').
Proof. unfold mbind. now intros ->. Qed.

Lemma deref_Some (r : ref) (st : store) (d : DataFrame) :
  heap st !! r = Some d -> deref r st = (Ok d, st).
Proof. unfold deref. now intros ->. Qed.

Lemma filter_mask_selected (d : DataFrame) (dates cities groups : Series)
  (start_date end_date : value) (sel_city sel_rating : list value) :
  well_formed d ->
  getitem d "Order_Date" = Ok dates ->
  is_datetime (start_date :: end_date :: dates) = true ->
  getitem d "City" = Ok cities ->
  getitem d "Rating_Group" = Ok groups ->
  forallb notna sel_city = true ->
  forallb notna sel_rating = true ->
  exists mask,
    filter_mask d start_date end_date sel_city sel_rating = Ok mask /\
    length mask = nrows d /\
    forall i, (i < nrows d)%nat ->
      nth i mask false
      = row_selected start_date end_date sel_city sel_rating
          (nth i dates NaN) (nth i cities NaN) (nth i groups NaN).
Proof.
  intros Hwf Hd Hdt Hc Hg Hsc Hsr.
  pose proof (well_formed_getitem _ _ _ Hwf Hd) as Ld.
  pose proof (well_formed_getitem _ _ _ Hwf Hc) as Lc.
  pose proof (well_formed_getitem _ _ _ Hwf Hg) as Lg.
  unfold filter_mask. rewrite Hd. simpl.
  rewrite (between_datetime _ _ _ Hdt). simpl. rewrite Hc, Hg. simpl.
  eexists. split; [reflexivity |]. split.
  - rewrite !mask_and_length. unfold isin. rewrite !length_map. lia.
  - intros i Hi. unfold row_selected.
    rewrite mask_and_nth
      by (rewrite ?mask_and_length; unfold isin; rewrite ?length_map; lia).
    rewrite mask_and_nth by (unfold isin; rewrite ?length_map; lia).
    unfold isin.
    rewrite (map_nth_in _ dates i NaN) by lia.
    rewrite (map_nth_in _ cities i NaN) by lia.
    rewrite (map_nth_in _ groups i NaN) by lia.
    now rewrite !isin_in_set.
Qed.


Lemma apply_filter_runs (st : store) (df : ref) (d : DataFrame)
  (start_date end_date : value) (sel_city sel_rating : list value)
  (mask : list bool) :
  heap st !! df = Some d ->
  filter_mask d start_date end_date sel_city sel_rating = Ok mask ->
  apply_filter df start_date end_date sel_city sel_rating st
  = (Ok (length (heap st)),
     {| heap := heap st ++ [loc d mask]; page := page st |}).
Proof.
  intros Hdf Hmask. unfold apply_filter.
  rewrite (mbind_Ok _ _ _ _ _ (deref_Some _ _ _ Hdf)).
  unfold mbind, lift. rewrite Hmask. reflexivity.
Qed.



(** ** Equal cells, distinct values and the options of a widget *)

Lemma cell_eqb_refl (x : value) : cell_eqb x x = true.
Proof.
  destruct x; simpl; try reflexivity.
  - apply Qeq_bool_refl.
  - apply Qeq_bool_refl.
  - apply String.eqb_refl.
  - apply Qeq_bool_refl.
  - apply Z.eqb_refl.
Qed.

Lemma cell_eqb_sym (x y : value) : cell_eqb x y = cell_eqb y x.
Proof.
  assert (Hq : forall a b, Qeq_bool a b = Qeq_bool b a).
  { intros a b. destruct (Qeq_bool a b) eqn:E; symmetry.
    - now apply Qeq_bool_sym.
    - destruct (Qeq_bool b a) eqn:E'; [| reflexivity].
      apply Qeq_bool_sym in E'. congruence. }
  destruct x, y; simpl; try reflexivity; try apply Hq.
  - apply String.eqb_sym.
  - apply Z.eqb_sym.
Qed.

Lemma cell_eqb_trans (x y z : value) :
  cell_eqb x y = true -> cell_eqb y z = true -> cell_eqb x z = true.
Proof.
  destruct x, y; simpl; try discriminate; destruct z; simpl;
    try discriminate; try reflexivity;
    try (intros H1 H2; exact (Qeq_bool_trans _ _ _ H1 H2)).
  - intros H1 H2. apply String.eqb_eq in H1, H2. subst. apply String.eqb_refl.
  - intros H1 H2. apply Z.eqb_eq in H1, H2. subst. apply Z.eqb_refl.
Qed.

Lemma cell_eqb_notna (x y : value) :
  cell_eqb x y = true -> notna x = notna y.
Proof. destruct x, y; simpl; try discriminate; reflexivity. Qed.


Lemma unique_represents {A} (eqb : A -> A -> bool) (l : list A) (x : A) :
  (forall a, eqb a a = true) ->
  (forall a b, eqb a b = eqb b a) ->
  (forall a b c, eqb a b = true -> eqb b c = true -> eqb a c = true) ->
  In x l -> exists y, In y (unique eqb l) /\ eqb x y = true.
Proof.
  intros Hrefl Hsym Htrans.
  induction l as [|a l IH]; simpl; intros H; [contradiction |].
  destruct H as [-> | H].
  - exists x. split; [now left | apply Hrefl].
  - destruct (IH H) as (y & Hy & Hxy).
    destruct (eqb a y) eqn:E.
    + exists a. split; [now left |].
      apply Htrans with y; [exact Hxy | now rewrite Hsym].
    + exists y. split; [| exact Hxy].
      right. apply filter_In. split; [exact Hy | now rewrite E].
Qed.





(** ** The first and the last day of a datetime column *)

Lemma series_min_datetime (s : Series) :
  is_datetime s = true ->
  exists m, series_min s = Ok m /\
            is_datetime [m] = true /\
            (forall a, m = Timestamp a -> In (Timestamp a) s) /\
            (forall t, In (Timestamp t) s -> exists a, m = Timestamp a /\ a <= t).
Proof.
  induction s as [|v s IH]; simpl; intros H.
  - exists NaN. repeat split; [discriminate | contradiction].
  - apply andb_prop in H as [Hv Hs].
    destruct (IH Hs) as (m & Hm & Hdt & Hin & Hle). rewrite Hm. simpl.
    destruct v as [| | | | | t0]; try discriminate; simpl.
    + exists m. split; [reflexivity |]. split; [exact Hdt |]. split.
      * intros a Ha. right. now apply Hin.
      * intros t [Ht | Ht]; [discriminate | now apply Hle].
    + destruct m as [| | | | | a0]; try discriminate; simpl.
      * exists (Timestamp t0). repeat split.
        -- intros a Ha. inversion Ha. now left.
        -- intros t [Ht | Ht].
           ++ inversion Ht; subst. eexists. split; [reflexivity | lia].
           ++ destruct (Hle _ Ht) as (a & Ha & _). discriminate.
      * destruct (Z.leb_spec t0 a0).
        -- exists (Timestamp t0). repeat split.
           ++ intros a Ha. inversion Ha. now left.
           ++ intros t [Ht | Ht].
              ** inversion Ht; subst. eexists. split; [reflexivity | lia].
              ** destruct (Hle _ Ht) as (a & Ha & Hat). inversion Ha; subst.
                 eexists. split; [reflexivity | lia].
        -- exists (Timestamp a0). repeat split.
           ++ intros a Ha. right. now apply Hin.
           ++ intros t [Ht | Ht].
              ** inversion Ht; subst. eexists. split; [reflexivity | lia].
              ** now apply Hle.
Qed.

Lemma series_max_datetime (s : Series) :
  is_datetime s = true ->
  exists m, series_max s = Ok m /\
            is_datetime [m] = true /\
            (forall a, m = Timestamp a -> In (Timestamp a) s) /\
            (forall t, In (Timestamp t) s -> exists a, m = Timestamp a /\ t <= a).
Proof.
  induction s as [|v s IH]; simpl; intros H.
  - exists NaN. repeat split; [discriminate | contradiction].
  - apply andb_prop in H as [Hv Hs].
    destruct (IH Hs) as (m & Hm & Hdt & Hin & Hle). rewrite Hm. simpl.
    destruct v as [| | | | | t0]; try discriminate; simpl.
    + exists m. split; [reflexivity |]. split; [exact Hdt |]. split.
      * intros a Ha. right. now apply Hin.
      * intros t [Ht | Ht]; [discriminate | now apply Hle].
    + destruct m as [| | | | | a0]; try discriminate; simpl.
      * exists (Timestamp t0). repeat split.
        -- intros a Ha. inversion Ha. now left.
        -- intros t [Ht | Ht].
           ++ inversion Ht; subst. eexists. split; [reflexivity | lia].
           ++ destruct (Hle _ Ht) as (a & Ha & _). discriminate.
      * destruct (Z.leb_spec a0 t0).
        -- exists (Timestamp t0). repeat split.
           ++ intros a Ha. inversion Ha. now left.
           ++ intros t [Ht | Ht].
              ** inversion Ht; subst. eexists. split; [reflexivity | lia].
              ** destruct (Hle _ Ht) as (a & Ha & Hat). inversion Ha; subst.
                 eexists. split; [reflexivity | lia].
        -- exists (Timestamp a0). repeat split.
           ++ intros a Ha. right. now apply Hin.
           ++ intros t [Ht | Ht].
              ** inversion Ht; subst. eexists. split; [reflexivity | lia].
              ** now apply Hle.
Qed.

Lemma select_all {A} (mask : list bool) (l : list A) :
  length mask = length l ->
  (forall i, (i < length l)%nat -> nth i mask false = true) ->
  select mask l = l.
Proof.
  revert l. induction mask as [|m mask IH]; intros [|x l]; simpl;
    intros Hlen Hall; try discriminate; try reflexivity.
  pose proof (Hall 0%nat ltac:(lia)) as H0. simpl in H0. subst m.
  f_equal. apply IH; [lia |].
  intros i Hi. apply (Hall (S i)). lia.
Qed.

(** ** Filtering with everything selected *)

Lemma mbind_inv_Ok {A B} (m : M A) (f : A -> M B) (st st' : store) (b : B) :
  mbind m f st = (Ok b, st') ->
  exists a st1, m st = (Ok a, st1) /\ f a st1 = (Ok b, st').
Proof.
  unfold mbind. destruct (m st) as [[a | e] st1]; intros H.
  - eauto.
  - discriminate.
Qed.

Lemma lift_inv_Ok {A} (r : result A) (st st' : store) (a : A) :
  lift r st = (Ok a, st') -> r = Ok a /\ st' = st.
Proof. unfold lift. intros H. inversion H; subst. auto. Qed.

Lemma deref_inv_Ok (r : ref) (st st' : store) (d : DataFrame) :
  deref r st = (Ok d, st') -> heap st !! r = Some d /\ st' = st.
Proof.
  unfold deref. destruct (heap st !! r); intros H; inversion H; subst; auto.
Qed.


Lemma nth_In_lt {A} (l : list A) (i : nat) (d : A) :
  (i < length l)%nat -> In (nth i l d) l.
Proof. intros H. now apply nth_In. Qed.




(** ** The script writes to its own objects only *)

Section Frame.
Context {RT : Runtime}.

Variable n : nat.
Variable h0 : list DataFrame.

Lemma keeps_bind {A B} (m : M A) (f : A -> M B) (P : A -> Prop) (Q : B -> Prop) :
  keeps n h0 m P -> (forall a, P a -> keeps n h0 (f a) Q) -> keeps n h0 (mbind m f) Q.
Proof.
  intros Hm Hf st Hst. unfold mbind.
  destruct (Hm st Hst) as [Hk Hp].
  destruct (m st) as [[a | e] st1]; simpl in *.
  - apply (Hf a (Hp a eq_refl) st1 Hk).
  - split; [exact Hk | discriminate].
Qed.

Lemma keeps_weaken {A} (m : M A) (P Q : A -> Prop) :
  keeps n h0 m P -> (forall a, P a -> Q a) -> keeps n h0 m Q.
Proof.
  intros Hm HPQ st Hst. destruct (Hm st Hst) as [Hk Hp]. split; auto.
Qed.

Lemma keeps_ret {A} (a : A) : keeps n h0 (ret a) (fun _ => True).
Proof. intros st Hst. simpl. auto. Qed.

Lemma keeps_lift {A} (r : result A) : keeps n h0 (lift r) (fun _ => True).
Proof. intros st Hst. simpl. auto. Qed.

Lemma keeps_deref (r : ref) : keeps n h0 (deref r) (fun _ => True).
Proof.
  intros st Hst. unfold deref. destruct (heap st !! r); simpl; auto.
Qed.

Lemma keeps_emit (e : element) : keeps n h0 (emit e) (fun _ => True).
Proof. intros st Hst. simpl. auto. Qed.

Lemma keeps_new (d : DataFrame) : keeps n h0 (new d) (fun r => (n <= r)%nat).
Proof.
  intros st [Hn Hh]. unfold kept. simpl. split; [split |].
  - rewrite length_app. lia.
  - intros r Hr. rewrite lookup_app_l by lia. now apply Hh.
  - intros a Ha. inversion Ha. lia.
Qed.

Lemma kept_insert (st : store) (r : ref) (d : DataFrame) :
  (n <= r)%nat -> kept n h0 st ->
  kept n h0 {| heap := <[r := d]> (heap st); page := page st |}.
Proof.
  intros Hr [Hn Hh]. split; simpl.
  - now rewrite length_insert.
  - intros r' Hr'. rewrite list_lookup_insert_ne by lia. now apply Hh.
Qed.

Lemma keeps_assign (r : ref) (c : string) (s : Series) :
  (n <= r)%nat -> keeps n h0 (assign r c s) (fun _ => True).
Proof.
  intros Hr st Hst. unfold assign. destruct (heap st !! r); simpl.
  - split; [now apply kept_insert | auto].
  - auto.
Qed.

Lemma keeps_assign_columns (r : ref) (names : list string) :
  (n <= r)%nat -> keeps n h0 (assign_columns r names) (fun _ => True).
Proof.
  intros Hr st Hst. unfold assign_columns.
  destruct (heap st !! r); simpl; [| auto].
  destruct (set_columns d names); simpl.
  - split; [now apply kept_insert | auto].
  - auto.
Qed.

Lemma keeps_plotly_chart (title : string) (r : ref) :
  keeps n h0 (plotly_chart title r) (fun _ => True).
Proof.
  unfold plotly_chart. eapply keeps_bind; [apply keeps_deref |].
  intros d _. apply keeps_emit.
Qed.

Ltac keeps_step :=
  first
    [ apply keeps_ret
    | apply keeps_lift
    | apply keeps_deref
    | apply keeps_emit
    | apply keeps_new
    | apply keeps_plotly_chart
    | apply keeps_assign; assumption
    | apply keeps_assign_columns; assumption
    | eapply keeps_weaken; [apply keeps_new | intros; exact I] ].

Ltac keeps_block :=
  repeat first
    [ keeps_step
    | eapply keeps_bind; [keeps_step | intros ? ?]
    | match goal with
      | |- keeps n h0 (if ?b then _ else _) _ => destruct b
      end ].

Lemma keeps_filter_bar (df : ref) : keeps n h0 (filter_bar df) (fun _ => True).
Proof. unfold filter_bar. keeps_block. Qed.

Lemma keeps_filtered (df : ref) (ui : selection) :
  keeps n h0 (filtered df ui) (fun dff => (n <= dff)%nat).
Proof.
  unfold filtered. eapply keeps_bind with (P := fun _ => True).
  - unfold date_bounds. destruct (date_range ui) as [[|d0 [|d1 ds]] | d1];
      keeps_block.
  - intros bounds _. unfold apply_filter. keeps_block.
Qed.

Lemma keeps_kpi_cards (dff : ref) : keeps n h0 (kpi_cards dff) (fun _ => True).
Proof. unfold kpi_cards. keeps_block. Qed.

Lemma keeps_operations (dff : ref) :
  (n <= dff)%nat -> keeps n h0 (operations dff) (fun _ => True).
Proof.
  intros Hdff. unfold operations. keeps_block.
  eapply keeps_bind with (P := fun _ => True); [keeps_block |].
  intros _ _. keeps_block.
Qed.

Lemma keeps_speed_chart (dff : ref) : keeps n h0 (speed_chart dff) (fun _ => True).
Proof. unfold speed_chart. keeps_block. Qed.

Lemma keeps_satisfaction (dff : ref) : keeps n h0 (satisfaction dff) (fun _ => True).
Proof. unfold satisfaction. keeps_block. Qed.

Lemma keeps_dashboard (dff : ref) :
  (n <= dff)%nat -> keeps n h0 (dashboard dff) (fun _ => True).
Proof.
  intros Hdff. unfold dashboard.
  eapply keeps_bind; [apply keeps_kpi_cards | intros _ _].
  eapply keeps_bind; [apply keeps_emit | intros _ _].
  eapply keeps_bind; [apply keeps_emit | intros _ _].
  eapply keeps_bind; [now apply keeps_operations | intros _ _].
  eapply keeps_bind; [apply keeps_emit | intros _ _].
  eapply keeps_bind; [apply keeps_speed_chart | intros _ _].
  eapply keeps_bind; [apply keeps_satisfaction | intros _ _].
  apply keeps_emit.
Qed.

Lemma keeps_script (df : ref) (ui : selection) :
  keeps n h0 (script df ui) (fun dff => (n <= dff)%nat).
Proof.
  unfold script.
  eapply keeps_bind; [apply keeps_filter_bar | intros _ _].
  eapply keeps_bind; [apply keeps_filtered | intros dff Hdff].
  eapply keeps_bind; [now apply keeps_dashboard | intros _ _].
  intros st Hst. simpl. split; [exact Hst |].
  intros a Ha. inversion Ha. now subst.
Qed.

End Frame.

(** C9: whatever the widgets return and however the script ends, every
    object that was in the store before the script ran, the loaded table
    [df] among them, is the same afterwards; the filtered copy, to which
    the period column is added, is an object of its own. *)
Theorem script_leaves_loaded_table_unchanged {RT : Runtime}
  (st : store) (df : ref) (d : DataFrame) (ui : selection) :
  heap st !! df = Some d ->
  heap (snd (script df ui st)) !! df = Some d /\
  (forall r x, heap st !! r = Some x ->
               heap (snd (script df ui st)) !! r = Some x) /\
  (forall dff, fst (script df ui st) = Ok dff ->
               dff <> df /\ heap st !! dff = None).
Proof.
  intros Hdf.
  assert (Hk : kept (length (heap st)) (heap st) st)
    by (split; [lia | reflexivity]).
  destruct (keeps_script (length (heap st)) (heap st) df ui st Hk)
    as [[_ Hsame] Hnew].
  assert (Hold : forall r x, heap st !! r = Some x ->
                             heap (snd (script df ui st)) !! r = Some x).
  { intros r x Hr. rewrite Hsame; [exact Hr |].
    apply (lookup_lt_Some _ _ _ Hr). }
  split; [now apply Hold |]. split; [exact Hold |].
  intros dff Hdff. specialize (Hnew dff Hdff).
  pose proof (lookup_lt_Some _ _ _ Hdf) as Hlt. split; [lia |].
  apply lookup_ge_None. lia.
Qed.

Lemma script_leaves_loaded_table_unchanged_witness :
  let out := script (RT := sample_runtime) 0%nat
               {| date_range := DateTuple [18993; 18994];
                  sel_city := [Str "A"; Str "B"];
                  sel_rating := [Int 2; Int 5] |} sample_store in
  heap (snd out) !! 0%nat = Some sample_clean /\
  (forall r x, heap sample_store !! r = Some x -> heap (snd out) !! r = Some x) /\
  (forall dff, fst out = Ok dff ->
               dff <> 0%nat /\ heap sample_store !! dff = None).
Proof.
  apply (script_leaves_loaded_table_unchanged (RT := sample_runtime)
           sample_store 0%nat sample_clean).
  reflexivity.
Defined.

(** ** Running statements to their end *)

Lemma wp_bind {A B} (m : M A) (f : A -> M B) (Q : B -> store -> Prop) (st : store) :
  wp m (fun a st' => wp (f a) Q st') st -> wp (mbind m f) Q st.
Proof.
  intros (a & st1 & Hm & b & st2 & Hf & HQ).
  exists b, st2. split; [| exact HQ]. unfold mbind. now rewrite Hm.
Qed.

Lemma wp_ret {A} (a : A) (Q : A -> store -> Prop) (st : store) :
  Q a st -> wp (ret a) Q st.
Proof. intros H. exists a, st. auto. Qed.

Lemma wp_lift {A} (r : result A) (a : A) (Q : A -> store -> Prop) (st : store) :
  r = Ok a -> Q a st -> wp (lift r) Q st.
Proof. intros -> H. exists a, st. auto. Qed.

Lemma wp_deref (r : ref) (d : DataFrame) (Q : DataFrame -> store -> Prop)
  (st : store) :
  heap st !! r = Some d -> Q d st -> wp (deref r) Q st.
Proof. intros Hr H. exists d, st. split; [now apply deref_Some | exact H]. Qed.

Lemma wp_emit (e : element) (Q : unit -> store -> Prop) (st : store) :
  (forall st', heap st' = heap st -> page st' = page st ++ [e] -> Q tt st') ->
  wp (emit e) Q st.
Proof. intros H. eexists tt, _. split; [reflexivity |]. now apply H. Qed.

Lemma wp_new (d : DataFrame) (Q : ref -> store -> Prop) (st : store) :
  (forall st', heap st' = heap st ++ [d] -> page st' = page st ->
               Q (length (heap st)) st') ->
  wp (new d) Q st.
Proof. intros H. eexists _, _. split; [reflexivity |]. now apply H. Qed.

Lemma wp_assign (r : ref) (c : string) (s : Series) (d : DataFrame)
  (Q : unit -> store -> Prop) (st : store) :
  heap st !! r = Some d ->
  (forall st', heap st' = <[r := setitem d c s]> (heap st) ->
               page st' = page st -> Q tt st') ->
  wp (assign r c s) Q st.
Proof.
  intros Hr H. eexists tt, _. split.
  - unfold assign. rewrite Hr. reflexivity.
  - now apply H.
Qed.

Lemma wp_assign_columns (r : ref) (names : list string) (d d' : DataFrame)
  (Q : unit -> store -> Prop) (st : store) :
  heap st !! r = Some d ->
  set_columns d names = Ok d' ->
  (forall st', heap st' = <[r := d']> (heap st) -> page st' = page st -> Q tt st') ->
  wp (assign_columns r names) Q st.
Proof.
  intros Hr Hd H. eexists tt, _. split.
  - unfold assign_columns. rewrite Hr, Hd. reflexivity.
  - now apply H.
Qed.

Lemma wp_plotly_chart (title : string) (r : ref) (d : DataFrame)
  (Q : unit -> store -> Prop) (st : store) :
  heap st !! r = Some d ->
  (forall st', heap st' = heap st ->
               page st' = page st ++ [PlotlyChart title d] -> Q tt st') ->
  wp (plotly_chart title r) Q st.
Proof.
  intros Hr H. unfold plotly_chart. apply wp_bind.
  apply (wp_deref _ d); [exact Hr |]. now apply wp_emit.
Qed.

Lemma new_lookup_new (h h' : list DataFrame) (d : DataFrame) :
  h' = h ++ [d] -> h' !! length h = Some d.
Proof. intros ->. rewrite lookup_app_r by lia. now rewrite Nat.sub_diag. Qed.

Lemma new_lookup_old (h h' : list DataFrame) (d x : DataFrame) (r : ref) :
  h' = h ++ [d] -> h !! r = Some x -> h' !! r = Some x.
Proof. intros -> Hr. now apply lookup_app_l_Some. Qed.

Lemma assign_lookup_same (h h' : list DataFrame) (d x : DataFrame) (r : ref) :
  h' = <[r := d]> h -> h !! r = Some x -> h' !! r = Some d.
Proof.
  intros -> Hr. apply list_lookup_insert_eq. apply (lookup_lt_Some _ _ _ Hr).
Qed.

Lemma assign_lookup_other (h h' : list DataFrame) (d x : DataFrame) (r r' : ref) :
  h' = <[r := d]> h -> r <> r' -> h !! r' = Some x -> h' !! r' = Some x.
Proof. intros -> Hne Hr. now rewrite list_lookup_insert_ne. Qed.

(** ** Aggregations of a table without rows *)

Lemma getitem_empty (e : DataFrame) (c : string) :
  well_formed e -> nrows e = 0%nat -> has_column c e = true ->
  getitem e c = Ok [].
Proof.
  intros Hwf Hn Hc. destruct (has_column_getitem _ _ Hc) as (s & Hs).
  rewrite Hs. f_equal.
  pose proof (well_formed_getitem _ _ _ Hwf Hs) as Hlen. rewrite Hn in Hlen.
  destruct s; [reflexivity | discriminate].
Qed.

Lemma empty_with_getitem (cols : list string) (e : DataFrame) (c : string) :
  empty_with cols e -> In c cols -> getitem e c = Ok [].
Proof. intros (Hwf & Hn & Hc) Hin. apply getitem_empty; auto. Qed.

Lemma setitem_well_formed (e : DataFrame) (c : string) (s : Series) :
  well_formed e -> length s = nrows e -> well_formed (setitem e c s).
Proof.
  unfold well_formed, setitem; simpl. intros Hwf Hs.
  induction (columns e) as [|[k v] l IH]; simpl.
  - constructor; [exact Hs | constructor].
  - inversion Hwf; subst. destruct (String.eqb c k); constructor; auto.
Qed.

Lemma has_column_setitem (e : DataFrame) (c c' : string) (s : Series) :
  has_column c e = true -> has_column c (setitem e c' s) = true.
Proof.
  intros H. destruct (String.eqb_spec c c') as [-> | Hne].
  - apply has_column_setitem_eq.
  - now rewrite has_column_setitem_ne.
Qed.

Lemma empty_with_setitem (cols : list string) (e : DataFrame) (c : string) :
  empty_with cols e -> empty_with cols (setitem e c []).
Proof.
  intros (Hwf & Hn & Hc). repeat split.
  - apply setitem_well_formed; [exact Hwf | now rewrite Hn].
  - exact Hn.
  - intros c' Hin. apply has_column_setitem. now apply Hc.
Qed.

Lemma groupby_size_empty1 (e : DataFrame) (k name : string) :
  nrows e = 0%nat -> getitem e k = Ok [] ->
  groupby_size e [k] name = Ok (no_rows [k; name]).
Proof.
  intros Hn Hk. unfold groupby_size. simpl. rewrite Hk. simpl.
  rewrite Hn. reflexivity.
Qed.

Lemma groupby_size_empty2 (e : DataFrame) (k1 k2 name : string) :
  nrows e = 0%nat -> getitem e k1 = Ok [] -> getitem e k2 = Ok [] ->
  groupby_size e [k1; k2] name = Ok (no_rows [k1; k2; name]).
Proof.
  intros Hn H1 H2. unfold groupby_size. simpl. rewrite H1. simpl.
  rewrite H2. simpl. rewrite Hn. reflexivity.
Qed.

Lemma groupby_mean_empty (e : DataFrame) (k c : string) :
  getitem e k = Ok [] -> getitem e c = Ok [] ->
  groupby_mean e k c = Ok (no_rows [k; c]).
Proof.
  intros Hk Hc. unfold groupby_mean. rewrite Hk. simpl. rewrite Hc.
  reflexivity.
Qed.

Lemma value_counts_sorted_empty (e : DataFrame) (c : string) :
  getitem e c = Ok [] ->
  value_counts_sorted e c = Ok (no_rows [c; "count"]).
Proof. intros Hc. unfold value_counts_sorted. rewrite Hc. reflexivity. Qed.

Section EmptySelection.
Context {RT : Runtime}.

Ltac in_required := unfold required_columns; simpl; tauto.

Lemma kpi_cards_empty (st : store) (dff : ref) (e : DataFrame)
  (Q : unit -> store -> Prop) :
  heap st !! dff = Some e ->
  empty_with required_columns e ->
  (forall st', heap st' = heap st ->
               page st' = page st ++ firstn 3 (no_data_page false) ->
               Q tt st') ->
  wp (kpi_cards dff) Q st.
Proof.
  intros Hdff He HQ. pose proof He as (Hwf & Hn & Hc).
  unfold kpi_cards.
  apply wp_bind, (wp_deref _ e); [exact Hdff |].
  apply wp_bind, wp_emit. intros st1 Hh1 Hp1.
  apply wp_bind. eapply wp_lift;
    [apply (empty_with_getitem _ _ _ He); in_required |].
  apply wp_bind. eapply wp_lift; [reflexivity |].
  apply wp_bind. eapply wp_lift; [reflexivity |].
  apply wp_bind, wp_emit. intros st2 Hh2 Hp2.
  apply wp_bind. eapply wp_lift;
    [apply (empty_with_getitem _ _ _ He); in_required |].
  apply wp_bind. eapply wp_lift; [reflexivity |].
  apply wp_bind. eapply wp_lift; [reflexivity |].
  apply wp_emit. intros st3 Hh3 Hp3.
  apply HQ; [congruence |].
  rewrite Hp3, Hp2, Hp1, Hn. rewrite <- !app_assoc. reflexivity.
Qed.

Lemma operations_empty (st : store) (dff : ref) (e : DataFrame)
  (Q : unit -> store -> Prop) :
  heap st !! dff = Some e ->
  empty_with required_columns e ->
  (forall st' e',
      heap st' !! dff = Some e' ->
      empty_with required_columns e' ->
      has_column "delivery_speed" e' = has_column "delivery_speed" e ->
      page st' = page st ++ firstn 4 (skipn 5 (no_data_page false)) ->
      Q tt st') ->
  wp (operations dff) Q st.
Proof.
  intros Hdff He HQ. pose proof He as (Hwf & Hn & Hc).
  unfold operations.
  (* c1 *)
  apply wp_bind, (wp_deref _ e); [exact Hdff |].
  apply wp_bind. eapply wp_lift.
  { apply groupby_size_empty1; [exact Hn |].
    apply (empty_with_getitem _ _ _ He); in_required. }
  apply wp_bind. eapply wp_lift; [vm_compute; reflexivity |].
  apply wp_bind, wp_new. intros st1 Hh1 Hp1.
  eapply wp_bind, wp_plotly_chart; [exact (new_lookup_new _ _ _ Hh1) |].
  intros st2 Hh2 Hp2.
  assert (Hdff2 : heap st2 !! dff = Some e)
    by (rewrite Hh2; exact (new_lookup_old _ _ _ _ _ Hh1 Hdff)).
  (* c2 *)
  apply wp_bind, (wp_deref _ e); [exact Hdff2 |].
  apply wp_bind. eapply wp_lift.
  { apply groupby_mean_empty; apply (empty_with_getitem _ _ _ He); in_required. }
  apply wp_bind, wp_new. intros st3 Hh3 Hp3.
  eapply wp_bind, wp_plotly_chart; [exact (new_lookup_new _ _ _ Hh3) |].
  intros st4 Hh4 Hp4.
  assert (Hdff4 : heap st4 !! dff = Some e)
    by (rewrite Hh4; exact (new_lookup_old _ _ _ _ _ Hh3 Hdff2)).
  (* c3 *)
  apply wp_bind, (wp_deref _ e); [exact Hdff4 |].
  apply wp_bind. eapply wp_lift.
  { apply groupby_size_empty2; [exact Hn | |];
      apply (empty_with_getitem _ _ _ He); in_required. }
  apply wp_bind, wp_new. intros st5 Hh5 Hp5.
  eapply wp_bind, wp_plotly_chart; [exact (new_lookup_new _ _ _ Hh5) |].
  intros st6 Hh6 Hp6.
  assert (Hdff6 : heap st6 !! dff = Some e)
    by (rewrite Hh6; exact (new_lookup_old _ _ _ _ _ Hh5 Hdff4)).
  (* c4 *)
  apply wp_bind, (wp_deref _ e); [exact Hdff6 |].
  assert (Hperiod :
    wp (if negb (has_column "order_period" e)
        then mbind (lift (getitem e "order_hour"))
               (fun order_hour =>
                  mbind (lift (astype_int (fillna (Int 0) order_hour)))
                    (fun hours =>
                       assign dff "order_period"
                         (map (fun x => Str (order_period x)) hours)))
        else ret tt)
       (fun _ st7 =>
          page st7 = page st6 /\
          exists e', heap st7 !! dff = Some e' /\
                     empty_with ("order_period" :: required_columns) e' /\
                     has_column "delivery_speed" e'
                     = has_column "delivery_speed" e) st6).
  { destruct (has_column "order_period" e) eqn:Eop; simpl.
    - apply wp_ret. split; [reflexivity |]. exists e. repeat split; auto.
      intros c [<- | Hin]; [exact Eop | now apply Hc].
    - apply wp_bind. eapply wp_lift;
        [apply (empty_with_getitem _ _ _ He); in_required |].
      apply wp_bind. eapply wp_lift; [reflexivity |].
      eapply wp_assign; [exact Hdff6 |]. intros st7 Hh7 Hp7.
      split; [exact Hp7 |]. exists (setitem e "order_period" []).
      split; [exact (assign_lookup_same _ _ _ _ _ Hh7 Hdff6) |].
      split.
      + destruct (empty_with_setitem _ _ "order_period" He) as (W & N & C).
        repeat split; auto.
        intros c [<- | Hin]; [apply has_column_setitem_eq | now apply C].
      + now rewrite has_column_setitem_ne by discriminate. }
  apply wp_bind.
  destruct Hperiod as (u & st7 & Hrun & Hp7 & e' & Hdff7 & He' & Hspeed).
  exists u, st7. split; [exact Hrun |]. clear Hrun.
  assert (He'r : empty_with required_columns e').
  { destruct He' as (W & N & C). repeat split; auto.
    intros c Hin. apply C. now right. }
  destruct He' as (Hwf' & Hn' & Hc').
  apply wp_bind, (wp_deref _ e'); [exact Hdff7 |].
  apply wp_bind. eapply wp_lift.
  { apply groupby_size_empty1; [exact Hn' |].
    apply getitem_empty; auto. apply Hc'. now left. }
  apply wp_bind, wp_new. intros st8 Hh8 Hp8.
  pose proof (new_lookup_new _ _ _ Hh8) as Htmp2.
  apply wp_bind, (wp_deref _ _ _ _ Htmp2).
  apply wp_bind. eapply wp_lift; [reflexivity |].
  eapply wp_bind, wp_assign; [exact Htmp2 |]. intros st9 Hh9 Hp9.
  pose proof (assign_lookup_same _ _ _ _ _ Hh9 Htmp2) as Htmp2'.
  apply wp_bind, (wp_deref _ _ _ _ Htmp2').
  apply wp_bind. eapply wp_lift; [vm_compute; reflexivity |].
  apply wp_bind, wp_new. intros st10 Hh10 Hp10.
  eapply wp_plotly_chart; [exact (new_lookup_new _ _ _ Hh10) |].
  intros st11 Hh11 Hp11.
  apply (HQ st11 e').
  - rewrite Hh11. apply (new_lookup_old _ _ _ _ _ Hh10).
    apply (assign_lookup_other _ _ _ _ _ _ Hh9).
    + pose proof (lookup_lt_Some _ _ _ Hdff7). lia.
    + exact (new_lookup_old _ _ _ _ _ Hh8 Hdff7).
  - exact He'r.
  - exact Hspeed.
  - rewrite Hp11, Hp10, Hp9, Hp8, Hp7, Hp6, Hp5, Hp4, Hp3, Hp2, Hp1.
    rewrite <- !app_assoc. reflexivity.
Qed.

Lemma speed_chart_runs (st : store) (dff : ref) (e : DataFrame) :
  heap st !! dff = Some e ->
  speed_chart dff st
  = (if has_column "delivery_speed" e then
       match groupby_mean e "delivery_speed" "Delivery_person_Ratings" with
       | Ok speed_avg =>
           (Ok tt,
            {| heap := heap st ++ [speed_avg];
               page := page st
                       ++ [PlotlyChart "Delivery Speed vs Rating" speed_avg] |})
       | Raise x => (Raise x, st)
       end
     else (Ok tt, {| heap := heap st; page := page st ++ [speed_placeholder] |})).
Proof.
  intros Hdff. unfold speed_chart.
  rewrite (mbind_Ok _ _ _ _ _ (deref_Some _ _ _ Hdff)).
  destruct (has_column "delivery_speed" e); [| reflexivity].
  unfold mbind, lift.
  destruct (groupby_mean e "delivery_speed" "Delivery_person_Ratings")
    as [speed_avg | x]; [| reflexivity].
  unfold new, plotly_chart, mbind, deref, emit. cbn [heap page].
  now rewrite (new_lookup_new (heap st) _ speed_avg eq_refl).
Qed.

Lemma satisfaction_empty (st : store) (dff : ref) (e : DataFrame)
  (Q : unit -> store -> Prop) :
  heap st !! dff = Some e ->
  empty_with required_columns e ->
  (forall st', page st' = page st ++ firstn 3 (skipn 11 (no_data_page false)) ->
               Q tt st') ->
  wp (satisfaction dff) Q st.
Proof.
  intros Hdff He HQ. pose proof He as (Hwf & Hn & Hc).
  unfold satisfaction.
  apply wp_bind, (wp_deref _ e); [exact Hdff |].
  apply wp_bind. eapply wp_lift.
  { apply groupby_mean_empty; apply (empty_with_getitem _ _ _ He); in_required. }
  apply wp_bind, wp_new. intros st1 Hh1 Hp1.
  eapply wp_bind, wp_plotly_chart; [exact (new_lookup_new _ _ _ Hh1) |].
  intros st2 Hh2 Hp2.
  assert (Hdff2 : heap st2 !! dff = Some e)
    by (rewrite Hh2; exact (new_lookup_old _ _ _ _ _ Hh1 Hdff)).
  apply wp_bind, (wp_deref _ e); [exact Hdff2 |].
  apply wp_bind. eapply wp_lift.
  { apply groupby_mean_empty; apply (empty_with_getitem _ _ _ He); in_required. }
  apply wp_bind, wp_new. intros st3 Hh3 Hp3.
  eapply wp_bind, wp_plotly_chart; [exact (new_lookup_new _ _ _ Hh3) |].
  intros st4 Hh4 Hp4.
  assert (Hdff4 : heap st4 !! dff = Some e)
    by (rewrite Hh4; exact (new_lookup_old _ _ _ _ _ Hh3 Hdff2)).
  apply wp_bind, (wp_deref _ e); [exact Hdff4 |].
  apply wp_bind. eapply wp_lift.
  { apply value_counts_sorted_empty.
    apply (empty_with_getitem _ _ _ He); in_required. }
  apply wp_bind, wp_new. intros st5 Hh5 Hp5.
  pose proof (new_lookup_new _ _ _ Hh5) as Hrg.
  eapply wp_bind, wp_assign_columns; [exact Hrg | reflexivity |].
  intros st6 Hh6 Hp6.
  eapply wp_plotly_chart; [exact (assign_lookup_same _ _ _ _ _ Hh6 Hrg) |].
  intros st7 Hh7 Hp7.
  apply HQ.
  rewrite Hp7, Hp6, Hp5, Hp4, Hp3, Hp2, Hp1.
  rewrite <- !app_assoc. reflexivity.
Qed.

Lemma dashboard_empty (st : store) (dff : ref) (e : DataFrame) :
  heap st !! dff = Some e ->
  empty_with required_columns e ->
  exists st',
    dashboard dff st = (Ok tt, st') /\
    page st'
    = page st ++ no_data_page (has_column "delivery_speed" e).
Proof.
  intros Hdff He.
  enough (H : wp (dashboard dff)
                (fun _ st' =>
                   page st'
                   = page st ++ no_data_page (has_column "delivery_speed" e)) st).
  { destruct H as ([] & st' & Hrun & Hp). eauto. }
  unfold dashboard.
  apply wp_bind, (kpi_cards_empty _ _ e); [exact Hdff | exact He |].
  intros st1 Hh1 Hp1.
  apply wp_bind, wp_emit. intros st2 Hh2 Hp2.
  apply wp_bind, wp_emit. intros st3 Hh3 Hp3.
  assert (Hdff3 : heap st3 !! dff = Some e) by congruence.
  apply wp_bind, (operations_empty _ _ e); [exact Hdff3 | exact He |].
  intros st4 e' Hdff4 He' Hspeed Hp4.
  apply wp_bind, wp_emit. intros st5 Hh5 Hp5.
  assert (Hdff5 : heap st5 !! dff = Some e') by congruence.
  apply wp_bind.
  pose proof (speed_chart_runs st5 dff e' Hdff5) as Hrun.
  rewrite Hspeed in Hrun.
  assert (Hmean : groupby_mean e' "delivery_speed" "Delivery_person_Ratings"
                  = Ok (no_rows ["delivery_speed"; "Delivery_person_Ratings"])
                  \/ has_column "delivery_speed" e = false).
  { destruct (has_column "delivery_speed" e) eqn:E; [left | now right].
    destruct He' as (W & N & C).
    apply groupby_mean_empty; apply getitem_empty; auto.
    apply C. in_required. }
  destruct (has_column "delivery_speed" e) eqn:Espeed.
  - destruct Hmean as [Hmean | ?]; [| discriminate]. rewrite Hmean in Hrun.
    eexists tt, _. split; [exact Hrun |].
    apply wp_bind, (satisfaction_empty _ _ e'); [| exact He' |].
    { simpl. now apply lookup_app_l_Some. }
    intros st6 Hp6.
    apply wp_emit. intros st7 Hh7 Hp7.
    rewrite Hp7, Hp6. simpl page.
    rewrite Hp5, Hp4, Hp3, Hp2, Hp1. rewrite <- !app_assoc. reflexivity.
  - eexists tt, _. split; [exact Hrun |].
    apply wp_bind, (satisfaction_empty _ _ e'); [exact Hdff5 | exact He' |].
    intros st6 Hp6.
    apply wp_emit. intros st7 Hh7 Hp7.
    rewrite Hp7, Hp6. simpl page.
    rewrite Hp5, Hp4, Hp3, Hp2, Hp1. rewrite <- !app_assoc. reflexivity.
Qed.

End EmptySelection.

(** ** The empty selection, from the widgets to the page *)

Lemma date_bounds_store (df : ref) (dr : date_input) (st : store) :
  snd (date_bounds df dr st) = st.
Proof.
  unfold date_bounds. destruct dr as [[|d0 [|d1 ds]] | d1]; try reflexivity.
  unfold mbind, deref, lift, ret.
  destruct (heap st !! df) as [d |]; [| reflexivity].
  destruct (getitem d "Order_Date") as [od |]; [| reflexivity].
  destruct (series_min od); [| reflexivity].
  destruct (series_max od); reflexivity.
Qed.

Lemma filtered_inv (df dff : ref) (d : DataFrame) (ui : selection)
  (st st1 : store) :
  heap st !! df = Some d ->
  filtered df ui st = (Ok dff, st1) ->
  exists mask,
    dff = length (heap st) /\
    st1 = {| heap := heap st ++ [loc d mask]; page := page st |}.
Proof.
  intros Hdf H. unfold filtered in H.
  apply mbind_inv_Ok in H as (bounds & s1 & Hb & H).
  pose proof (date_bounds_store df (date_range ui) st) as Hs.
  rewrite Hb in Hs. simpl in Hs. subst s1.
  unfold apply_filter in H.
  rewrite (mbind_Ok _ _ _ _ _ (deref_Some _ _ _ Hdf)) in H.
  apply mbind_inv_Ok in H as (mask & s1 & Hm & H).
  apply lift_inv_Ok in Hm as [Hm ->].
  unfold new in H. inversion H; subst. eauto.
Qed.

Lemma has_column_loc (c : string) (d : DataFrame) (mask : list bool) :
  has_column c (loc d mask) = has_column c d.
Proof.
  unfold has_column, loc; simpl.
  induction (columns d) as [|[k v] l IH]; simpl; [reflexivity |].
  destruct (String.eqb c k); [reflexivity | exact IH].
Qed.

(** C7, as the code has it: when the filtered table has no rows, the
    dashboard ends without an exception; every chart gets a table
    without rows; the two means are missing and their cards read nan;
    the count of orders is 0 and its card reads 0. *)
Theorem empty_selection_page {RT : Runtime} (st st1 : store) (df dff : ref)
  (d e : DataFrame) (ui : selection) :
  heap st !! df = Some d ->
  well_formed d ->
  forallb (fun c => has_column c d) required_columns = true ->
  filtered df ui st = (Ok dff, st1) ->
  heap st1 !! dff = Some e ->
  nrows e = 0%nat ->
  (exists times ratings,
      getitem e "Time_taken (min)" = Ok times /\
      series_mean times = Ok NaN /\
      getitem e "Delivery_person_Ratings" = Ok ratings /\
      series_mean ratings = Ok NaN) /\
  format_count (nrows e) = "0" /\
  format_2f NaN = Ok "nan" /\
  exists st',
    dashboard dff st1 = (Ok tt, st') /\
    page st' = page st ++ no_data_page (has_column "delivery_speed" d).
Proof.
  intros Hdf Hwf Hcols Hfil Hdff Hn.
  destruct (filtered_inv _ _ _ _ _ _ Hdf Hfil) as (mask & -> & ->).
  simpl in Hdff. rewrite (new_lookup_new (heap st) _ (loc d mask) eq_refl) in Hdff.
  inversion Hdff; subst e; clear Hdff.
  assert (He : empty_with required_columns (loc d mask)).
  { repeat split.
    - now apply loc_well_formed.
    - exact Hn.
    - intros c Hc. rewrite has_column_loc.
      rewrite forallb_forall in Hcols. now apply Hcols. }
  split; [| split; [| split]].
  - exists [], []. repeat split;
      try (apply (empty_with_getitem _ _ _ He); unfold required_columns;
           simpl; tauto).
  - now rewrite Hn.
  - reflexivity.
  - destruct (dashboard_empty
                {| heap := heap st ++ [loc d mask]; page := page st |}
                (length (heap st)) (loc d mask)) as (st' & Hrun & Hp).
    + simpl. apply (new_lookup_new (heap st) _ (loc d mask) eq_refl).
    + exact He.
    + exists st'. split; [exact Hrun |].
      rewrite Hp, has_column_loc. reflexivity.
Qed.

Lemma empty_selection_page_witness :
  let ui := {| date_range := DateTuple [18993; 18994];
               sel_city := [];
               sel_rating := [Int 2; Int 5] |} in
  let e := loc sample_clean [false; false; false] in
  let st1 := {| heap := [sample_clean; e]; page := [] |} in
  (exists times ratings,
      getitem e "Time_taken (min)" = Ok times /\
      series_mean times = Ok NaN /\
      getitem e "Delivery_person_Ratings" = Ok ratings /\
      series_mean ratings = Ok NaN) /\
  format_count (nrows e) = "0" /\
  format_2f NaN = Ok "nan" /\
  exists st',
    dashboard (RT := sample_runtime) 1%nat st1 = (Ok tt, st') /\
    page st'
    = page sample_store
      ++ no_data_page (has_column "delivery_speed" sample_clean).
Proof.
  apply (empty_selection_page (RT := sample_runtime) sample_store _ 0%nat 1%nat
           sample_clean _
           {| date_range := DateTuple [18993; 18994];
              sel_city := [];
              sel_rating := [Int 2; Int 5] |});
    try reflexivity.
  repeat constructor.
Defined.

(** C7 as stated fails on the sample table with no city selected: the
    filtered table is empty and the card of the count reads 0. *)
Lemma empty_selection_counterexample :
  exists st',
    script (RT := sample_runtime) 0%nat
      {| date_range := DateTuple [18993; 18994];
         sel_city := [];
         sel_rating := [Int 2; Int 5] |} sample_store
    = (Ok 1%nat, st') /\
    (exists e, heap st' !! 1%nat = Some e /\ nrows e = 0%nat) /\
    In (Metric "📦 Count of Orders" "0") (page st') /\
    ~ In (Metric "📦 Count of Orders" "nan") (page st').
Proof.
  eexists. split; [vm_compute; reflexivity |].
  split; [eexists; split; reflexivity |].
  split; [simpl; auto |].
  simpl. intros H.
  repeat (destruct H as [H | H]; [discriminate |]). exact H.
Qed.

(** ** The chart of the delivery speed *)

(** C8: the means by [delivery_speed] are computed exactly when the
    filtered table has that column; without it the block puts the
    placeholder on the page, raises nothing and creates no object, so
    that the statements after it run as they would without the block,
    on a page with the placeholder. *)
Theorem speed_chart_needs_column (st : store) (dff : ref) (e : DataFrame) :
  heap st !! dff = Some e ->
  speed_chart dff st
  = (if has_column "delivery_speed" e then
       match groupby_mean e "delivery_speed" "Delivery_person_Ratings" with
       | Ok speed_avg =>
           (Ok tt,
            {| heap := heap st ++ [speed_avg];
               page := page st
                       ++ [PlotlyChart "Delivery Speed vs Rating" speed_avg] |})
       | Raise x => (Raise x, st)
       end
     else (Ok tt, {| heap := heap st; page := page st ++ [speed_placeholder] |}))
  /\
  (has_column "delivery_speed" e = false ->
   forall (A : Type) (rest : M A),
     mbind (speed_chart dff) (fun _ => rest) st
     = rest {| heap := heap st; page := page st ++ [speed_placeholder] |}).
Proof.
  intros Hdff. pose proof (speed_chart_runs st dff e Hdff) as Hrun.
  split; [exact Hrun |].
  intros Hno A rest. rewrite Hno in Hrun.
  unfold mbind. now rewrite Hrun.
Qed.

Lemma speed_chart_needs_column_witness :
  speed_chart 0%nat sample_store
  = (if has_column "delivery_speed" sample_clean then
       match groupby_mean sample_clean "delivery_speed" "Delivery_person_Ratings" with
       | Ok speed_avg =>
           (Ok tt,
            {| heap := heap sample_store ++ [speed_avg];
               page := page sample_store
                       ++ [PlotlyChart "Delivery Speed vs Rating" speed_avg] |})
       | Raise x => (Raise x, sample_store)
       end
     else (Ok tt, {| heap := heap sample_store;
                     page := page sample_store ++ [speed_placeholder] |}))
  /\
  (has_column "delivery_speed" sample_clean = false ->
   forall (A : Type) (rest : M A),
     mbind (speed_chart 0%nat) (fun _ => rest) sample_store
     = rest {| heap := heap sample_store;
               page := page sample_store ++ [speed_placeholder] |}).
Proof.
  apply (speed_chart_needs_column sample_store 0%nat sample_clean).
  reflexivity.
Defined.

(** ** Groups of orders by hour and festival *)

Lemma key_eqb_refl (a : list value) : key_eqb a a = true.
Proof.
  induction a as [|x a IH]; simpl; [reflexivity |].
  now rewrite cell_eqb_refl.
Qed.

Lemma key_eqb_sym (a b : list value) : key_eqb a b = key_eqb b a.
Proof.
  revert b. induction a as [|x a IH]; intros [|y b]; simpl; try reflexivity.
  now rewrite cell_eqb_sym, IH.
Qed.

Lemma key_eqb_trans (a b c : list value) :
  key_eqb a b = true -> key_eqb b c = true -> key_eqb a c = true.
Proof.
  revert b c. induction a as [|x a IH]; intros [|y b] [|z c]; simpl;
    try discriminate; try reflexivity.
  intros H1 H2.
  apply andb_prop in H1 as [Hxy Hab]. apply andb_prop in H2 as [Hyz Hbc].
  rewrite (cell_eqb_trans _ _ _ Hxy Hyz), (IH _ _ Hab Hbc). reflexivity.
Qed.

Lemma insert_by_In {A} (leb : A -> A -> bool) (x y : A) (l : list A) :
  In y (insert_by leb x l) <-> y = x \/ In y l.
Proof.
  induction l as [|a l IH]; simpl; [intuition congruence |].
  destruct (leb x a); simpl; [intuition congruence |].
  rewrite IH. intuition congruence.
Qed.

Lemma sort_by_In {A} (leb : A -> A -> bool) (y : A) (l : list A) :
  In y (sort_by leb l) <-> In y l.
Proof.
  unfold sort_by. induction l as [|a l IH]; simpl; [reflexivity |].
  rewrite insert_by_In, IH. intuition congruence.
Qed.

Lemma zip_rows_of_groups {A} (f1 f2 f3 : A -> value) (l : list A) :
  zip_rows (length l) [map f1 l; map f2 l; map f3 l]
  = map (fun g => [f1 g; f2 g; f3 g]) l.
Proof.
  induction l as [|g l IH]; [reflexivity |].
  cbn [length]. rewrite zip_rows_S. simpl. now rewrite IH.
Qed.

Lemma getitem_loc (d : DataFrame) (c : string) (s : Series) (mask : list bool) :
  getitem d c = Ok s -> getitem (loc d mask) c = Ok (select mask s).
Proof.
  intros H. apply getitem_Ok_assoc in H. apply getitem_Ok_assoc.
  unfold loc; simpl.
  induction (columns d) as [|[k v] l IH]; simpl in *; [discriminate |].
  destruct (String.eqb c k).
  - inversion H; subst. reflexivity.
  - now apply IH.
Qed.

(** A row with a present hour and the festival text Nan is counted in a
    group of its own hour and that text. *)
Lemma nan_festival_group (dff tmp : DataFrame) (hours fest : Series)
  (i : nat) (h : value) :
  getitem dff "order_hour" = Ok hours ->
  getitem dff "Festival" = Ok fest ->
  (i < nrows dff)%nat ->
  hours !! i = Some h ->
  notna h = true ->
  fest !! i = Some (Str "Nan") ->
  groupby_size dff ["order_hour"; "Festival"] "Orders" = Ok tmp ->
  exists h' n,
    In [h'; Str "Nan"; Int n] (rows tmp) /\ cell_eqb h h' = true /\ 1 <= n.
Proof.
  intros Hh Hf Hi Hhi Hna Hfi Hg.
  unfold groupby_size in Hg. simpl in Hg. rewrite Hh in Hg. simpl in Hg.
  rewrite Hf in Hg. simpl in Hg. inversion Hg; subst tmp; clear Hg.
  set (keyed := List.filter (forallb notna) (zip_rows (nrows dff) [hours; fest])).
  set (k := [h; Str "Nan"]).
  assert (Hk : In k keyed).
  { apply filter_In. split.
    - unfold zip_rows. apply in_map_iff. exists i. split.
      + unfold row_cells. simpl.
        rewrite (nth_lookup_Some _ _ _ _ Hhi), (nth_lookup_Some _ _ _ _ Hfi).
        reflexivity.
      + apply in_seq. lia.
    - simpl. now rewrite Hna. }
  destruct (unique_represents key_eqb keyed k key_eqb_refl key_eqb_sym
              key_eqb_trans Hk) as (g & Hg & Hkg).
  unfold k in Hkg.
  destruct g as [|h' [|s' [|z g]]]; cbn [key_eqb] in Hkg;
    rewrite ?andb_false_r in Hkg; try discriminate.
  apply andb_prop in Hkg as [Hhh' Hs']. rewrite andb_true_r in Hs'.
  destruct s' as [| | | s' | |]; try (simpl in Hs'; discriminate).
  unfold cell_eqb in Hs'. apply String.eqb_eq in Hs'. subst s'.
  exists h'.
  exists (Z.of_nat (length (List.filter (key_eqb [h'; Str "Nan"]) keyed))).
  split; [| split; [exact Hhh' |]].
  - unfold rows. cbn [nrows columns map snd combine seq length app fst].
    rewrite (zip_rows_of_groups (fun g => nth 0 g NaN) (fun g => nth 1 g NaN)
               (fun g => count_of (key_eqb g) keyed)).
    apply in_map_iff. exists [h'; Str "Nan"]. split; [reflexivity |].
    now apply sort_by_In.
  - assert (Hin : In k (List.filter (key_eqb [h'; Str "Nan"]) keyed)).
    { apply filter_In. split; [exact Hk |].
      rewrite key_eqb_sym. unfold k. cbn [key_eqb].
      now rewrite Hhh', cell_eqb_refl. }
    destruct (List.filter (key_eqb [h'; Str "Nan"]) keyed);
      [contradiction | simpl; lia].
Qed.

(** C10: the loaded [Festival] column has no missing cell, a cell that
    was missing in the file holds the text Nan, and in the count of
    orders by hour and festival of any selection of the loaded table a
    row with that text and a present hour is counted in a group of its
    own hour and the text Nan. *)
Theorem missing_festival_becomes_nan_group {RT : Runtime}
  (path : string) (raw df : DataFrame) (festival : Series) :
  read_excel path = Ok raw ->
  getitem raw "Festival" = Ok festival ->
  load_data path = Ok df ->
  exists normalized,
    getitem df "Festival" = Ok normalized /\
    forallb notna normalized = true /\
    (forall i, festival !! i = Some NaN -> normalized !! i = Some (Str "Nan")) /\
    forall (mask : list bool) (hours : Series) (tmp : DataFrame)
           (i : nat) (h : value),
      getitem (loc df mask) "order_hour" = Ok hours ->
      groupby_size (loc df mask) ["order_hour"; "Festival"] "Orders" = Ok tmp ->
      (i < nrows (loc df mask))%nat ->
      hours !! i = Some h ->
      notna h = true ->
      select mask normalized !! i = Some (Str "Nan") ->
      exists h' n,
        In [h'; Str "Nan"; Int n] (rows tmp) /\ cell_eqb h h' = true /\ 1 <= n.
Proof.
  intros Hraw Hfest Hload.
  pose proof (loaded_festival _ _ _ _ Hraw Hfest Hload) as Hnorm.
  eexists. split; [exact Hnorm |]. split; [| split].
  - apply forallb_forall. intros v Hv.
    apply in_map_iff in Hv as (v0 & <- & _). reflexivity.
  - intros i Hi. rewrite lookup_map, Hi. cbn [option_map astype_str_cell].
    now rewrite festival_spec_ascii by reflexivity.
  - intros mask hours tmp i h Hh Hg Hi Hhi Hna Hfi.
    apply (nan_festival_group (loc df mask) tmp hours _ i h Hh
             (getitem_loc _ _ _ mask Hnorm) Hi Hhi Hna Hfi Hg).
Qed.

Lemma missing_festival_becomes_nan_group_witness :
  exists normalized,
    getitem sample_clean "Festival" = Ok normalized /\
    forallb notna normalized = true /\
    (forall i, [Str "true"; NaN; Str "  FALSE "] !! i = Some NaN ->
               normalized !! i = Some (Str "Nan")) /\
    forall (mask : list bool) (hours : Series) (tmp : DataFrame)
           (i : nat) (h : value),
      getitem (loc sample_clean mask) "order_hour" = Ok hours ->
      groupby_size (loc sample_clean mask) ["order_hour"; "Festival"] "Orders"
      = Ok tmp ->
      (i < nrows (loc sample_clean mask))%nat ->
      hours !! i = Some h ->
      notna h = true ->
      select mask normalized !! i = Some (Str "Nan") ->
      exists h' n,
        In [h'; Str "Nan"; Int n] (rows tmp) /\ cell_eqb h h' = true /\ 1 <= n.
Proof.
  apply (missing_festival_becomes_nan_group (RT := sample_runtime)
           sample_path sample_raw sample_clean);
    [reflexivity | reflexivity | vm_compute; reflexivity].
Defined.

(** Three orders, two of them with the festival text Nan: the counts by
    hour and festival list the groups (11, Nan) and (12, Nan). *)
Example nan_festival_groups_listed :
  option_map rows
    (match groupby_size
             {| nrows := 3;
                columns := [("order_hour", [Int 11; Int 11; Int 12]);
                            ("Festival", [Str "Yes"; Str "Nan"; Str "Nan"])] |}
             ["order_hour"; "Festival"] "Orders" with
     | Ok tmp => Some tmp
     | Raise _ => None
     end)
  = Some [[Int 11; Str "Nan"; Int 1];
          [Int 11; Str "Yes"; Int 1];
          [Int 12; Str "Nan"; Int 1]].
Proof. reflexivity. Qed.

(** ** The loaded table has one cell per row in every column *)

Section LoadedShape.
Context {RT : Runtime}.

Ltac same_length :=
  unfold dt_hour, astype_int, series_clip in *;
  repeat match goal with
         | H : rmap _ _ = Ok _ |- _ => apply rmap_length in H
         | H : getitem ?d _ = Ok _, W : well_formed ?d |- _ =>
             apply (well_formed_getitem _ _ _ W) in H
         end;
  unfold to_datetime, fillna, series_round, replace, str_title, str_strip,
    astype_str in *;
  rewrite ?length_map in *; congruence.

(** X3: the loaded table has the rows of the file, and every column of
    it, the derived ones included, has one cell per row. *)
Lemma load_data_well_formed (path : string) (raw df : DataFrame) :
  read_excel path = Ok raw ->
  well_formed raw ->
  load_data path = Ok df ->
  well_formed df /\ nrows df = nrows raw.
Proof.
  intros Hraw Hwf Hload.
  apply load_data_steps in Hload as (raw' & df1 & df2 & df3 & Hr & H1 & H2 & H3 & H4).
  rewrite Hraw in Hr. inversion Hr; subst raw'; clear Hr.
  assert (W1 : well_formed df1 /\ nrows df1 = nrows raw).
  { unfold convert_order_date in H1.
    apply rbind_Ok in H1 as (od & Hod & H1).
    destruct (is_number_dtype od); inversion H1; subst df1; clear H1;
      (split; [apply setitem_well_formed; [exact Hwf | same_length]
              | reflexivity]). }
  destruct W1 as [W1 N1].
  assert (W2 : well_formed df2 /\ nrows df2 = nrows raw).
  { unfold derive_order_hour in H2.
    destruct (negb (has_column "order_hour" df1));
      [| inversion H2; subst; auto].
    destruct (has_column "Time_Orderd" df1).
    - apply rbind_Ok in H2 as (t & Ht & H2).
      apply rbind_Ok in H2 as (hour & Hhour & H2).
      inversion H2; subst df2; clear H2.
      split; [apply setitem_well_formed; [exact W1 | same_length] | exact N1].
    - apply rbind_Ok in H2 as (od & Hod & H2).
      apply rbind_Ok in H2 as (hour & Hhour & H2).
      apply rbind_Ok in H2 as (hours & Hhours & H2).
      inversion H2; subst df2; clear H2.
      split; [apply setitem_well_formed; [exact W1 | same_length] | exact N1]. }
  destruct W2 as [W2 N2].
  assert (W3 : well_formed df3 /\ nrows df3 = nrows raw).
  { unfold derive_rating_group in H3.
    destruct (negb (has_column "Rating_Group" df2)
              && has_column "Delivery_person_Ratings" df2);
      [| inversion H3; subst; auto].
    apply rbind_Ok in H3 as (r & Hrat & H3).
    apply rbind_Ok in H3 as (clipped & Hclip & H3).
    apply rbind_Ok in H3 as (group & Hgroup & H3).
    inversion H3; subst df3; clear H3. unfold series_clip in Hclip.
    split; [apply setitem_well_formed; [exact W2 | same_length] | exact N2]. }
  destruct W3 as [W3 N3].
  unfold normalize_festival in H4.
  destruct (has_column "Festival" df3); [| inversion H4; subst; auto].
  apply rbind_Ok in H4 as (f & Hf & H4).
  inversion H4; subst df; clear H4.
  split; [apply setitem_well_formed; [exact W3 | same_length] | exact N3].
Qed.

End LoadedShape.

(** ** Running the loader on the second file *)

Lemma dated_load : load_data (RT := dated_runtime) dated_path = Ok dated_clean.
Proof. vm_compute. reflexivity. Qed.

Lemma order_hour_from_order_date_witness :
  exists dates hours,
    getitem dated_clean "Order_Date" = Ok dates /\
    getitem dated_clean "order_hour" = Ok hours /\
    length hours = length dates /\
    forall i d, dates !! i = Some d ->
      exists h, hours !! i = Some (Int h) /\ 0 <= h <= 23 /\ (d = NaN -> h = 0).
Proof.
  apply (order_hour_from_order_date (RT := dated_runtime) dated_path dated_raw
           dated_clean);
    [reflexivity | reflexivity | reflexivity | vm_compute; reflexivity].
Defined.

Lemma loaded_order_date_is_datetime_witness :
  exists dates,
    getitem sample_clean "Order_Date" = Ok dates /\ is_datetime dates = true.
Proof.
  apply (loaded_order_date_is_datetime (RT := sample_runtime) sample_path).
  vm_compute. reflexivity.
Defined.

Lemma load_data_well_formed_witness :
  well_formed sample_clean /\ nrows sample_clean = nrows sample_raw.
Proof.
  apply (load_data_well_formed (RT := sample_runtime) sample_path);
    [reflexivity | repeat constructor | vm_compute; reflexivity].
Defined.

(** ** When the loader raises and when it succeeds *)

Section LoaderEdges.
Context {RT : Runtime}.

Lemma convert_order_date_succeeds (raw : DataFrame) :
  has_column "Order_Date" raw = true ->
  exists df1 dates,
    convert_order_date raw = Ok df1 /\
    getitem df1 "Order_Date" = Ok dates /\
    is_datetime dates = true.
Proof.
  intros H. destruct (has_column_getitem _ _ H) as (od & Hod).
  unfold convert_order_date. rewrite Hod. simpl.
  destruct (is_number_dtype od); eexists; eexists;
    (split; [reflexivity |]); (split; [apply getitem_setitem_eq |]);
    apply is_datetime_map.
  - intros v. now destruct v.
  - intros v. unfold to_datetime_cell.
    destruct v; try reflexivity; now destruct (parse_datetime true _).
Qed.

Lemma dt_hour_datetime (s : Series) :
  is_datetime s = true ->
  exists h, dt_hour s = Ok h /\
            forallb (fun v => match v with NaN | Int _ => true | _ => false end) h
            = true.
Proof.
  unfold dt_hour. induction s as [|v s IH]; simpl; intros H.
  - exists []. auto.
  - apply andb_prop in H as [Hv Hs]. destruct (IH Hs) as (h & Hh & Hall).
    rewrite Hh. destruct v; try discriminate; simpl; eexists;
      (split; [reflexivity |]); simpl; exact Hall.
Qed.

Lemma astype_int_filled (h : Series) :
  forallb (fun v => match v with NaN | Int _ => true | _ => false end) h = true ->
  exists hs, astype_int (fillna (Int 0) h) = Ok hs.
Proof.
  unfold astype_int, fillna. induction h as [|v h IH]; simpl; intros H.
  - exists []. reflexivity.
  - apply andb_prop in H as [Hv Hh]. destruct (IH Hh) as (hs & Hhs).
    rewrite Hhs. destruct v; try discriminate; simpl; eexists; reflexivity.
Qed.

Lemma derive_order_hour_succeeds (df1 : DataFrame) (dates : Series) :
  getitem df1 "Order_Date" = Ok dates ->
  is_datetime dates = true ->
  exists df2, derive_order_hour df1 = Ok df2.
Proof.
  intros Hd Hdt. unfold derive_order_hour.
  destruct (has_column "order_hour" df1); simpl; [eauto |].
  destruct (has_column "Time_Orderd" df1) eqn:Et.
  - destruct (has_column_getitem _ _ Et) as (t & Ht). rewrite Ht. simpl.
    destruct (dt_hour_datetime (to_datetime false t)) as (h & Hh & _).
    { apply is_datetime_map. intros v. unfold to_datetime_cell.
      destruct v; try reflexivity; now destruct (parse_datetime false _). }
    rewrite Hh. simpl. eauto.
  - rewrite Hd. simpl.
    destruct (dt_hour_datetime dates Hdt) as (h & Hh & Hall).
    rewrite Hh. simpl.
    destruct (astype_int_filled h Hall) as (hs & Hhs). rewrite Hhs. simpl. eauto.
Qed.

Lemma has_column_kept (df df' : DataFrame) (c : string) :
  (df' = df \/ exists k s, df' = setitem df k s) ->
  has_column c df = true -> has_column c df' = true.
Proof.
  intros [-> | (k & s & ->)] H; [exact H | now apply has_column_setitem].
Qed.

Ltac step_shape :=
  repeat match goal with
         | H : rbind _ _ = Ok _ |- _ =>
             let a := fresh "a" in
             let Ha := fresh "Ha" in
             apply rbind_Ok in H as (a & Ha & H)
         | H : (if ?b then _ else _) = Ok _ |- _ => destruct b
         | H : Ok _ = Ok _ |- _ => inversion H; subst; clear H
         end;
  eauto.

Lemma convert_order_date_shape (df df' : DataFrame) :
  convert_order_date df = Ok df' ->
  df' = df \/ exists k s, df' = setitem df k s.
Proof. unfold convert_order_date. intros H. step_shape. Qed.

Lemma derive_order_hour_shape (df df' : DataFrame) :
  derive_order_hour df = Ok df' ->
  df' = df \/ exists k s, df' = setitem df k s.
Proof. unfold derive_order_hour. intros H. step_shape. Qed.

Lemma derive_rating_group_shape (df df' : DataFrame) :
  derive_rating_group df = Ok df' ->
  df' = df \/ exists k s, df' = setitem df k s.
Proof. unfold derive_rating_group. intros H. step_shape. Qed.

Lemma normalize_festival_shape (df df' : DataFrame) :
  normalize_festival df = Ok df' ->
  df' = df \/ exists k s, df' = setitem df k s.
Proof. unfold normalize_festival. intros H. step_shape. Qed.

(** X4: the loader overwrites nothing it does not have to.  A column
    other than [Order_Date], [order_hour], [Rating_Group] and [Festival]
    is as in the file; an [order_hour] or [Rating_Group] column of the
    file is kept as it is; no column of the file is dropped. *)
Theorem load_data_keeps_columns (path : string) (raw df : DataFrame) :
  read_excel path = Ok raw ->
  load_data path = Ok df ->
  (forall c, c <> "Order_Date" -> c <> "order_hour" -> c <> "Rating_Group" ->
             c <> "Festival" -> getitem df c = getitem raw c) /\
  (has_column "order_hour" raw = true ->
   getitem df "order_hour" = getitem raw "order_hour") /\
  (has_column "Rating_Group" raw = true ->
   getitem df "Rating_Group" = getitem raw "Rating_Group") /\
  (forall c, has_column c raw = true -> has_column c df = true).
Proof.
  intros Hraw Hload.
  apply load_data_steps in Hload as (raw' & df1 & df2 & df3 & Hr & H1 & H2 & H3 & H4).
  rewrite Hraw in Hr. inversion Hr; subst raw'; clear Hr.
  split; [| split; [| split]].
  - intros c C1 C2 C3 C4. unfold getitem.
    rewrite (normalize_festival_other _ _ _ H4) by assumption.
    rewrite (derive_rating_group_other _ _ _ H3) by assumption.
    rewrite (derive_order_hour_other _ _ _ H2) by assumption.
    now rewrite (convert_order_date_other _ _ _ H1) by assumption.
  - intros Hh.
    assert (Hh1 : has_column "order_hour" df1 = true).
    { unfold has_column in *.
      now rewrite (convert_order_date_other _ _ _ H1) by discriminate. }
    unfold derive_order_hour in H2. rewrite Hh1 in H2. simpl in H2.
    inversion H2; subst df2; clear H2. unfold getitem.
    rewrite (normalize_festival_other _ _ _ H4) by discriminate.
    rewrite (derive_rating_group_other _ _ _ H3) by discriminate.
    now rewrite (convert_order_date_other _ _ _ H1) by discriminate.
  - intros Hg.
    assert (Hg2 : has_column "Rating_Group" df2 = true).
    { unfold has_column in *.
      rewrite (derive_order_hour_other _ _ _ H2) by discriminate.
      now rewrite (convert_order_date_other _ _ _ H1) by discriminate. }
    unfold derive_rating_group in H3. rewrite Hg2 in H3. simpl in H3.
    inversion H3; subst df3; clear H3. unfold getitem.
    rewrite (normalize_festival_other _ _ _ H4) by discriminate.
    rewrite (derive_order_hour_other _ _ _ H2) by discriminate.
    now rewrite (convert_order_date_other _ _ _ H1) by discriminate.
  - intros c Hc.
    apply (has_column_kept _ _ _ (normalize_festival_shape _ _ H4)).
    apply (has_column_kept _ _ _ (derive_rating_group_shape _ _ H3)).
    apply (has_column_kept _ _ _ (derive_order_hour_shape _ _ H2)).
    now apply (has_column_kept _ _ _ (convert_order_date_shape _ _ H1)).
Qed.

(** X5: a file without an [Order_Date] column does not load: line 20
    raises the key error of that column. *)
Theorem load_data_needs_order_date (path : string) (raw : DataFrame) :
  read_excel path = Ok raw ->
  has_column "Order_Date" raw = false ->
  load_data path = Raise (KeyError "Order_Date").
Proof.
  intros Hraw Hno. unfold load_data. rewrite Hraw. simpl.
  unfold convert_order_date, getitem. unfold has_column in Hno.
  destruct (assoc "Order_Date" (columns raw)); [discriminate | reflexivity].
Qed.

Lemma rmap_raises {A B} (f : A -> result B) (l : list A) (e : exn) :
  (forall x, In x l -> (exists y, f x = Ok y) \/ f x = Raise e) ->
  (exists x, In x l /\ f x = Raise e) ->
  rmap f l = Raise e.
Proof.
  induction l as [|a l IH]; simpl; intros Hall (x & Hx & Hfx); [contradiction |].
  destruct (Hall a (or_introl eq_refl)) as [(y & Hy) | Ha].
  - rewrite Hy. simpl. rewrite IH; [reflexivity | auto |].
    destruct Hx as [-> | Hx]; [congruence | eauto].
  - now rewrite Ha.
Qed.

(** X6: when the rating group has to be derived and the ratings, a
    numeric column, have an empty cell, the file does not load: the cast
    to integers of line 35 raises a value error. *)
Theorem load_data_missing_rating (path : string) (raw : DataFrame)
  (ratings : Series) :
  read_excel path = Ok raw ->
  has_column "Order_Date" raw = true ->
  has_column "Rating_Group" raw = false ->
  getitem raw "Delivery_person_Ratings" = Ok ratings ->
  is_number_dtype ratings = true ->
  existsb isna ratings = true ->
  load_data path = Raise ValueError.
Proof.
  intros Hraw Hdate Hno Hrat Hnum Hna.
  destruct (convert_order_date_succeeds raw Hdate) as (df1 & dates & H1 & Hd1 & Hdt).
  destruct (derive_order_hour_succeeds df1 dates Hd1 Hdt) as (df2 & H2).
  unfold load_data. rewrite Hraw. simpl. rewrite H1. simpl. rewrite H2. simpl.
  assert (Hno2 : has_column "Rating_Group" df2 = false).
  { unfold has_column in *.
    rewrite (derive_order_hour_other _ _ _ H2) by discriminate.
    now rewrite (convert_order_date_other _ _ _ H1) by discriminate. }
  assert (Hrat2 : getitem df2 "Delivery_person_Ratings" = Ok ratings).
  { apply getitem_Ok_assoc. apply getitem_Ok_assoc in Hrat.
    rewrite (derive_order_hour_other _ _ _ H2) by discriminate.
    now rewrite (convert_order_date_other _ _ _ H1) by discriminate. }
  unfold derive_rating_group.
  rewrite Hno2, (getitem_has_column _ _ _ Hrat2), Hrat2. simpl.
  assert (Hclip : series_clip 1 5 (series_round ratings)
                  = Ok (map (fun v => match clip_cell 1 5 (round_cell v) with
                                      | Ok c => c
                                      | Raise _ => NaN
                                      end) ratings)).
  { unfold series_clip, series_round. clear Hrat Hrat2 Hna.
    induction ratings as [|v l IH]; simpl; [reflexivity |].
    simpl in Hnum. apply andb_prop in Hnum as [Hv Hl].
    rewrite (IH Hl). destruct v; try discriminate; reflexivity. }
  rewrite Hclip. simpl.
  unfold astype_int. rewrite (rmap_raises _ _ ValueError); [reflexivity | |].
  - intros c Hc. apply in_map_iff in Hc as (v & <- & Hv).
    unfold is_number_dtype in Hnum. rewrite forallb_forall in Hnum.
    specialize (Hnum v Hv).
    destruct v; try discriminate; simpl; eauto.
    destruct (Qle_bool (inject_Z 1) (inject_Z (rint q)));
      [destruct (Qle_bool (inject_Z (rint q)) (inject_Z 5)) |]; simpl; eauto.
  - apply existsb_exists in Hna as (v & Hv & Hvna).
    destruct v; try discriminate.
    exists NaN. split; [| reflexivity].
    apply in_map_iff. exists NaN. auto.
Qed.

End LoaderEdges.

Lemma load_data_keeps_columns_witness :
  (forall c, c <> "Order_Date" -> c <> "order_hour" -> c <> "Rating_Group" ->
             c <> "Festival" -> getitem sample_clean c = getitem sample_raw c) /\
  (has_column "order_hour" sample_raw = true ->
   getitem sample_clean "order_hour" = getitem sample_raw "order_hour") /\
  (has_column "Rating_Group" sample_raw = true ->
   getitem sample_clean "Rating_Group" = getitem sample_raw "Rating_Group") /\
  (forall c, has_column c sample_raw = true -> has_column c sample_clean = true).
Proof.
  apply (load_data_keeps_columns (RT := sample_runtime) sample_path);
    [reflexivity | vm_compute; reflexivity].
Defined.

Lemma load_data_needs_order_date_witness :
  load_data (RT := file_runtime "undated.xlsx" undated_raw) "undated.xlsx"
  = Raise (KeyError "Order_Date").
Proof.
  apply (load_data_needs_order_date (RT := file_runtime "undated.xlsx" undated_raw)
           "undated.xlsx" undated_raw);
    reflexivity.
Defined.

Lemma load_data_missing_rating_witness :
  load_data (RT := file_runtime "unrated.xlsx" unrated_raw) "unrated.xlsx"
  = Raise ValueError.
Proof.
  apply (load_data_missing_rating (RT := file_runtime "unrated.xlsx" unrated_raw)
           "unrated.xlsx" unrated_raw [Float (9 # 2); NaN]);
    reflexivity.
Defined.

(** ** Normalizing the festival twice *)

Lemma case_map_facts (c : ascii) :
  PyStr.is_cased (PyStr.upper c) = PyStr.is_cased c /\
  PyStr.is_cased (PyStr.lower c) = PyStr.is_cased c /\
  PyStr.is_space (PyStr.upper c) = PyStr.is_space c /\
  PyStr.is_space (PyStr.lower c) = PyStr.is_space c /\
  PyStr.upper (PyStr.upper c) = PyStr.upper c /\
  PyStr.lower (PyStr.lower c) = PyStr.lower c.
Proof.
  destruct c as [[] [] [] [] [] [] [] []]; repeat split; reflexivity.
Qed.

Lemma title_from_idempotent (p : bool) (s : string) :
  PyStr.title_from p (PyStr.title_from p s) = PyStr.title_from p s.
Proof.
  revert p. induction s as [|c s IH]; intros p; simpl; [reflexivity |].
  destruct (case_map_facts c) as (Hu & Hl & _ & _ & Huu & Hll).
  destruct p; rewrite ?Huu, ?Hll, ?Hu, ?Hl, IH; reflexivity.
Qed.

Lemma lstrip_starts_clean (s : string) : starts_clean (PyStr.lstrip s) = true.
Proof.
  induction s as [|c s IH]; simpl; [reflexivity |].
  destruct (PyStr.is_space c) eqn:E; [exact IH | simpl; now rewrite E].
Qed.

Lemma lstrip_clean (s : string) : starts_clean s = true -> PyStr.lstrip s = s.
Proof.
  destruct s as [|c s]; simpl; [reflexivity |].
  now destruct (PyStr.is_space c).
Qed.

Lemma rstrip_ends_clean (s : string) : ends_clean (PyStr.rstrip s) = true.
Proof.
  induction s as [|c s IH]; simpl; [reflexivity |].
  destruct (PyStr.rstrip s) as [|c' r] eqn:E.
  - destruct (PyStr.is_space c) eqn:Ec; simpl; [reflexivity | now rewrite Ec].
  - exact IH.
Qed.

Lemma rstrip_clean (s : string) : ends_clean s = true -> PyStr.rstrip s = s.
Proof.
  induction s as [|c s IH]; simpl; [reflexivity |].
  destruct s as [|c' s'].
  - simpl. intros H. now destruct (PyStr.is_space c).
  - intros H. rewrite (IH H). reflexivity.
Qed.

Lemma rstrip_starts_clean (s : string) :
  starts_clean s = true -> starts_clean (PyStr.rstrip s) = true.
Proof.
  destruct s as [|c s]; simpl; [reflexivity |]. intros H.
  destruct (PyStr.rstrip s); [| exact H].
  destruct (PyStr.is_space c) eqn:E; [discriminate | simpl; now rewrite E].
Qed.

Lemma title_from_starts_clean (p : bool) (s : string) :
  starts_clean (PyStr.title_from p s) = starts_clean s.
Proof.
  destruct s as [|c s]; simpl; [reflexivity |].
  destruct (case_map_facts c) as (_ & _ & Hu & Hl & _ & _).
  destruct p; now rewrite ?Hu, ?Hl.
Qed.

Lemma title_from_ends_clean (p : bool) (s : string) :
  ends_clean (PyStr.title_from p s) = ends_clean s.
Proof.
  revert p. induction s as [|c s IH]; intros p; [reflexivity |].
  destruct s as [|c' s'].
  - simpl. destruct (case_map_facts c) as (_ & _ & Hu & Hl & _ & _).
    destruct p; now rewrite ?Hu, ?Hl.
  - change (PyStr.title_from p (String c (String c' s')))
      with (String (if p then PyStr.lower c else PyStr.upper c)
              (PyStr.title_from (PyStr.is_cased c) (String c' s'))).
    specialize (IH (PyStr.is_cased c)).
    cbn [PyStr.title_from] in IH |- *. cbn [ends_clean] in IH |- *. exact IH.
Qed.

Lemma title_strip_fixed (s : string) :
  PyStr.title (PyStr.strip (PyStr.title (PyStr.strip s)))
  = PyStr.title (PyStr.strip s).
Proof.
  unfold PyStr.title.
  assert (Hs : starts_clean (PyStr.strip s) = true)
    by (apply rstrip_starts_clean, lstrip_starts_clean).
  assert (He : ends_clean (PyStr.strip s) = true) by apply rstrip_ends_clean.
  set (t := PyStr.title_from false (PyStr.strip s)).
  assert (Hst : PyStr.strip t = t).
  { unfold PyStr.strip. rewrite lstrip_clean.
    - apply rstrip_clean. unfold t. now rewrite title_from_ends_clean.
    - unfold t. now rewrite title_from_starts_clean. }
  rewrite Hst. apply title_from_idempotent.
Qed.

Lemma festival_text_idempotent (s : string) :
  festival_ascii (festival_ascii s) = festival_ascii s.
Proof.
  unfold festival_ascii at 2 3. cbv zeta.
  destruct (String.eqb (PyStr.title (PyStr.strip s)) "True") eqn:Et;
    [reflexivity |].
  destruct (String.eqb (PyStr.title (PyStr.strip s)) "False") eqn:Ef;
    [reflexivity |].
  unfold festival_ascii. cbv zeta. rewrite title_strip_fixed, Et, Ef. reflexivity.
Qed.

Lemma assoc_set_twice {A : Type} (k : string) (v v' : A) (l : list (string * A)) :
  assoc_set k v (assoc_set k v' l) = assoc_set k v l.
Proof.
  induction l as [|[k' w] l IH]; simpl.
  - now rewrite String.eqb_refl.
  - destruct (String.eqb k k') eqn:E; simpl.
    + now rewrite String.eqb_refl.
    + now rewrite E, IH.
Qed.

(** X7: lines 37-38 are idempotent on ASCII text: on a table whose
    [Festival] column they have normalized, they change nothing. *)
Theorem normalize_festival_idempotent {RT : Runtime} (df df1 : DataFrame) :
  ascii_column df "Festival" = true ->
  normalize_festival df = Ok df1 ->
  normalize_festival df1 = Ok df1.
Proof.
  unfold ascii_column, normalize_festival at 1.
  destruct (has_column "Festival" df) eqn:Ef.
  - destruct (has_column_getitem _ _ Ef) as (f & Hf). rewrite Hf. simpl.
    rewrite replace_festival_spec. intros Hascii H.
    inversion H; subst df1; clear H.
    unfold normalize_festival.
    rewrite has_column_setitem_eq, getitem_setitem_eq. simpl.
    rewrite replace_festival_spec. f_equal.
    unfold setitem; simpl. rewrite assoc_set_twice. f_equal. f_equal.
    rewrite map_map. apply map_ext_in. intros v Hv. simpl.
    assert (Hv' : PyStr.is_ascii (astype_str_cell v) = true)
      by exact (proj1 (forallb_forall _ _) Hascii v Hv).
    rewrite (festival_spec_ascii _ Hv').
    rewrite (festival_spec_ascii _ (festival_ascii_is_ascii _ Hv')).
    now rewrite festival_text_idempotent.
  - intros _ H. inversion H; subst df1. unfold normalize_festival.
    now rewrite Ef.
Qed.

Lemma normalize_festival_idempotent_witness :
  normalize_festival (RT := dated_runtime)
    (setitem dated_raw "Festival" [Str "No"; Str "Yes"])
  = Ok (setitem dated_raw "Festival" [Str "No"; Str "Yes"]).
Proof.
  apply (normalize_festival_idempotent (RT := dated_runtime) dated_raw);
    reflexivity.
Defined.

(** ** The filter bar and the date range *)






(** X10: a filtered table without a [Time_taken (min)] column stops the
    dashboard at line 85 with the key error of that column; the card of
    the count is on the page by then and nothing else follows. *)
Theorem dashboard_needs_time_taken {RT : Runtime} (st : store) (dff : ref)
  (e : DataFrame) :
  heap st !! dff = Some e ->
  has_column "Time_taken (min)" e = false ->
  dashboard dff st
  = (Raise (KeyError "Time_taken (min)"),
     {| heap := heap st;
        page := page st ++ [Metric "📦 Count of Orders" (format_count (nrows e))] |}).
Proof.
  intros Hdff Hno. unfold dashboard. apply mbind_Raise.
  unfold kpi_cards. rewrite (mbind_Ok _ _ _ _ _ (deref_Some _ _ _ Hdff)).
  unfold mbind, emit, lift, getitem. unfold has_column in Hno.
  destruct (assoc "Time_taken (min)" (columns e)); [discriminate | reflexivity].
Qed.

Lemma dashboard_needs_time_taken_witness :
  dashboard (RT := dated_runtime) 0%nat {| heap := [dated_clean]; page := [] |}
  = (Raise (KeyError "Time_taken (min)"),
     {| heap := [dated_clean];
        page := [] ++ [Metric "📦 Count of Orders" (format_count (nrows dated_clean))] |}).
Proof.
  apply (dashboard_needs_time_taken (RT := dated_runtime)
           {| heap := [dated_clean]; page := [] |} 0%nat dated_clean);
    reflexivity.
Defined.

(** ** What the date range selects *)

(** X11: when the date widget returns a single date (lines 72-73), the
    date is not used: the interval runs from the first to the last date
    of the table, so a row passes exactly when it has a date and its city
    and rating group are allowed. *)
Theorem single_date_is_ignored (st : store) (df : ref) (d : DataFrame)
  (dates cities groups : Series) (ui : selection) (day : Z) :
  heap st !! df = Some d ->
  well_formed d ->
  getitem d "Order_Date" = Ok dates ->
  is_datetime dates = true ->
  getitem d "City" = Ok cities ->
  getitem d "Rating_Group" = Ok groups ->
  date_range ui = DateValue day ->
  forallb notna (sel_city ui) = true ->
  forallb notna (sel_rating ui) = true ->
  exists mask,
    filtered df ui st
    = (Ok (length (heap st)),
       {| heap := heap st ++ [loc d mask]; page := page st |}) /\
    length mask = nrows d /\
    forall i, (i < nrows d)%nat ->
      nth i mask false
      = notna (nth i dates NaN)
        && in_set (nth i cities NaN) (sel_city ui)
        && in_set (nth i groups NaN) (sel_rating ui).
Proof.
  intros Hdf Hwf Hd Hdt Hc Hg Hdr Hsc Hsr.
  destruct (series_min_datetime _ Hdt) as (mn & Hmn & Hmndt & _ & Hmin).
  destruct (series_max_datetime _ Hdt) as (mx & Hmx & Hmxdt & _ & Hmax).
  assert (Hdt3 : is_datetime (mn :: mx :: dates) = true).
  { simpl in *. rewrite andb_true_r in Hmndt, Hmxdt.
    now rewrite Hmndt, Hmxdt. }
  destruct (filter_mask_selected d dates cities groups mn mx
              (sel_city ui) (sel_rating ui) Hwf Hd Hdt3 Hc Hg Hsc Hsr)
    as (mask & Hmask & Hlen & Hsel).
  exists mask. split; [| split; [exact Hlen |]].
  - unfold filtered, date_bounds. rewrite Hdr.
    rewrite (mbind_Ok _ _ st st (mn, mx)).
    + simpl. now apply apply_filter_runs.
    + rewrite (mbind_Ok _ _ _ _ _ (deref_Some _ _ _ Hdf)).
      unfold mbind, lift, ret. now rewrite Hd, Hmn, Hmx.
  - intros i Hi. rewrite (Hsel i Hi). unfold row_selected. f_equal. f_equal.
    pose proof (well_formed_getitem _ _ _ Hwf Hd) as Ld.
    assert (Hin : In (nth i dates NaN) dates) by (apply nth_In_lt; lia).
    assert (Hdti : match nth i dates NaN with
                   | NaN | Timestamp _ => true
                   | _ => false
                   end = true).
    { unfold is_datetime in Hdt. rewrite forallb_forall in Hdt. now apply Hdt. }
    destruct (nth i dates NaN) as [| | | | | t] eqn:E; try discriminate.
    + now destruct mn.
    + destruct (Hmin t Hin) as (a & -> & Hat).
      destruct (Hmax t Hin) as (b & -> & Htb). simpl.
      apply andb_true_intro. split; now apply Z.leb_le.
Qed.

Lemma single_date_is_ignored_witness :
  exists mask,
    filtered 0%nat {| date_range := DateValue 0;
                      sel_city := [Str "A"];
                      sel_rating := [Int 5] |} sample_store
    = (Ok (length (heap sample_store)),
       {| heap := heap sample_store ++ [loc sample_clean mask];
          page := page sample_store |}) /\
    length mask = nrows sample_clean /\
    forall i, (i < nrows sample_clean)%nat ->
      nth i mask false
      = notna (nth i [Timestamp 1640995200000000000;
                      Timestamp 1641081600000000000; NaN] NaN)
        && in_set (nth i [Str "A"; Str "B"; NaN] NaN) [Str "A"]
        && in_set (nth i [Int 5; Int 2; Int 2] NaN) [Int 5].
Proof.
  apply (single_date_is_ignored sample_store 0%nat sample_clean _ _ _
           {| date_range := DateValue 0;
              sel_city := [Str "A"];
              sel_rating := [Int 5] |} 0);
    try reflexivity.
  repeat constructor.
Defined.

(** X12: the end of a picked range is midnight of the end date (line
    71), so an order of a later time is left out, an order later on the
    end date itself included; a selected order is dated between the two
    midnights. *)
Theorem range_ends_at_midnight (st : store) (df : ref) (d : DataFrame)
  (dates cities groups : Series) (ui : selection) (d0 d1 : Z) (rest : list Z) :
  heap st !! df = Some d ->
  well_formed d ->
  getitem d "Order_Date" = Ok dates ->
  is_datetime dates = true ->
  getitem d "City" = Ok cities ->
  getitem d "Rating_Group" = Ok groups ->
  date_range ui = DateTuple (d0 :: d1 :: rest) ->
  forallb notna (sel_city ui) = true ->
  forallb notna (sel_rating ui) = true ->
  exists mask,
    filtered df ui st
    = (Ok (length (heap st)),
       {| heap := heap st ++ [loc d mask]; page := page st |}) /\
    length mask = nrows d /\
    forall i t, (i < nrows d)%nat -> nth i dates NaN = Timestamp t ->
      (nth i mask false = true ->
       d0 * ns_per_day <= t <= d1 * ns_per_day) /\
      (d1 * ns_per_day < t -> nth i mask false = false).
Proof.
  intros Hdf Hwf Hd Hdt Hc Hg Hdr Hsc Hsr.
  destruct (filter_mask_selected d dates cities groups
              (datetime_of_date d0) (datetime_of_date d1)
              (sel_city ui) (sel_rating ui) Hwf Hd Hdt Hc Hg Hsc Hsr)
    as (mask & Hmask & Hlen & Hsel).
  exists mask. split; [| split; [exact Hlen |]].
  - unfold filtered, date_bounds. rewrite Hdr.
    unfold mbind, ret. simpl. now apply apply_filter_runs.
  - intros i t Hi Ht. rewrite (Hsel i Hi), Ht.
    unfold row_selected, in_interval, datetime_of_date. split.
    + intros H. apply andb_prop in H as [H _]. apply andb_prop in H as [H _].
      apply andb_prop in H as [H0 H1].
      apply Z.leb_le in H0, H1. lia.
    + intros Hlate. apply Z.leb_gt in Hlate. rewrite Hlate.
      now rewrite andb_false_r.
Qed.

Lemma range_ends_at_midnight_witness :
  exists mask,
    filtered 0%nat {| date_range := DateTuple [18993; 18993];
                      sel_city := [Str "A"; Str "B"];
                      sel_rating := [Int 2; Int 5] |} sample_store
    = (Ok (length (heap sample_store)),
       {| heap := heap sample_store ++ [loc sample_clean mask];
          page := page sample_store |}) /\
    length mask = nrows sample_clean /\
    forall i t, (i < nrows sample_clean)%nat ->
      nth i [Timestamp 1640995200000000000;
             Timestamp 1641081600000000000; NaN] NaN = Timestamp t ->
      (nth i mask false = true ->
       18993 * ns_per_day <= t <= 18993 * ns_per_day) /\
      (18993 * ns_per_day < t -> nth i mask false = false).
Proof.
  apply (range_ends_at_midnight sample_store 0%nat sample_clean
           [Timestamp 1640995200000000000; Timestamp 1641081600000000000; NaN]
           [Str "A"; Str "B"; NaN] [Int 5; Int 2; Int 2]
           {| date_range := DateTuple [18993; 18993];
              sel_city := [Str "A"; Str "B"];
              sel_rating := [Int 2; Int 5] |} 18993 18993 []);
    try reflexivity.
  repeat constructor.
Defined.

(** ** Selecting no city or no rating group *)

Lemma filtered_inv_mask (df dff : ref) (d : DataFrame) (ui : selection)
  (st st1 : store) :
  heap st !! df = Some d ->
  filtered df ui st = (Ok dff, st1) ->
  exists bounds mask,
    filter_mask d (fst bounds) (snd bounds) (sel_city ui) (sel_rating ui)
    = Ok mask /\
    dff = length (heap st) /\
    st1 = {| heap := heap st ++ [loc d mask]; page := page st |}.
Proof.
  intros Hdf H. unfold filtered in H.
  apply mbind_inv_Ok in H as (bounds & s1 & Hb & H).
  pose proof (date_bounds_store df (date_range ui) st) as Hs.
  rewrite Hb in Hs. simpl in Hs. subst s1.
  unfold apply_filter in H.
  rewrite (mbind_Ok _ _ _ _ _ (deref_Some _ _ _ Hdf)) in H.
  apply mbind_inv_Ok in H as (mask & s1 & Hm & H).
  apply lift_inv_Ok in Hm as [Hm ->].
  unfold new in H. inversion H; subst. eauto.
Qed.

Lemma mask_and_false_r (a b : list bool) :
  forallb negb b = true -> forallb negb (mask_and a b) = true.
Proof.
  revert b. induction a as [|x a IH]; intros [|y b]; simpl; try reflexivity.
  intros H. apply andb_prop in H as [Hy Hb].
  destruct y; [discriminate |]. rewrite andb_false_r. simpl. now apply IH.
Qed.

Lemma mask_and_false_l (a b : list bool) :
  forallb negb a = true -> forallb negb (mask_and a b) = true.
Proof.
  revert b. induction a as [|x a IH]; intros [|y b]; simpl; try reflexivity.
  intros H. apply andb_prop in H as [Hx Ha].
  destruct x; [discriminate |]. simpl. now apply IH.
Qed.

Lemma isin_nothing (s : Series) : forallb negb (isin [] s) = true.
Proof. unfold isin. induction s as [|v s IH]; simpl; auto. Qed.

Lemma select_none {A} (mask : list bool) (l : list A) :
  forallb negb mask = true -> select mask l = [].
Proof.
  revert l. induction mask as [|m mask IH]; intros [|x l]; simpl;
    try reflexivity.
  intros H. apply andb_prop in H as [Hm Hmask].
  destruct m; [discriminate |]. now apply IH.
Qed.

Lemma getitem_loc_inv (d : DataFrame) (c : string) (s : Series)
  (mask : list bool) :
  getitem (loc d mask) c = Ok s ->
  exists s0, getitem d c = Ok s0 /\ s = select mask s0.
Proof.
  intros H. apply getitem_Ok_assoc in H. unfold loc in H; simpl in H.
  unfold getitem.
  induction (columns d) as [|[k v] l IH]; simpl in *; [discriminate |].
  destruct (String.eqb c k).
  - inversion H; subst. eauto.
  - now apply IH.
Qed.

(** X13: with no city selected, or no rating group selected, the
    filtered table has no rows: every column of it is empty. *)
Theorem empty_choice_selects_nothing (st st1 : store) (df dff : ref)
  (d e : DataFrame) (ui : selection) :
  heap st !! df = Some d ->
  sel_city ui = [] \/ sel_rating ui = [] ->
  filtered df ui st = (Ok dff, st1) ->
  heap st1 !! dff = Some e ->
  nrows e = 0%nat /\
  rows e = [] /\
  forall c s, getitem e c = Ok s -> s = [].
Proof.
  intros Hdf Hsel Hfil Hdff.
  destruct (filtered_inv_mask _ _ _ _ _ _ Hdf Hfil) as (bounds & mask & Hm & -> & ->).
  simpl in Hdff. rewrite (new_lookup_new (heap st) _ (loc d mask) eq_refl) in Hdff.
  inversion Hdff; subst e; clear Hdff.
  assert (Hnone : forallb negb mask = true).
  { unfold filter_mask in Hm.
    apply rbind_Ok in Hm as (od & _ & Hm).
    apply rbind_Ok in Hm as (r & _ & Hm).
    apply rbind_Ok in Hm as (c & _ & Hm).
    apply rbind_Ok in Hm as (g & _ & Hm).
    inversion Hm; subst mask; clear Hm.
    destruct Hsel as [-> | ->].
    - apply mask_and_false_l, mask_and_false_r, isin_nothing.
    - apply mask_and_false_r, isin_nothing. }
  assert (Hn : nrows (loc d mask) = 0%nat)
    by (simpl; now rewrite select_none).
  split; [exact Hn |]. split.
  - unfold rows. now rewrite Hn.
  - intros c s Hs. apply getitem_loc_inv in Hs as (s0 & _ & ->).
    now apply select_none.
Qed.

Lemma empty_choice_selects_nothing_witness :
  let e := loc sample_clean [false; false; false] in
  nrows e = 0%nat /\
  rows e = [] /\
  forall c s, getitem e c = Ok s -> s = [].
Proof.
  apply (empty_choice_selects_nothing sample_store
           {| heap := [sample_clean; loc sample_clean [false; false; false]];
              page := [] |}
           0%nat 1%nat sample_clean _
           {| date_range := DateTuple [18993; 18994];
              sel_city := [];
              sel_rating := [Int 2; Int 5] |});
    [reflexivity | left; reflexivity | reflexivity | reflexivity].
Defined.

(** ** Every keyed row is counted once *)

Section Partition.
Context {A : Type} (eqb : A -> A -> bool).
Hypothesis eqb_refl : forall a, eqb a a = true.
Hypothesis eqb_sym : forall a b, eqb a b = eqb b a.
Hypothesis eqb_trans :
  forall a b c, eqb a b = true -> eqb b c = true -> eqb a c = true.







End Partition.








(** ** Distinct values in ascending order *)

Section SortedGroups.
Context {A : Type} (leb eqb : A -> A -> bool).
Hypothesis leb_total : forall a b, leb a b = true \/ leb b a = true.
Hypothesis eqb_sym : forall a b, eqb a b = eqb b a.

Lemma ascending_insert (x : A) (l : list A) :
  (forall y, In y l -> eqb x y = false) ->
  ascending leb eqb l = true ->
  ascending leb eqb (insert_by leb x l) = true.
Proof.
  induction l as [|y l IH]; intros Hx Hl; [reflexivity |].
  cbn [insert_by]. destruct (leb x y) eqn:Exy.
  - cbn [ascending]. rewrite Exy, (Hx y (or_introl eq_refl)). exact Hl.
  - assert (Hyx : leb y x = true)
      by (destruct (leb_total x y); congruence).
    assert (Hne : eqb y x = false)
      by (rewrite eqb_sym; apply Hx; now left).
    assert (Htail : ascending leb eqb l = true).
    { destruct l as [|z l]; [reflexivity |]. cbn [ascending] in Hl.
      apply andb_prop in Hl as [_ Hl]. exact Hl. }
    specialize (IH (fun z Hz => Hx z (or_intror Hz)) Htail).
    destruct l as [|z l].
    + cbn [insert_by ascending]. now rewrite Hyx, Hne.
    + cbn [insert_by] in IH |- *. cbn [ascending] in Hl.
      apply andb_prop in Hl as [Hyz _].
      destruct (leb x z).
      * cbn [ascending] in IH |- *. rewrite Hyx, Hne. exact IH.
      * change (ascending leb eqb (y :: z :: insert_by leb x l) = true).
        cbn [ascending]. cbn [ascending] in IH. rewrite Hyz. exact IH.
Qed.

Lemma unique_distinct (l : list A) (x : A) (rest : list A) :
  unique eqb l = x :: rest -> forall y, In y rest -> eqb x y = false.
Proof.
  destruct l as [|a l]; simpl; intros H; [discriminate |].
  inversion H; subst. intros y Hy. apply filter_In in Hy as [_ Hy].
  now apply negb_true_iff.
Qed.

Lemma ascending_sort_unique_aux (u : list A) :
  (forall pre x post, u = pre ++ x :: post ->
                      forall y, In y post -> eqb x y = false) ->
  ascending leb eqb (sort_by leb u) = true.
Proof.
  induction u as [|x u IH]; intros Hd; [reflexivity |].
  change (sort_by leb (x :: u)) with (insert_by leb x (sort_by leb u)).
  apply ascending_insert.
  - intros y Hy. apply sort_by_In in Hy. now apply (Hd [] x u eq_refl).
  - apply IH. intros pre a post -> y Hy.
    now apply (Hd (x :: pre) a post eq_refl).
Qed.




End SortedGroups.

Lemma cell_order_leb_total (a b : value) :
  cell_order_leb a b = true \/ cell_order_leb b a = true.
Proof.
  assert (Hq : forall x y, Qle_bool x y = true \/ Qle_bool y x = true).
  { intros x y. destruct (Qlt_le_dec x y) as [H | H].
    - left. apply Qle_bool_iff. now apply Qlt_le_weak.
    - right. now apply Qle_bool_iff. }
  destruct a, b; simpl; auto; try apply Hq; try apply String.leb_total.
  destruct (Z.leb_spec ns ns0); [now left | right; apply Z.leb_le; lia].
Qed.



(** ** Orders by date, in the order of the dates *)








(** ** Filtering the filtered copy again *)

Lemma select_pointwise (P : value -> value -> value -> bool)
  (mask : list bool) (a b c : Series) :
  length a = length mask -> length b = length mask -> length c = length mask ->
  (forall i, (i < length mask)%nat -> nth i mask false = true ->
             P (nth i a NaN) (nth i b NaN) (nth i c NaN) = true) ->
  forall j, (j < length (select mask a))%nat ->
            P (nth j (select mask a) NaN) (nth j (select mask b) NaN)
              (nth j (select mask c) NaN) = true.
Proof.
  revert a b c. induction mask as [|m mask IH]; intros [|x a] [|y b] [|z c];
    simpl; intros La Lb Lc H j Hj; try discriminate; try lia.
  assert (Hrest : forall i, (i < length mask)%nat -> nth i mask false = true ->
                            P (nth i a NaN) (nth i b NaN) (nth i c NaN) = true)
    by (intros i Hi Hm; apply (H (S i)); [lia | exact Hm]).
  destruct m.
  - destruct j as [|j]; simpl.
    + apply (H 0%nat); [lia | reflexivity].
    + apply IH; [lia | lia | lia | exact Hrest | simpl in Hj; lia].
  - apply IH; [lia | lia | lia | exact Hrest | exact Hj].
Qed.

Lemma is_datetime_select (mask : list bool) (s : Series) :
  is_datetime s = true -> is_datetime (select mask s) = true.
Proof.
  revert s. induction mask as [|m mask IH]; intros [|v s]; simpl;
    try reflexivity.
  intros H. apply andb_prop in H as [Hv Hs].
  destruct m; simpl; [rewrite Hv |]; now apply IH.
Qed.

Lemma loc_all (d : DataFrame) (mask : list bool) :
  well_formed d -> length mask = nrows d ->
  (forall i, (i < nrows d)%nat -> nth i mask false = true) ->
  loc d mask = d.
Proof.
  intros Hwf Hlen Hall. destruct d as [n cols]. unfold loc; simpl in *.
  f_equal.
  - rewrite select_all; [apply length_seq | now rewrite length_seq |].
    now rewrite length_seq.
  - unfold well_formed in Hwf; simpl in Hwf.
    induction cols as [|[k v] cols IH]; simpl; [reflexivity |].
    inversion Hwf as [|? ? Hv Hcols]; subst. simpl in Hv.
    rewrite select_all by (rewrite ?Hv; auto). f_equal. now apply IH.
Qed.

(** X17: filtering is idempotent: the filter of lines 75-80 applied to
    the filtered copy with the same interval and the same allowed cities
    and rating groups gives a copy equal to the filtered copy. *)
Theorem filter_twice_is_filter_once (st : store) (df : ref) (d : DataFrame)
  (dates cities groups : Series) (start_date end_date : value)
  (sel_city sel_rating : list value) :
  heap st !! df = Some d ->
  well_formed d ->
  getitem d "Order_Date" = Ok dates ->
  is_datetime (start_date :: end_date :: dates) = true ->
  getitem d "City" = Ok cities ->
  getitem d "Rating_Group" = Ok groups ->
  forallb notna sel_city = true ->
  forallb notna sel_rating = true ->
  exists dff st1 dff2 st2 once,
    apply_filter df start_date end_date sel_city sel_rating st = (Ok dff, st1) /\
    heap st1 !! dff = Some once /\
    apply_filter dff start_date end_date sel_city sel_rating st1 = (Ok dff2, st2) /\
    heap st2 !! dff2 = Some once /\
    heap st2 !! dff = Some once /\
    heap st2 !! df = Some d.
Proof.
  intros Hdf Hwf Hd Hdt Hc Hg Hsc Hsr.
  destruct (filter_mask_selected _ _ _ _ _ _ _ _ Hwf Hd Hdt Hc Hg Hsc Hsr)
    as (mask & Hmask & Hlen & Hsel).
  pose proof (well_formed_getitem _ _ _ Hwf Hd) as Ld.
  pose proof (well_formed_getitem _ _ _ Hwf Hc) as Lc.
  pose proof (well_formed_getitem _ _ _ Hwf Hg) as Lg.
  set (once := loc d mask).
  assert (Hwf1 : well_formed once) by now apply loc_well_formed.
  assert (Hdt1 : is_datetime (start_date :: end_date :: select mask dates) = true).
  { simpl in Hdt |- *. apply andb_prop in Hdt as [Hs Hdt].
    apply andb_prop in Hdt as [He Hdt]. rewrite Hs, He. simpl.
    now apply is_datetime_select. }
  destruct (filter_mask_selected once _ _ _ start_date end_date sel_city sel_rating
              Hwf1 (getitem_loc _ _ _ mask Hd) Hdt1 (getitem_loc _ _ _ mask Hc)
              (getitem_loc _ _ _ mask Hg) Hsc Hsr)
    as (mask2 & Hmask2 & Hlen2 & Hsel2).
  assert (Hsame : loc once mask2 = once).
  { apply loc_all; [exact Hwf1 | exact Hlen2 |].
    intros j Hj. rewrite (Hsel2 j Hj).
    apply (select_pointwise
             (row_selected start_date end_date sel_city sel_rating) mask);
      try lia.
    - intros i Hi Hm. rewrite <- (Hsel i) by lia. exact Hm.
    - pose proof (well_formed_getitem _ _ _ Hwf1 (getitem_loc _ _ _ mask Hd)).
      lia. }
  pose proof (apply_filter_runs st df d _ _ _ _ mask Hdf Hmask) as Hrun1.
  set (st1 := {| heap := heap st ++ [once]; page := page st |}) in *.
  assert (Hdff : heap st1 !! length (heap st) = Some once)
    by (apply (new_lookup_new (heap st)); reflexivity).
  pose proof (apply_filter_runs st1 (length (heap st)) once _ _ _ _ mask2
                Hdff Hmask2) as Hrun2.
  rewrite Hsame in Hrun2.
  eexists _, _, _, _, once.
  split; [exact Hrun1 |]. split; [exact Hdff |]. split; [exact Hrun2 |].
  split; [| split].
  - simpl. apply (new_lookup_new (heap st ++ [once])). reflexivity.
  - simpl. now apply lookup_app_l_Some.
  - simpl. apply lookup_app_l_Some. now apply lookup_app_l_Some.
Qed.

Lemma filter_twice_is_filter_once_witness :
  exists dff st1 dff2 st2 once,
    apply_filter 0%nat (Timestamp 1640995200000000000)
      (Timestamp 1641081600000000000) [Str "A"] [Int 5] sample_store
    = (Ok dff, st1) /\
    heap st1 !! dff = Some once /\
    apply_filter dff (Timestamp 1640995200000000000)
      (Timestamp 1641081600000000000) [Str "A"] [Int 5] st1
    = (Ok dff2, st2) /\
    heap st2 !! dff2 = Some once /\
    heap st2 !! dff = Some once /\
    heap st2 !! 0%nat = Some sample_clean.
Proof.
  apply (filter_twice_is_filter_once sample_store 0%nat sample_clean
           [Timestamp 1640995200000000000; Timestamp 1641081600000000000; NaN]
           [Str "A"; Str "B"; NaN] [Int 5; Int 2; Int 2]);
    try reflexivity.
  repeat constructor.
Defined.

(** ** The periods of the day, in their logical order *)

Lemma sort_by_nondecreasing {A} (leb : A -> A -> bool) (l : list A) :
  (forall a b, leb a b = true \/ leb b a = true) ->
  ascending leb (fun _ _ => false) (sort_by leb l) = true.
Proof.
  intros Htotal.
  apply (ascending_sort_unique_aux leb (fun _ _ => false) Htotal
           (fun _ _ => eq_refl)).
  reflexivity.
Qed.

Lemma ascending_map {A B} (leb : B -> B -> bool) (f : A -> B) (l : list A) :
  ascending (fun i j => leb (f i) (f j)) (fun _ _ => false) l = true ->
  ascending leb (fun _ _ => false) (map f l) = true.
Proof.
  induction l as [|a l IH]; [reflexivity |].
  destruct l as [|b l]; [reflexivity |].
  cbn [ascending map]. intros H. apply andb_prop in H as [H Hrest].
  rewrite H. exact (IH Hrest).
Qed.

Lemma assoc_map_values {A B} (f : A -> B) (k : string) (l : list (string * A)) :
  assoc k (map (fun c => (fst c, f (snd c))) l) = option_map f (assoc k l).
Proof.
  induction l as [|[k' v] l IH]; simpl; [reflexivity |].
  destruct (String.eqb k k'); [reflexivity | exact IH].
Qed.

(** X18: the rows of the chart by period (lines 129-131) are put in the
    order of [order_map], Morning, Afternoon, Evening, Night, a period
    outside the map last; the sorted table holds the same periods, each
    with its own sort key. *)
Theorem periods_in_logical_order (tmp2 sorted_tmp2 : DataFrame)
  (periods : Series) :
  getitem tmp2 "order_period" = Ok periods ->
  length periods = nrows tmp2 ->
  sort_values (setitem tmp2 "sort" (map_dict order_map periods)) "sort"
  = Ok sorted_tmp2 ->
  exists ps,
    getitem sorted_tmp2 "order_period" = Ok ps /\
    getitem sorted_tmp2 "sort" = Ok (map_dict order_map ps) /\
    ascending cell_order_leb (fun _ _ => false) (map_dict order_map ps) = true /\
    forall x, In x ps <-> In x periods.
Proof.
  intros Hp Hlen H. unfold sort_values in H.
  rewrite getitem_setitem_eq in H. simpl in H.
  inversion H; subst sorted_tmp2; clear H.
  set (s := map_dict order_map periods).
  set (order := sort_by (fun i j => cell_order_leb (nth i s NaN) (nth j s NaN))
                  (seq 0 (nrows tmp2))).
  assert (Hkey : map (fun i => nth i s NaN) order
                 = map_dict order_map (map (fun i => nth i periods NaN) order)).
  { unfold map_dict at 1. rewrite map_map. apply map_ext. intros i.
    unfold s, map_dict.
    exact (map_nth (fun v => match v with
                             | Str k => match assoc k order_map with
                                        | Some n => Int n
                                        | None => NaN
                                        end
                             | _ => NaN
                             end) periods NaN i). }
  exists (map (fun i => nth i periods NaN) order).
  split; [| split; [| split]].
  - apply getitem_Ok_assoc. cbn [columns].
    rewrite (assoc_map_values (fun col => map (fun i => nth i col NaN) order)).
    rewrite assoc_set_ne by discriminate.
    apply getitem_Ok_assoc in Hp. now rewrite Hp.
  - apply getitem_Ok_assoc. cbn [columns].
    rewrite (assoc_map_values (fun col => map (fun i => nth i col NaN) order)).
    rewrite assoc_set_eq. simpl. now rewrite <- Hkey.
  - rewrite <- Hkey. apply ascending_map. apply sort_by_nondecreasing.
    intros a b. apply cell_order_leb_total.
  - intros x. split.
    + intros Hx. apply in_map_iff in Hx as (i & <- & Hi).
      apply sort_by_In in Hi. apply in_seq in Hi.
      apply nth_In. lia.
    + intros Hx. destruct (In_nth _ _ NaN Hx) as (i & Hi & <-).
      apply in_map_iff. exists i. split; [reflexivity |].
      apply sort_by_In. apply in_seq. lia.
Qed.

Lemma periods_in_logical_order_witness :
  exists ps,
    getitem {| nrows := 3;
               columns := [("order_period", [Str "Morning"; Str "Afternoon";
                                             Str "Night"]);
                           ("Orders", [Int 2; Int 1; Int 4]);
                           ("sort", [Int 0; Int 1; Int 3])] |} "order_period"
    = Ok ps /\
    getitem {| nrows := 3;
               columns := [("order_period", [Str "Morning"; Str "Afternoon";
                                             Str "Night"]);
                           ("Orders", [Int 2; Int 1; Int 4]);
                           ("sort", [Int 0; Int 1; Int 3])] |} "sort"
    = Ok (map_dict order_map ps) /\
    ascending cell_order_leb (fun _ _ => false) (map_dict order_map ps) = true /\
    forall x, In x ps <-> In x [Str "Afternoon"; Str "Morning"; Str "Night"].
Proof.
  apply (periods_in_logical_order
           {| nrows := 3;
              columns := [("order_period", [Str "Afternoon"; Str "Morning";
                                            Str "Night"]);
                          ("Orders", [Int 1; Int 2; Int 4])] |});
    reflexivity.
Defined.

(** ** The period column of the filtered copy *)

Lemma new_inv (d : DataFrame) (st st' : store) (r : ref) :
  new d st = (Ok r, st') ->
  r = length (heap st) /\
  st' = {| heap := heap st ++ [d]; page := page st |}.
Proof. unfold new. intros H. inversion H. auto. Qed.

Lemma plotly_chart_inv (title : string) (r : ref) (st st' : store) (u : unit) :
  plotly_chart title r st = (Ok u, st') ->
  exists d, st' = {| heap := heap st; page := page st ++ [PlotlyChart title d] |}.
Proof.
  unfold plotly_chart, mbind, deref, emit.
  destruct (heap st !! r) as [d |]; intros H; inversion H. eauto.
Qed.

Lemma assign_inv (r : ref) (c : string) (s : Series) (st st' : store) (u : unit) :
  assign r c s st = (Ok u, st') ->
  exists d, heap st !! r = Some d /\
            st' = {| heap := <[r := setitem d c s]> (heap st); page := page st |}.
Proof.
  unfold assign. destruct (heap st !! r) as [d |]; intros H; inversion H. eauto.
Qed.

Ltac heap_length :=
  repeat first [rewrite length_app | rewrite length_insert];
  cbn [length]; lia.

Ltac lookup_through :=
  cbn [heap];
  repeat first
    [ rewrite lookup_app_l by heap_length
    | rewrite list_lookup_insert_ne by heap_length
    | rewrite list_lookup_insert_eq by heap_length ].

Ltac peel H :=
  let a := fresh "a" in
  let s := fresh "s" in
  let Hs := fresh "Hs" in
  apply mbind_inv_Ok in H as (a & s & Hs & H);
  lazymatch type of Hs with
  | new _ _ = _ => apply new_inv in Hs as [-> ->]
  | plotly_chart _ _ _ = _ => apply plotly_chart_inv in Hs as (? & ->)
  | deref _ _ = _ => apply deref_inv_Ok in Hs as [Hs ->]
  | lift _ _ = _ => apply lift_inv_Ok in Hs as [Hs ->]
  end.

(** X19: when the filtered copy has no [order_period] column, the
    operational charts (lines 117-127) add one to it, and to no other
    table: a row of hour [h] gets [order_period h], an hour held as a
    float is truncated first, and a row without an hour is counted as
    hour 0, that is Night; the other columns of the copy stay as they
    are. *)
Theorem operations_adds_period {RT : Runtime} (st st' : store) (dff : ref)
  (e : DataFrame) :
  heap st !! dff = Some e ->
  has_column "order_period" e = false ->
  operations dff st = (Ok tt, st') ->
  exists hours periods,
    getitem e "order_hour" = Ok hours /\
    heap st' !! dff = Some (setitem e "order_period" periods) /\
    length periods = length hours /\
    (forall i, hours !! i = Some NaN -> periods !! i = Some (Str "Night")) /\
    (forall i h, hours !! i = Some (Int h) ->
                 periods !! i = Some (Str (order_period h))) /\
    (forall i q, hours !! i = Some (Float q) ->
                 periods !! i = Some (Str (order_period (trunc q)))) /\
    (forall r x, r <> dff -> heap st !! r = Some x -> heap st' !! r = Some x).
Proof.
  intros Hdff Hno H. pose proof (lookup_lt_Some _ _ _ Hdff) as Hlt.
  unfold operations in H.
  do 13 peel H.
  (* the table behind dff is still e *)
  apply mbind_inv_Ok in H as (d & s & Hd & H).
  apply deref_inv_Ok in Hd as [Hd ->].
  revert Hd. lookup_through. rewrite Hdff. intros Hd.
  inversion Hd; subst d; clear Hd.
  rewrite Hno in H. cbn [negb] in H.
  apply mbind_inv_Ok in H as (u & s & Hif & H).
  apply mbind_inv_Ok in Hif as (hours & s0 & Hh & Hif).
  apply lift_inv_Ok in Hh as [Hh ->].
  apply mbind_inv_Ok in Hif as (hs & s0 & Hhs & Hif).
  apply lift_inv_Ok in Hhs as [Hhs ->].
  apply assign_inv in Hif as (d & Hd & ->).
  revert Hd. lookup_through. rewrite Hdff. intros Hd.
  inversion Hd; subst d; clear Hd.
  (* the rest assigns to the new table tmp2 only *)
  do 3 peel H.
  peel H.
  peel H.
  apply mbind_inv_Ok in H as (u2 & s & Hassign & H).
  apply assign_inv in Hassign as (d2 & Hd2 & ->).
  do 3 peel H.
  apply plotly_chart_inv in H as (? & ->).
  exists hours, (map (fun x => Str (order_period x)) hs).
  split; [exact Hh |]. split; [| split; [| split; [| split; [| split]]]].
  - lookup_through. reflexivity.
  - rewrite length_map. unfold astype_int in Hhs.
    rewrite (rmap_length _ _ _ Hhs). unfold fillna. apply length_map.
  - intros i Hi.
    assert (Hi' : fillna (Int 0) hours !! i = Some (Int 0))
      by (unfold fillna; rewrite lookup_map, Hi; reflexivity).
    destruct (rmap_lookup _ _ _ _ _ Hhs Hi') as (z & Hz & Hzi).
    simpl in Hz. inversion Hz; subst z. now rewrite lookup_map, Hzi.
  - intros i h Hi.
    assert (Hi' : fillna (Int 0) hours !! i = Some (Int h))
      by (unfold fillna; rewrite lookup_map, Hi; reflexivity).
    destruct (rmap_lookup _ _ _ _ _ Hhs Hi') as (z & Hz & Hzi).
    simpl in Hz. inversion Hz; subst z. now rewrite lookup_map, Hzi.
  - intros i q Hi.
    assert (Hi' : fillna (Int 0) hours !! i = Some (Float q))
      by (unfold fillna; rewrite lookup_map, Hi; reflexivity).
    destruct (rmap_lookup _ _ _ _ _ Hhs Hi') as (z & Hz & Hzi).
    simpl in Hz. inversion Hz; subst z. now rewrite lookup_map, Hzi.
  - intros r other Hr Hother.
    pose proof (lookup_lt_Some _ _ _ Hother) as Hrlt.
    lookup_through. exact Hother.
Qed.

Lemma operations_adds_period_witness :
  exists hours periods,
    getitem sample_clean "order_hour" = Ok hours /\
    heap (snd (operations (RT := sample_runtime) 0%nat sample_store)) !! 0%nat
    = Some (setitem sample_clean "order_period" periods) /\
    length periods = length hours /\
    (forall i, hours !! i = Some NaN -> periods !! i = Some (Str "Night")) /\
    (forall i h, hours !! i = Some (Int h) ->
                 periods !! i = Some (Str (order_period h))) /\
    (forall i q, hours !! i = Some (Float q) ->
                 periods !! i = Some (Str (order_period (trunc q)))) /\
    (forall r x, r <> 0%nat -> heap sample_store !! r = Some x ->
                 heap (snd (operations (RT := sample_runtime) 0%nat sample_store)) !! r
                 = Some x).
Proof.
  apply (operations_adds_period (RT := sample_runtime) sample_store
           (snd (operations (RT := sample_runtime) 0%nat sample_store))
           0%nat sample_clean).
  - reflexivity.
  - reflexivity.
  - vm_compute. reflexivity.
Defined.
